(** * pipenv/utils.py: the dependency-resolution core, embedded in Rocq

    The development follows [src/pipenv/utils.py].  Part I embeds the data
    model and the functions (package-name normalisation, marker
    normalisation, the Python-version override, the two-pass orchestrator,
    hash collection, lockfile formatting and merging, the transitive
    expander).  Part II states and proves the properties.

    Conventions of the embedding:
    - a Python [str] is a [string]; [str.lower] is modelled on ASCII
      (package names, markers and hashes are ASCII);
    - a Python [dict] is an association list in insertion order, keys
      unique ([PyDict]); a Python [set] of strings is a [gset string] where
      only membership matters and a duplicate-free list where it is sorted;
    - a raised exception is the [Raise] constructor of [result];
    - what lives outside [utils.py] (pip, packaging, requirementslib, the
      network, the file system) is a section variable or a record field. *)

From Stdlib Require Import String Ascii.
From stdpp Require Import base option list strings sorting gmap pretty.

Open Scope string_scope.

(* ================================================================== *)
(** * Part I: the embedding                                            *)
(* ================================================================== *)

(** ** Exceptions *)

Inductive exn : Type :=
  | KeyError (key : string)
  | TypeError (msg : string)
  | AttributeError (msg : string)
  | InvalidMarker (marker : string)
  | RequirementError
  | ResolutionFailure.

Inductive result (A : Type) : Type :=
  | Ok (a : A)
  | Raise (e : exn).
Arguments Ok {A} a.
Arguments Raise {A} e.

#[global] Instance result_ret : MRet result := fun A a => Ok a.
#[global] Instance result_bind : MBind result := fun A B k r =>
  match r with
  | Ok a => k a
  | Raise e => Raise e
  end.

#[global] Instance result_fmap : FMap result := fun A B f r =>
  match r with
  | Ok a => Ok (f a)
  | Raise e => Raise e
  end.

Definition is_ok {A} (r : result A) : bool :=
  match r with Ok _ => true | Raise _ => false end.

(** ** Strings *)

Module PyStr.

Definition is_upper (c : ascii) : bool :=
  let n := nat_of_ascii c in (65 <=? n)%nat && (n <=? 90)%nat.

Definition lower_ascii (c : ascii) : ascii :=
  if is_upper c then ascii_of_nat (nat_of_ascii c + 32) else c.

(** [s.lower()] *)
Fixpoint lower (s : string) : string :=
  match s with
  | EmptyString => EmptyString
  | String c s' => String (lower_ascii c) (lower s')
  end.

(** [s.replace(a, b)] for one-character [a] and [b] *)
Fixpoint replace_char (a b : ascii) (s : string) : string :=
  match s with
  | EmptyString => EmptyString
  | String c s' =>
      String (if Ascii.eqb c a then b else c) (replace_char a b s')
  end.

(** [s.startswith(p)] *)
Definition startswith (s p : string) : bool := String.prefix p s.

(** [needle in hay] *)
Fixpoint contains (needle hay : string) : bool :=
  String.prefix needle hay ||
  match hay with
  | EmptyString => false
  | String _ hay' => contains needle hay'
  end.

(** [c in s] for a character *)
Fixpoint has_char (c : ascii) (s : string) : bool :=
  match s with
  | EmptyString => false
  | String d s' => Ascii.eqb d c || has_char c s'
  end.

(** [s.endswith(p)] *)
Definition endswith (s p : string) : bool :=
  String.prefix (String.rev p) (String.rev s).

(** [s.lstrip(c)] for a one-character set *)
Fixpoint lstrip_char (c : ascii) (s : string) : string :=
  match s with
  | EmptyString => EmptyString
  | String d s' => if Ascii.eqb d c then lstrip_char c s' else s
  end.

Definition is_space (c : ascii) : bool :=
  let n := nat_of_ascii c in
  ((9 <=? n)%nat && (n <=? 13)%nat) || (n =? 32)%nat
  || ((28 <=? n)%nat && (n <=? 31)%nat).

Fixpoint lstrip (s : string) : string :=
  match s with
  | EmptyString => EmptyString
  | String d s' => if is_space d then lstrip s' else s
  end.

(** [s.strip()] *)
Definition strip (s : string) : string :=
  String.rev (lstrip (String.rev (lstrip s))).

(** [sep.join(l)] *)
Fixpoint join (sep : string) (l : list string) : string :=
  match l with
  | [] => ""
  | [x] => x
  | x :: l' => x ++ sep ++ join sep l'
  end.

(** [k in l] for a list or tuple of strings *)
Definition in_list (k : string) (l : list string) : bool :=
  existsb (String.eqb k) l.

Definition nonempty (s : string) : bool :=
  match s with EmptyString => false | _ => true end.

End PyStr.

(** ** Dictionaries: association lists in insertion order *)

Module PyDict.

Definition dict (V : Type) : Type := list (string * V).

Section ops.
Context {V : Type}.

(** [d.get(k)] *)
Fixpoint get (k : string) (d : dict V) : option V :=
  match d with
  | [] => None
  | (k', v) :: d' => if String.eqb k' k then Some v else get k d'
  end.

(** [k in d] *)
Definition mem (k : string) (d : dict V) : bool :=
  match get k d with Some _ => true | None => false end.

(** [d[k] = v]: an existing key keeps its place, a new one goes last *)
Fixpoint set (k : string) (v : V) (d : dict V) : dict V :=
  match d with
  | [] => [(k, v)]
  | (k', v') :: d' =>
      if String.eqb k' k then (k', v) :: d' else (k', v') :: set k v d'
  end.

(** [del d[k]], or [d.pop(k, None)] *)
Fixpoint del (k : string) (d : dict V) : dict V :=
  match d with
  | [] => []
  | (k', v') :: d' =>
      if String.eqb k' k then del k d' else (k', v') :: del k d'
  end.

(** [d.update(e)] *)
Definition update (d e : dict V) : dict V :=
  fold_left (fun acc kv => set kv.1 kv.2 acc) e d.

(** [list(d.keys())] *)
Definition keys (d : dict V) : list string := map fst d.

(** A dictionary holds one binding per key. *)
Definition wf (d : dict V) : Prop := NoDup (keys d).

(** [d[k]], raising [KeyError] *)
Definition getitem (k : string) (d : dict V) : result V :=
  match get k d with
  | Some v => Ok v
  | None => Raise (KeyError k)
  end.

End ops.

End PyDict.

Import PyDict.

(** ** Values found in Pipfile and lockfile entries *)

Inductive pyval : Type :=
  | PyNone
  | PyBool (b : bool)
  | PyStr (s : string)
  | PyList (l : list string).

#[global] Instance pyval_eq_dec : EqDecision pyval.
Proof. solve_decision. Defined.

(** Python truthiness *)
Definition truthy (v : pyval) : bool :=
  match v with
  | PyNone => false
  | PyBool b => b
  | PyStr s => PyStr.nonempty s
  | PyList l => match l with [] => false | _ => true end
  end.

(** Truthiness of [d.get(k)] (and of [d.get(k, False)], [d.get(k, "")]) *)
Definition truthy_at (k : string) (d : dict pyval) : bool :=
  match get k d with Some v => truthy v | None => false end.

(** A lockfile or Pipfile entry in its mapping form *)
Abbreviation entry := (dict pyval).

(** ** Package names (utils.py, lines 56-57 and 1560-1567) *)

Definition VCS_LIST : list string := ["git"; "svn"; "hg"; "bzr"].
Definition SCHEME_LIST : list string :=
  ["http://"; "https://"; "ftp://"; "ftps://"; "file://"].

(** [any(i not in name for i in (VCS_LIST + SCHEME_LIST))] *)
Definition lacks_some_marker_word (name : string) : bool :=
  existsb (fun i => negb (PyStr.contains i name)) (VCS_LIST ++ SCHEME_LIST).

Definition pep423_name (name : string) : string :=
  let name := PyStr.lower name in
  if lacks_some_marker_word name
  then PyStr.replace_char "_" "-" name
  else name.

(** ** The Python-version override (utils.py, lines 231-250) *)

(** [os.environ] *)
Abbreviation environ := (gmap string string).

(** The constructor arguments.  [None] stands for a value that is not a
    string and is falsy ([False], the default of [resolve_deps]'s [python],
    or [None]); an empty string is falsy as well. *)
Record HackedPythonVersion : Type := {
  python_version : option string;
  python_path : option string;
}.

(** [if value:] followed by [str(value)] *)
Definition truthy_str (o : option string) : option string :=
  match o with
  | Some s => if PyStr.nonempty s then Some s else None
  | None => None
  end.

Definition setenv_if (k : string) (o : option string) (env : environ)
  : environ :=
  match truthy_str o with
  | Some s => <[k := s]> env
  | None => env
  end.

(** [HackedPythonVersion.__enter__] *)
Definition HackedPythonVersion_enter (h : HackedPythonVersion)
    (env : environ) : environ :=
  let env := setenv_if "PIPENV_REQUESTED_PYTHON_VERSION" (python_version h) env in
  setenv_if "PIP_PYTHON_PATH" (python_path h) env.

(** [HackedPythonVersion.__exit__]: [del os.environ[...]], a [KeyError]
    being swallowed; nothing else is touched. *)
Definition HackedPythonVersion_exit (h : HackedPythonVersion)
    (env : environ) : environ :=
  delete "PIPENV_REQUESTED_PYTHON_VERSION" env.

(** [with HackedPythonVersion(...): body]: the environment after the block,
    whatever way the body is left ([__exit__] runs on every exit path). *)
Definition with_HackedPythonVersion {A} (h : HackedPythonVersion)
    (body : environ → A * environ) (env : environ) : A * environ :=
  let '(a, env') := body (HackedPythonVersion_enter h env) in
  (a, HackedPythonVersion_exit h env').

(** ** The two-pass orchestrator (utils.py, lines 1329-1394) *)

(** How one call of [actually_resolve_deps] ends *)
Inductive pass_outcome (R : Type) : Type :=
  | Resolved (r : R)
  | RaisedRuntimeError
  | RaisedOther (e : exn).
Arguments Resolved {R} r.
Arguments RaisedRuntimeError {R}.
Arguments RaisedOther {R} e.

(** How [resolve_deps] ends *)
Inductive orchestration (R : Type) : Type :=
  | ReturnedNothing             (* [return results, resolver] with [[], None] *)
  | Returned (r : R)
  | SysExit (status : nat)
  | Propagated (e : exn).
Arguments ReturnedNothing {R}.
Arguments Returned {R} r.
Arguments SysExit {R} status.
Arguments Propagated {R} e.

(** One resolution attempt as the orchestrator sees it: the override that
    was installed and the environment the pass ran in. *)
Record attempt : Type := {
  attempt_override : HackedPythonVersion;
  attempt_environ : environ;
}.

Section orchestrator.

Context {R : Type}.

(** [which("python", allow_global=allow_global)] *)
Variable which_python : option string.
(** [project.virtualenv_src_location] *)
Variable virtualenv_src_location : string.
(** [sys.executable] and [sys.version_info[:3]] of the running host *)
Variable sys_executable : option string.
Variable sys_version_info : nat * nat * nat.
(** [actually_resolve_deps], as an oracle: its [n]-th call in this run,
    started in a given environment, ends in an outcome and leaves an
    environment behind. *)
Variable actually_resolve_deps : nat → environ → pass_outcome R * environ.

(** [".".join([str(s) for s in sys.version_info[:3]])] *)
Definition host_python_version : string :=
  let '(a, b, c) := sys_version_info in
  PyStr.join "." [pretty a; pretty b; pretty c].

Definition first_override (python : option string) : HackedPythonVersion :=
  {| python_version := python; python_path := which_python |}.

Definition second_override : HackedPythonVersion :=
  {| python_version := Some host_python_version;
     python_path := sys_executable |}.

(** [if not os.environ.get("PIP_SRC"): os.environ["PIP_SRC"] = ...] *)
Definition ensure_pip_src (env : environ) : environ :=
  match truthy_str (env !! "PIP_SRC") with
  | Some _ => env
  | None => <["PIP_SRC" := virtualenv_src_location]> env
  end.

(** One [with HackedPythonVersion(...): try: ... except RuntimeError] *)
Definition run_pass (n : nat) (h : HackedPythonVersion) (env : environ)
  : (pass_outcome R * attempt) * environ :=
  with_HackedPythonVersion h
    (fun env1 =>
       let '(o, env2) := actually_resolve_deps n env1 in
       ((o, {| attempt_override := h; attempt_environ := env1 |}), env2))
    env.

(** The result, the environment left behind and the attempts made, in
    order. *)
Definition resolve_deps (deps : list string) (python : option string)
    (env : environ) : orchestration R * environ * list attempt :=
  let env := ensure_pip_src env in
  match deps with
  | [] => (ReturnedNothing, env, [])
  | _ =>
      (* First (proper) attempt *)
      let '((o1, a1), env) := run_pass 0 (first_override python) env in
      match o1 with
      | Resolved r => (Returned r, env, [a1])
      | RaisedOther e => (Propagated e, env, [a1])
      | RaisedRuntimeError =>
          (* Second (last-resort) attempt *)
          let '((o2, a2), env) := run_pass 1 second_override env in
          match o2 with
          | Resolved r => (Returned r, env, [a1; a2])
          | RaisedOther e => (Propagated e, env, [a1; a2])
          | RaisedRuntimeError => (SysExit 1, env, [a1; a2])
          end
      end
  end.

End orchestrator.

(** ** Environment markers: [packaging.markers.Marker]

    [utils.py] imports [Marker] from the vendored [packaging] distribution
    and only uses [str(Marker(text))].  The class is not part of
    [utils.py]; the functions below take [str(Marker(_))] as a parameter
    ([Marker_str]), and [packaging_Marker_str] is a model of the PEP 508
    marker grammar as [packaging] implements it, used to evaluate them on
    concrete entries. *)

Definition dquote : ascii := "034"%char.
Definition squote : ascii := "039"%char.

Module Pep508.

Inductive mvar : Type :=
  | Variable_ (name : string)
  | Value_ (v : string).

#[local] Unset Elimination Schemes.
Inductive mnode : Type :=
  | MItem (lhs : mvar) (op : string) (rhs : mvar)
  | MBool (op : string)
  | MGroup (g : list mnode).
#[local] Set Elimination Schemes.

Inductive parse (A : Type) : Type :=
  | Parsed (a : A) (rest : string)
  | NoParse
  | OutOfFuel.
Arguments Parsed {A} a rest.
Arguments NoParse {A}.
Arguments OutOfFuel {A}.

Definition is_ws (c : ascii) : bool :=
  Ascii.eqb c " " || Ascii.eqb c "009" || Ascii.eqb c "010"
  || Ascii.eqb c "013".

Fixpoint skip_ws (s : string) : string :=
  match s with
  | String c s' => if is_ws c then skip_ws s' else s
  | EmptyString => EmptyString
  end.

Fixpoint drop (n : nat) (s : string) : string :=
  match n, s with
  | S n', String _ s' => drop n' s'
  | _, _ => s
  end.

(** The first literal of the list that the text starts with, leading
    white space skipped *)
Fixpoint literal (lits : list string) (s : string)
  : option (string * string) :=
  match lits with
  | [] => None
  | l :: lits' =>
      if String.prefix l (skip_ws s)
      then Some (l, drop (String.length l) (skip_ws s))
      else literal lits' s
  end.

Definition VARIABLE : list string :=
  [ "implementation_version"; "platform_python_implementation";
    "implementation_name"; "python_full_version"; "platform_release";
    "platform_version"; "platform_machine"; "platform_system";
    "python_version"; "sys_platform"; "os_name"; "os.name";
    "sys.platform"; "platform.version"; "platform.machine";
    "platform.python_implementation"; "python_implementation"; "extra" ].

Definition ALIASES : dict string :=
  [ ("os.name", "os_name"); ("sys.platform", "sys_platform");
    ("platform.version", "platform_version");
    ("platform.machine", "platform_machine");
    ("platform.python_implementation", "platform_python_implementation");
    ("python_implementation", "platform_python_implementation") ].

Definition MARKER_OP : list string :=
  [ "==="; "=="; ">="; "<="; "!="; "~="; ">"; "<"; "not in"; "in" ].

Definition BOOLOP : list string := [ "and"; "or" ].

(** The text up to the closing quote; a line break ends the attempt *)
Fixpoint quoted_body (q : ascii) (s : string) : option (string * string) :=
  match s with
  | EmptyString => None
  | String c s' =>
      if Ascii.eqb c q then Some (EmptyString, s')
      else if Ascii.eqb c "010" || Ascii.eqb c "013" then None
      else match quoted_body q s' with
           | Some (body, rest) => Some (String c body, rest)
           | None => None
           end
  end.

Definition marker_value (s : string) : option (string * string) :=
  match skip_ws s with
  | String c s' =>
      if Ascii.eqb c squote || Ascii.eqb c dquote
      then quoted_body c s' else None
  | EmptyString => None
  end.

Definition marker_var (s : string) : option (mvar * string) :=
  match literal VARIABLE s with
  | Some (v, rest) => Some (Variable_ (default v (get v ALIASES)), rest)
  | None =>
      match marker_value s with
      | Some (v, rest) => Some (Value_ v, rest)
      | None => None
      end
  end.

Definition marker_item (s : string) : option (mnode * string) :=
  '(l, s) ← marker_var s;
  '(op, s) ← literal MARKER_OP s;
  '(r, s) ← marker_var s;
  Some (MItem l op r, s).

(** [MARKER_ATOM = MARKER_ITEM | Group(LPAREN + MARKER_EXPR + RPAREN)] *)
Definition marker_atom (marker_expr : string → parse (list mnode))
    (s : string) : parse mnode :=
  match marker_item s with
  | Some (i, rest) => Parsed i rest
  | None =>
      match literal ["("] s with
      | Some (_, s1) =>
          match marker_expr s1 with
          | Parsed g s2 =>
              match literal [")"] s2 with
              | Some (_, s3) => Parsed (MGroup g) s3
              | None => NoParse
              end
          | NoParse => NoParse
          | OutOfFuel => OutOfFuel
          end
      | None => NoParse
      end
  end.

(** [MARKER_EXPR = MARKER_ATOM + ZeroOrMore(BOOLOP + MARKER_EXPR)] *)
Fixpoint marker_expr (fuel : nat) (s : string) : parse (list mnode) :=
  match fuel with
  | O => OutOfFuel
  | S fuel =>
      match marker_atom (marker_expr fuel) s with
      | Parsed a s1 =>
          match literal BOOLOP s1 with
          | Some (op, s2) =>
              match marker_expr fuel s2 with
              | Parsed more s3 => Parsed (a :: MBool op :: more) s3
              | NoParse => Parsed [a] s1
              | OutOfFuel => OutOfFuel
              end
          | None => Parsed [a] s1
          end
      | NoParse => NoParse
      | OutOfFuel => OutOfFuel
      end
  end.

Definition serialize (v : mvar) : string :=
  match v with
  | Variable_ n => n
  | Value_ v => String dquote (v ++ String dquote EmptyString)
  end.

(** [_format_marker] *)
Fixpoint format_marker (first : bool) (m : mnode) : string :=
  match m with
  | MItem l op r => PyStr.join " " [serialize l; op; serialize r]
  | MBool op => op
  | MGroup [MItem l op r] => PyStr.join " " [serialize l; op; serialize r]
  | MGroup [MGroup _ as inner] => format_marker true inner
  | MGroup g =>
      let inner := PyStr.join " " (map (format_marker false) g) in
      if first then inner else "(" ++ inner ++ ")"
  end.

(** [MARKER = stringStart + MARKER_EXPR + stringEnd] *)
Definition parse_marker (s : string) : parse (list mnode) :=
  match marker_expr (S (String.length s)) s with
  | Parsed m rest =>
      match skip_ws rest with
      | EmptyString => Parsed m EmptyString
      | _ => NoParse
      end
  | r => r
  end.

End Pep508.

(** [str(Marker(text))]: the normalised text, or [InvalidMarker].  The
    fuel given to the parser is always enough. *)
Definition packaging_Marker_str (text : string) : result string :=
  match Pep508.parse_marker text with
  | Pep508.Parsed m _ => Ok (Pep508.format_marker true (Pep508.MGroup m))
  | _ => Raise (InvalidMarker text)
  end.

(** ** Marker normalisation (utils.py, lines 1884-1921) *)

(** Modelled from the spec: the keys of
    [packaging.markers.default_environment()], which is not part of
    [utils.py]; these are the environment attributes a marker may test
    ([python_version], [platform_system], ...). *)
Definition default_environment_keys : list string :=
  [ "implementation_name"; "implementation_version"; "os_name";
    "platform_machine"; "platform_release"; "platform_system";
    "platform_version"; "python_full_version";
    "platform_python_implementation"; "python_version"; "sys_platform" ].

Definition allowed_marker_keys : list string :=
  "markers" :: default_environment_keys.

(** [f"{v}"].  The text of a list is the one Python prints for strings
    without quotes or escapes. *)
Definition py_format (v : pyval) : string :=
  match v with
  | PyNone => "None"
  | PyBool true => "True"
  | PyBool false => "False"
  | PyStr s => s
  | PyList l =>
      "[" ++ PyStr.join ", " (map (fun s => "'" ++ s ++ "'") l) ++ "]"
  end.

(** [sorted(xs)] on strings, and [sorted(set(xs))] *)
Definition sorted (xs : list string) : list string :=
  merge_sort String.le xs.
Definition sorted_set (xs : list string) : list string :=
  sorted (remove_dups xs).

Section markers.

(** [str(Marker(text))] *)
Variable Marker_str : string → result string.

(** [str(Marker(v))] for a value taken from an entry: the parser calls a
    string method on its argument first, so anything but a string ends in
    an [AttributeError]. *)
Definition Marker_str_of (v : pyval) : result string :=
  match v with
  | PyStr s => Marker_str s
  | _ => Raise (AttributeError "expandtabs")
  end.

(** The loop over [pipfile_markers]: the state is [new_pipfile] and
    [marker_set]. *)
Fixpoint translate_marker_keys (pipfile_entry : entry)
    (pipfile_markers : list string) (st : entry * list string)
  : result (entry * list string) :=
  match pipfile_markers with
  | [] => Ok st
  | m :: rest =>
      let '(new_pipfile, marker_set) := st in
      entry_text ← py_format <$> getitem m pipfile_entry;
      if String.eqb m "markers"
      then translate_marker_keys pipfile_entry rest st
      else
        marker ← Marker_str (m ++ " " ++ entry_text);
        translate_marker_keys pipfile_entry rest
          (del m new_pipfile, (marker_set ++ [marker])%list)
  end.

Definition translate_markers (pipfile_entry : entry) : result entry :=
  let provided_keys := keys pipfile_entry in
  let pipfile_markers :=
    List.filter (fun k => PyStr.in_list k allowed_marker_keys)
      provided_keys in
  let new_pipfile := pipfile_entry in
  st ←
    match get "markers" new_pipfile with
    | Some marker_str =>
        let new_pipfile := del "markers" new_pipfile in
        if truthy marker_str then
          marker ← Marker_str_of marker_str;
          if PyStr.contains "extra" marker
          then Ok (new_pipfile, [])
          else Ok (new_pipfile, [marker])
        else Ok (new_pipfile, [])
    | None => Ok (new_pipfile, [])
    end;
  '(new_pipfile, marker_set) ←
    translate_marker_keys pipfile_entry pipfile_markers st;
  match marker_set with
  | [] => Ok new_pipfile
  | _ =>
      joined ← Marker_str (PyStr.join " or " (sorted_set marker_set));
      Ok (set "markers"
            (PyStr (PyStr.replace_char dquote squote joined)) new_pipfile)
  end.

End markers.

(** ** Install requirements as pip hands them over *)

(** A [Link].  [link_is_existing_dir] is the answer of the file system to
    [link.is_existing_dir()]. *)
Record Link : Type := {
  link_url : string;
  link_is_vcs : bool;
  link_is_file : bool;
  link_is_existing_dir : bool;
  link_hash : option string;
  link_hash_name : option string;
}.

(** One clause of a version specifier, e.g. [==2.25.1] *)
Record Specifier : Type := {
  operator : string;
  version : string;
}.

(** An [InstallRequirement].  [ireq.specifier] is [ireq.req.specifier]. *)
Record InstallRequirement : Type := {
  ireq_name : string;
  ireq_link : option Link;
  ireq_original_link : option Link;
  ireq_editable : bool;
  ireq_req : option (list Specifier);
}.

Definition ireq_specifier (ireq : InstallRequirement) : list Specifier :=
  default [] (ireq_req ireq).

(** [is_pinned_requirement] (utils.py, lines 1407-1418) *)
Definition is_pinned_requirement (ireq : InstallRequirement) : bool :=
  if ireq_editable ireq then false
  else
    match ireq_req ireq with
    | None => false
    | Some specifier =>
        match specifier with
        | [spec] =>
            PyStr.in_list (operator spec) ["=="; "==="]
            && negb (PyStr.endswith (version spec) ".*")
        | _ => false
        end
    end.

(** The same notion in the words of the specification: not editable,
    exactly one version specifier, its operator [==] or [===], its version
    not ending in [.*]. *)
Definition pinned_as_specified (ireq : InstallRequirement) : Prop :=
  ireq_editable ireq = false
  ∧ ∃ spec, ireq_specifier ireq = [spec]
      ∧ (operator spec = "==" ∨ operator spec = "===")
      ∧ PyStr.endswith (version spec) ".*" = false.

(** ** Hash collection (utils.py, lines 374-404 and 892-973) *)

(** What [session.get(pkg_url).json()["releases"]] gives: the releases per
    version, each release with its [digests]; a failure the [except] clause
    catches ([ValueError], [KeyError], [ConnectionError]); or another
    exception, which propagates. *)
Inductive pypi_answer : Type :=
  | ApiReleases (releases : dict (list (dict string)))
  | ApiCaught
  | ApiRaises (e : exn).

(** [version.replace("==", "")] *)
Fixpoint remove_eqeq (s : string) : string :=
  match s with
  | String "=" (String "=" s') => remove_eqeq s'
  | String c s' => String c (remove_eqeq s')
  | EmptyString => EmptyString
  end.

(** The hash cache: URL to cached text *)
Abbreviation hash_cache := (gmap string string).

Section hashes.

(** [shims.FAVORITE_HASH] *)
Variable FAVORITE_HASH : string.
(** [source["url"]] for the configured sources *)
Variable sources : list string.
(** The package index API, by package name *)
Variable pypi_json : string → pypi_answer.
(** [pep440_version]: pip's version parser, [None] for its [ValueError] *)
Variable pep440_version : string → option string.
(** [finder.find_best_candidate(name, specifier).iter_applicable()], as
    the links of the candidates *)
Variable applicable_candidates : string → list Specifier → list Link.
(** [hashlib.new(FAVORITE_HASH)] over the content behind a URL: the hex
    digest, or the exception of the download *)
Variable file_hexdigest : string → result string.

(** [Resolver.prepend_hash_types] *)
Definition prepend_hash_type (hash_type checksum : string) : string :=
  if PyStr.startswith checksum (hash_type ++ ":") then checksum
  else hash_type ++ ":" ++ checksum.

Definition prepend_hash_types (checksums : list string)
    (hash_type : string) : gset string :=
  list_to_set
    (prepend_hash_type hash_type <$> List.filter PyStr.nonempty checksums).

(** [clean_pkg_version] (utils.py, lines 226-228) *)
Definition clean_pkg_version (version : string) : option string :=
  pep440_version (remove_eqeq version).

(** [cleaned_releases]: a later release overwrites an earlier one with
    the same cleaned version; [None] for the parser's [ValueError]. *)
Fixpoint cleaned_releases (api_releases : dict (list (dict string)))
    (acc : dict (list (dict string)))
  : option (dict (list (dict string))) :=
  match api_releases with
  | [] => Some acc
  | (api_version, api_info) :: rest =>
      match clean_pkg_version api_version with
      | Some v => cleaned_releases rest (set v api_info acc)
      | None => None
      end
  end.

(** [Resolver._get_hashes_from_pypi]: [Ok None] is the [return None] of
    the [except] clause. *)
Definition _get_hashes_from_pypi (ireq : InstallRequirement)
  : result (option (gset string)) :=
  match pypi_json (ireq_name ireq) with
  | ApiRaises e => Raise e
  | ApiCaught => Ok None
  | ApiReleases api_releases =>
      match cleaned_releases api_releases [] with
      | None => Ok None
      | Some cleaned =>
          let version :=
            match ireq_specifier ireq with
            | spec :: _ => version spec
            | [] => ""
            end in
          match get version cleaned with
          | None => Ok None
          | Some releases =>
              match mapM (get FAVORITE_HASH) releases with
              | None => Ok None
              | Some collected_hashes =>
                  Ok (Some (prepend_hash_types collected_hashes
                              FAVORITE_HASH))
              end
          end
      end
  end.

(** [HashCacheMixin.get_hash] with [_get_file_hash] *)
Definition get_hash (link : Link) (cache : hash_cache)
  : result (string * hash_cache) :=
  match cache !! link_url link with
  | Some hash_value =>
      if PyStr.nonempty hash_value then Ok (hash_value, cache)
      else
        digest ← file_hexdigest (link_url link);
        let hash_value := PyStr.join ":" [FAVORITE_HASH; digest] in
        Ok (hash_value, <[link_url link := hash_value]> cache)
  | None =>
      digest ← file_hexdigest (link_url link);
      let hash_value := PyStr.join ":" [FAVORITE_HASH; digest] in
      Ok (hash_value, <[link_url link := hash_value]> cache)
  end.

(** [Resolver._get_hash_from_link] *)
Definition _get_hash_from_link (link : Link) (cache : hash_cache)
  : result (string * hash_cache) :=
  match link_hash link, link_hash_name link with
  | Some h, Some n =>
      if PyStr.nonempty h && String.eqb n FAVORITE_HASH
      then Ok (n ++ ":" ++ h, cache)
      else get_hash link cache
  | _, _ => get_hash link cache
  end.

(** The set comprehension over the applicable candidates *)
Fixpoint hashes_of_links (links : list Link) (cache : hash_cache)
  : result (gset string * hash_cache) :=
  match links with
  | [] => Ok (∅, cache)
  | link :: rest =>
      '(h, cache) ← _get_hash_from_link link cache;
      '(hs, cache) ← hashes_of_links rest cache;
      Ok ({[ h ]} ∪ hs, cache)
  end.

Definition any_pypi_source : bool :=
  existsb (fun url => PyStr.contains "python.org" url
                      || PyStr.contains "pypi.org" url) sources.

Definition from_candidates (ireq : InstallRequirement) (cache : hash_cache)
  : result (gset string * hash_cache) :=
  hashes_of_links
    (applicable_candidates (ireq_name ireq) (ireq_specifier ireq)) cache.

Definition from_index (ireq : InstallRequirement) (cache : hash_cache)
  : result (gset string * hash_cache) :=
  if any_pypi_source then
    hashes ← _get_hashes_from_pypi ireq;
    match hashes with
    | Some hs =>
        if decide (hs = ∅) then from_candidates ireq cache
        else Ok (hs, cache)
    | None => from_candidates ireq cache
    end
  else from_candidates ireq cache.

Definition when_pinned (ireq : InstallRequirement) (cache : hash_cache)
  : result (gset string * hash_cache) :=
  if negb (is_pinned_requirement ireq) then Ok (∅, cache)
  else from_index ireq cache.

(** [Resolver.collect_hashes] *)
Definition collect_hashes (ireq : InstallRequirement) (cache : hash_cache)
  : result (gset string * hash_cache) :=
  match ireq_link ireq with
  | Some link =>
      if link_is_vcs link
         || (link_is_file link && link_is_existing_dir link)
      then Ok (∅, cache)
      else
        match ireq_original_link ireq with
        | Some original_link =>
            '(h, cache) ← _get_hash_from_link original_link cache;
            Ok ({[ h ]}, cache)
        | None => when_pinned ireq cache
        end
  | None => when_pinned ireq cache
  end.

End hashes.

(** ** Requirements as requirementslib hands them over *)

(** The second component of [req.pipfile_entry], and a value of a Pipfile
    or lockfile section: a bare version string or a mapping. *)
Inductive pf_value : Type :=
  | PfStr (s : string)
  | PfMap (e : entry).

Definition pf_truthy (v : pf_value) : bool :=
  match v with
  | PfStr s => PyStr.nonempty s
  | PfMap e => match e with [] => false | _ => true end
  end.

(** The attributes of a [Requirement] that [utils.py] reads.  Properties
    that requirementslib computes are fields; [req_pipfile_entry] takes the
    value of [req.index] at the time of the call. *)
Record ReqInfo : Type := {
  req_name : string;
  (** [req.normalized_name]; a [TypeError] when no name can be derived *)
  req_normalized_name : result string;
  req_index : option string;
  (** [req.specifiers] and [str(req.get_version())] *)
  req_specifiers : option string;
  req_get_version : string;
  req_pipfile_entry : option string → string * pf_value;
  req_is_vcs : bool;
  req_vcs : option string;
  req_editable : bool;
  req_is_file_or_url : bool;
  req_is_wheel : bool;
  (** [req.is_direct_url], [req.line_instance.is_direct_url], [req.req.uri] *)
  req_is_direct_url : bool;
  req_uri : string;
  req_commit_hash : option string;
  (** What checking the repository out gives [get_vcs_deps]: the commit
      hash, or [None] for the [OSError] of a failed checkout *)
  req_checkout : option string;
  (** [req.as_ireq()], [req.ireq] *)
  req_as_ireq : InstallRequirement;
  req_constraint_line : string;
  (** [req.requirement.marker]: [None] without a marker (or without a
      [requirement]), else what [marker.evaluate()] answers here *)
  req_marker : option bool;
  (** [req.req.parsed_line]: [is_wheel], [is_local],
      [is_installable_dir(parsed_line.path)], [setup_info.version] *)
  line_is_wheel : bool;
  line_is_local : bool;
  line_is_installable_dir : bool;
  setup_info_version : option string;
}.

(** ** Lockfile entries from solver output (utils.py, lines 1027-1060) *)

Definition del_keys (ks : list string) (e : entry) : entry :=
  fold_left (fun acc k => del k acc) ks e.

Section lockfile_entries.

Variable Marker_str : string → result string.

(** The entry as it stands when [translate_markers] is called *)
Definition assembled_entry (req : ReqInfo)
    (markers_lookup index_lookup : dict string) (hashes : list string)
  : result (string * entry * option string) :=
  let version :=
    match truthy_str (req_specifiers req) with
    | Some _ => Some (req_get_version req)
    | None => None
    end in
  normalized_name ← req_normalized_name req;
  let index := get normalized_name index_lookup in
  let markers := get normalized_name markers_lookup in
  (* req.index = index *)
  let '(_, pf_entry) := req_pipfile_entry req index in
  let name := pep423_name (req_name req) in
  let entry : entry :=
    match pf_entry with
    | PfStr s => [("version", PyStr (PyStr.lstrip_char "=" s))]
    | PfMap pf =>
        let entry := update [] pf in
        let entry :=
          match version with
          | Some v =>
              if negb (req_is_vcs req) then set "version" (PyStr v) entry
              else entry
          | None => entry
          end in
        if req_is_direct_url req && negb (req_is_vcs req)
        then set "file" (PyStr (req_uri req)) entry
        else entry
    end in
  let entry :=
    match hashes with
    | [] => entry
    | _ => set "hashes" (PyList (sorted_set hashes)) entry
    end in
  let entry := set "name" (PyStr name) entry in
  let entry :=
    match truthy_str index with
    | Some i => update entry [("index", PyStr i)]
    | None => entry
    end in
  let entry :=
    match truthy_str markers with
    | Some m => update entry [("markers", PyStr m)]
    | None => entry
    end in
  Ok (name, entry, index).

Definition format_requirement_for_lockfile (req : ReqInfo)
    (markers_lookup index_lookup : dict string) (hashes : list string)
  : result (string * entry) :=
  '(name, entry, _) ← assembled_entry req markers_lookup index_lookup hashes;
  entry ← translate_markers Marker_str entry;
  let entry :=
    if bool_decide (is_Some (truthy_str (req_vcs req))) || req_editable req
    then del_keys ["index"; "version"; "file"] entry
    else entry in
  Ok (name, entry).

End lockfile_entries.

(** ** Lockfile entries from the skipped map (utils.py, lines 975-990) *)

Section skipped_entries.

(** [self.collect_hashes], with the hash cache it reads and fills *)
Variable collect_hashes_of :
  InstallRequirement → hash_cache → result (gset string * hash_cache).

Definition _clean_skipped_result (req : ReqInfo) (value : entry)
    (cache : hash_cache) : result (string * entry * hash_cache) :=
  let ref : option string :=
    if req_is_vcs req then req_commit_hash req else None in
  let ireq := req_as_ireq req in
  let entry := value in
  let entry := set "name" (PyStr (req_name req)) entry in
  let entry :=
    if truthy_at "editable" entry && truthy_at "version" entry
    then del "version" entry else entry in
  let ref : pyval :=
    match ref with
    | Some r => PyStr r
    | None => default PyNone (get "ref" entry)
    end in
  let entry := if truthy ref then set "ref" ref entry else entry in
  '(collected_hashes, cache) ← collect_hashes_of ireq cache;
  let entry :=
    if decide (collected_hashes = ∅) then entry
    else set "hashes" (PyList (sorted (elements collected_hashes))) entry in
  Ok (req_name req, entry, cache).

End skipped_entries.

(** ** Sample data for the worked examples *)

Module Samples.

Definition git_link : Link :=
  {| link_url := "git+https://github.com/psf/requests.git";
     link_is_vcs := true;
     link_is_file := false;
     link_is_existing_dir := false;
     link_hash := None;
     link_hash_name := None |}.

(** [requests==2.25.1], from the index *)
Definition requests_ireq : InstallRequirement :=
  {| ireq_name := "requests";
     ireq_link := None;
     ireq_original_link := None;
     ireq_editable := false;
     ireq_req := Some [ {| operator := "=="; version := "2.25.1" |} ] |}.

Definition requests : ReqInfo :=
  {| req_name := "requests";
     req_normalized_name := Ok "requests";
     req_index := None;
     req_specifiers := Some "==2.25.1";
     req_get_version := "==2.25.1";
     req_pipfile_entry := fun _ => ("requests", PfStr "==2.25.1");
     req_is_vcs := false;
     req_vcs := None;
     req_editable := false;
     req_is_file_or_url := false;
     req_is_wheel := false;
     req_is_direct_url := false;
     req_uri := "";
     req_commit_hash := None;
     req_checkout := None;
     req_as_ireq := requests_ireq;
     req_constraint_line := "requests==2.25.1";
     req_marker := None;
     line_is_wheel := false;
     line_is_local := false;
     line_is_installable_dir := false;
     setup_info_version := None |}.

(** [requests] from its git repository, not editable *)
Definition requests_git_ireq : InstallRequirement :=
  {| ireq_name := "requests";
     ireq_link := Some git_link;
     ireq_original_link := None;
     ireq_editable := false;
     ireq_req := Some [] |}.

Definition requests_git : ReqInfo :=
  {| req_name := "requests";
     req_normalized_name := Ok "requests";
     req_index := None;
     req_specifiers := None;
     req_get_version := "";
     req_pipfile_entry := fun _ =>
       ("requests",
        PfMap [("git", PyStr "https://github.com/psf/requests.git");
               ("ref", PyStr "main")]);
     req_is_vcs := true;
     req_vcs := Some "git";
     req_editable := false;
     req_is_file_or_url := false;
     req_is_wheel := false;
     req_is_direct_url := false;
     req_uri := "git+https://github.com/psf/requests.git";
     req_commit_hash := Some "0123abcd";
     req_checkout := Some "0123abcd";
     req_as_ireq := requests_git_ireq;
     req_constraint_line :=
       "git+https://github.com/psf/requests.git@main#egg=requests";
     req_marker := None;
     line_is_wheel := false;
     line_is_local := false;
     line_is_installable_dir := false;
     setup_info_version := Some "2.25.1" |}.

(** A resolver without an index answering and with an empty finder *)
Definition offline_collect_hashes :=
  collect_hashes "sha256" [] (fun _ => ApiCaught) Some (fun _ _ => [])
    (fun _ => Ok "00").

End Samples.

(** ** The shape of a hash string *)

Definition is_hexdigit (c : ascii) : bool :=
  let n := nat_of_ascii c in
  ((48 <=? n)%nat && (n <=? 57)%nat)
  || ((97 <=? n)%nat && (n <=? 102)%nat)
  || ((65 <=? n)%nat && (n <=? 70)%nat).

Fixpoint all_hex (s : string) : bool :=
  match s with
  | EmptyString => true
  | String c s' => is_hexdigit c && all_hex s'
  end.

(** A hex digest: at least one digit, hex digits only *)
Definition is_hex (s : string) : bool := PyStr.nonempty s && all_hex s.

(** [<algorithm>:<hex digest>] *)
Definition hash_form (h : string) : Prop :=
  ∃ algorithm digest,
    h = algorithm ++ ":" ++ digest ∧ algorithm ≠ "" ∧ is_hex digest = true.

(** A digest as a source may hand it over: missing (empty) or hex *)
Definition digest_ok (d : string) : Prop := d = "" ∨ is_hex d = true.

Definition link_ok (l : Link) : Prop :=
  ∀ h, link_hash l = Some h → digest_ok h.

(** A cached text is missing (empty) or a well-formed hash *)
Definition cache_ok (cache : gmap string string) : Prop :=
  ∀ url v, cache !! url = Some v → v = "" ∨ hash_form v.

(** The data that hash collection reads without checking it: the digests
    the index publishes, the digests of the hash function, the hashes in
    the fragments of candidate links, and what earlier runs left in the
    hash cache. *)
Record sources_well_formed (FAVORITE_HASH : string)
    (pypi_json : string → pypi_answer)
    (applicable_candidates : string → list Specifier → list Link)
    (file_hexdigest : string → result string)
    (ireq : InstallRequirement) (cache : gmap string string) : Prop := {
  favorite_hash_named : FAVORITE_HASH ≠ "";
  index_digests_hex :
    ∀ name releases version files file d,
      pypi_json name = ApiReleases releases →
      (version, files) ∈ releases → file ∈ files →
      get FAVORITE_HASH file = Some d → digest_ok d;
  file_digests_hex :
    ∀ url d, file_hexdigest url = Ok d → is_hex d = true;
  original_link_hash_hex :
    ∀ l, ireq_original_link ireq = Some l → link_ok l;
  candidate_hashes_hex :
    Forall link_ok
      (applicable_candidates (ireq_name ireq) (ireq_specifier ireq));
  cache_entries_formed : cache_ok cache;
}.

(** The index answer for [requests] *)

Module IndexSamples.

Definition requests_json : pypi_answer :=
  ApiReleases
    [ ("2.25.1",
       [ [("md5", "0f"); ("sha256", "c5a1")];
         [("md5", "1e"); ("sha256", "27b3")] ]) ].

End IndexSamples.

(** ** The lockfile merger (utils.py, lines 1146-1198 and 1924-1977) *)

(** [s.method()] on a value that has to be a string *)
Definition as_str (v : pyval) : result string :=
  match v with
  | PyStr s => Ok s
  | _ => Raise (AttributeError "not a string")
  end.

(** An exact pin the way [get_locked_dep] tests it:
    [version.startswith("==") and "*" not in version] *)
Definition exact_pin (version : string) : bool :=
  PyStr.startswith version "==" && negb (PyStr.has_char "*" version).

Section lockfile_merger.

Variable Marker_str : string → result string.
(** [requirementslib.utils.is_vcs] on a mapping *)
Variable is_vcs : entry → bool.

(** The version [clean_resolved_dep] records for a resolved record *)
Definition resolved_version (dep : entry) : option string :=
  if truthy_at "version" dep && negb (truthy_at "editable" dep)
  then
    let version := py_format (default PyNone (get "version" dep)) in
    Some (if PyStr.startswith version "==" then version
          else "==" ++ version)
  else None.

(** A lockfile entry under construction: its version is the resolved one
    and each key occurs once. *)
Definition versioned (dep lockfile : entry) : Prop :=
  get "version" lockfile = PyStr <$> resolved_version dep ∧ wf lockfile.

(** The Pipfile's pin takes the place of the resolved version: it is an
    exact pin and differs from it. *)
Definition pin_wins (dep : entry) (declared : string) : bool :=
  exact_pin declared
  && negb (bool_decide (resolved_version dep = Some declared)).

Definition copy_key (key : string) (dep lockfile : entry) : entry :=
  match get key dep with
  | Some v => set key v lockfile
  | None => lockfile
  end.

(** [if "version" in dep and dep["version"] and not dep.get("editable")] *)
Definition lock_version (dep lockfile : entry) : entry :=
  match resolved_version dep with
  | Some version => set "version" (PyStr version) lockfile
  | None => lockfile
  end.

(** [if is_vcs(dep):] the [ref], the VCS key and the [subdirectory] *)
Definition lock_vcs_keys (dep lockfile : entry) : entry :=
  if is_vcs dep then
    let lockfile :=
      match get "ref" dep with
      | Some PyNone | None => lockfile
      | Some ref => set "ref" ref lockfile
      end in
    let lockfile :=
      match List.find (fun k => PyStr.in_list k VCS_LIST) (keys dep) with
      | Some vcs_type =>
          if PyStr.nonempty vcs_type
          then copy_key vcs_type dep lockfile else lockfile
      | None => lockfile
      end in
    copy_key "subdirectory" dep lockfile
  else lockfile.

(** [for key in ["hashes", "index", "extras", "editable"]] *)
Definition lock_plain_keys (dep lockfile : entry) : entry :=
  fold_left (fun lockfile key => copy_key key dep lockfile)
    ["hashes"; "index"; "extras"; "editable"] lockfile.

(** The [path] or [file] key: the one of the Pipfile entry when it names
    the other of the two *)
Definition lock_fs_key (dep : entry) (pipfile_entry : option pf_value)
    (lockfile : entry) : result entry :=
  let fs_key := List.find (fun k => mem k dep) ["path"; "file"] in
  let pipfile_fs_key :=
    match pipfile_entry with
    | Some (PfMap pe) =>
        if pf_truthy (PfMap pe)
        then List.find (fun k => mem k pe) ["path"; "file"] else None
    | Some (PfStr s) =>
        if pf_truthy (PfStr s)
        then List.find (fun k => PyStr.contains k s) ["path"; "file"]
        else None
    | None => None
    end in
  match fs_key, pipfile_fs_key with
  | Some fk, Some pk =>
      if negb (String.eqb fk pk) then
        match pipfile_entry with
        | Some (PfMap pe) =>
            v ← getitem pk pe; Ok (set pk v lockfile)
        | _ => Raise (TypeError "string indices must be integers")
        end
      else Ok (copy_key fk dep lockfile)
  | Some fk, None => Ok (copy_key fk dep lockfile)
  | None, _ => Ok lockfile
  end.

(** [if "markers" in dep and dep.get("markers", "").strip():] *)
Definition lock_markers (dep : entry) (is_top_level : bool)
    (pipfile_entry : option pf_value) (lockfile : entry) : result entry :=
  has_markers ←
    match get "markers" dep with
    | Some v => s ← as_str v; Ok (PyStr.nonempty (PyStr.strip s))
    | None => Ok false
    end;
  if has_markers : bool then
    if negb is_top_level then
      translated_entry ← translate_markers Marker_str dep;
      translated ←
        PyStr.strip <$>
          as_str (default (PyStr "") (get "markers" translated_entry));
      Ok (if PyStr.nonempty translated
          then set "markers" (PyStr translated) lockfile
          else lockfile)
    else
      match pipfile_entry with
      | Some (PfMap pe) =>
          match translate_markers Marker_str pe with
          | Ok pe' =>
              Ok (set "markers" (default PyNone (get "markers" pe'))
                    lockfile)
          | Raise (TypeError _) => Ok lockfile
          | Raise e => Raise e
          end
      | _ => Ok lockfile    (* [TypeError]: not a mapping *)
      end
  else Ok lockfile.

Definition clean_resolved_dep (dep : entry) (is_top_level : bool)
    (pipfile_entry : option pf_value) : result (string * entry) :=
  name ← pep423_name <$> (getitem "name" dep ≫= as_str);
  let lockfile : entry := [] in
  let lockfile := lock_version dep lockfile in
  let lockfile := lock_vcs_keys dep lockfile in
  let lockfile := lock_plain_keys dep lockfile in
  lockfile ← lock_fs_key dep pipfile_entry lockfile;
  lockfile ← lock_markers dep is_top_level pipfile_entry lockfile;
  Ok (name, lockfile).

(** The Pipfile entry of a resolved record: the first key of the section
    that normalises to the record's name *)
Definition pipfile_entry_of (dep : entry) (pipfile_section : dict pf_value)
  : result (option pf_value) :=
  if truthy_at "name" dep then
    dep_name ← pep423_name <$> (getitem "name" dep ≫= as_str);
    let name :=
      List.find (fun k => String.eqb (pep423_name k) dep_name)
        (keys pipfile_section) in
    match name with
    | Some name =>
        if PyStr.nonempty name then Some <$> getitem name pipfile_section
        else Ok None
    | None => Ok None
    end
  else Ok None.

(** [if entry:] *)
Definition top_level_entry (entry : option pf_value) : option pf_value :=
  match entry with
  | Some e => if pf_truthy e then Some e else None
  | None => None
  end.

(** The [version] that [get_locked_dep] reads off the Pipfile entry *)
Definition declared_version (entry : option pf_value) : pyval :=
  match top_level_entry entry with
  | Some (PfMap e) => default (PyStr "") (get "version" e)
  | Some (PfStr s) => PyStr s
  | None => PyStr ""
  end.

(** [clean_resolved_dep(dep, **cleaner_kwargs)] *)
Definition clean_for_lockfile (dep : entry) (declared : option pf_value)
  : result (string * entry) :=
  match top_level_entry declared with
  | Some e => clean_resolved_dep dep true (Some e)
  | None => clean_resolved_dep dep false None
  end.

Definition get_locked_dep (dep : entry) (pipfile_section : dict pf_value)
    (prefer_pipfile : bool) : result (string * entry) :=
  entry ← pipfile_entry_of dep pipfile_section;
  '(lockfile_name, lockfile_dict) ← clean_for_lockfile dep entry;
  let version := declared_version entry in
  let lockfile_version := default (PyStr "") (get "version" lockfile_dict) in
  lockfile_dict ←
    if prefer_pipfile
       && negb (bool_decide (lockfile_version = version)) then
      v ← as_str version;
      Ok (if exact_pin v then set "version" version lockfile_dict
          else lockfile_dict)
    else Ok lockfile_dict;
  Ok (lockfile_name, lockfile_dict).

(** One turn of the loop of [prepare_lockfile] *)
Definition prepare_lockfile_entry (dep : entry)
    (pipfile : dict pf_value) (lockfile : dict pf_value)
  : result (dict pf_value) :=
  match dep with
  | [] => Ok lockfile
  | _ =>
      '(name, lockfile_entry) ← get_locked_dep dep pipfile true;
      match get name lockfile with
      | Some (PfMap current_entry) =>
          if pf_truthy (PfMap current_entry) then
            merged ←
              translate_markers Marker_str
                (update current_entry lockfile_entry);
            Ok (set name (PfMap merged) lockfile)
          else Ok (set name (PfMap lockfile_entry) lockfile)
      | _ => Ok (set name (PfMap lockfile_entry) lockfile)
      end
  end.

Fixpoint prepare_lockfile (results : list entry) (pipfile : dict pf_value)
    (lockfile : dict pf_value) : result (dict pf_value) :=
  match results with
  | [] => Ok lockfile
  | dep :: results =>
      lockfile ← prepare_lockfile_entry dep pipfile lockfile;
      prepare_lockfile results pipfile lockfile
  end.

End lockfile_merger.

(** [is_vcs] from requirementslib, on a mapping: some key names a version
    control system. *)
Definition requirementslib_is_vcs (e : entry) : bool :=
  existsb (fun k => PyStr.nonempty k && PyStr.in_list k VCS_LIST) (keys e).

(** ** The transitive expander (utils.py, lines 556-659 and 1837-1881) *)

(** A declared dependency of a fetched package ([r] in the loop over
    [setup_info.requires]): [r.url], [r.editable], [r.marker] ([None]
    without a marker, else what [r.marker.evaluate()] answers here) and
    [_requirement_to_str_lowercase_name(r)]. *)
Record DepInfo : Type := {
  dep_url : option string;
  dep_editable : bool;
  dep_marker : option bool;
  dep_line : string;
}.

(** A requirement with what fetching it discovers: the values of
    [setup_info.requires] ([None] for an absent one), each with what
    [parse_line] makes of its line.  Discovery is finite. *)
#[local] Unset Elimination Schemes.
Inductive Requirement : Type :=
  | Req (info : ReqInfo)
        (requires : list (option (DepInfo * result Requirement))).
#[local] Set Elimination Schemes.

Definition info_of (req : Requirement) : ReqInfo :=
  match req with Req info _ => info end.

(** The resolver as the expander uses it: the version of
    [finder.find_best_candidate(...).best_candidate], if any, and
    [collect_hashes] (the hash cache it fills is no result of the
    expander). *)
Record Resolver : Type := {
  best_candidate : InstallRequirement → option string;
  resolver_collect_hashes : InstallRequirement → result (gset string);
}.

(** ** The objects the locked map points to

    The entries of the locked map are dictionaries that the expander
    mutates after storing them, so the map holds addresses into a store. *)
Definition heap : Type := list pf_value.

Definition alloc (v : pf_value) (h : heap) : nat * heap :=
  (length h, (h ++ [v])%list).

(** [obj[k] = v] for the object at an address *)
Definition setitem_at (a : nat) (k : string) (v : pyval) (h : heap)
  : result heap :=
  match h !! a with
  | Some (PfMap e) => Ok (<[a := PfMap (set k v e)]> h)
  | _ => Raise (TypeError "object does not support item assignment")
  end.

Definition constraint_set : Type := gset string.
Definition locked_map : Type := dict nat.

(** What one call of [get_deps_from_req] hands back, with the store *)
Definition expansion : Type := constraint_set * locked_map * heap.

Section expander.

Variable Marker_str : string → result string.
Variable resolver : option Resolver.
(** [Requirement.from_ireq(ireq).add_hashes(hashes).pipfile_entry] for
    the requirement pinned to a version *)
Variable pinned_pipfile_entry :
  ReqInfo → string → gset string → string * pf_value.

(** [get_vcs_deps(reqs=[req])]: the [lockfile] it returns, as the name
    and the address of the entry; [None] when the checkout raised
    [OSError] and the requirement was skipped. *)
Definition get_vcs_deps (info : ReqInfo) (checkout : option string)
    (h : heap) : result (option (string * nat) * heap) :=
  name ← req_normalized_name info;
  if req_is_vcs info then
    match checkout with
    | Some commit_hash =>
        let '(a, h) := alloc (req_pipfile_entry info (req_index info)).2 h in
        h ← setitem_at a "ref" (PyStr commit_hash) h;
        Ok (Some (name, a), h)
    | None => Ok (None, h)
    end
  else Ok (None, h).

(** The body of [for r in requirements]; [recurse] is
    [cls.get_deps_from_req(new_req, resolver)]. *)
Definition expand_declared (recurse : Requirement → heap → result expansion)
    (info : ReqInfo) (r : option (DepInfo * result Requirement))
    (st : expansion) : result expansion :=
  let '(constraints, locked_deps, h) := st in
  match r with
  | None => Ok st
  | Some (d, parsed) =>
      if bool_decide (is_Some (truthy_str (dep_url d)))
         && negb (dep_editable d) then
        match parsed with
        | Raise e => Raise e
        | Ok new_req =>
            match dep_marker d with
            | Some false =>
                (* new_constraints = {}: a dict *)
                let '(a, h) :=
                  alloc (req_pipfile_entry info (req_index info)).2 h in
                new_name ← req_normalized_name (info_of new_req);
                let new_lock : locked_map := [(pep423_name new_name, a)] in
                let locked_deps := update locked_deps new_lock in
                (* constraints |= new_constraints *)
                Raise (TypeError
                  "unsupported operand type(s) for |=: 'set' and 'dict'")
            | _ =>
                match recurse new_req h with
                | Ok (new_constraints, new_lock, h) =>
                    Ok (constraints ∪ new_constraints,
                        update locked_deps new_lock, h)
                | Raise e => Raise e
                end
            end
        end
      else
        match dep_marker d with
        | Some false => Ok st
        | _ => Ok ({[ dep_line d ]} ∪ constraints, locked_deps, h)
        end
  end.

Fixpoint expand_all (recurse : Requirement → heap → result expansion)
    (info : ReqInfo) (rs : list (option (DepInfo * result Requirement)))
    (st : expansion) : result expansion :=
  match rs with
  | [] => Ok st
  | r :: rs =>
      match expand_declared recurse info r st with
      | Ok st => expand_all recurse info rs st
      | Raise e => Raise e
      end
  end.

(** The version written into the top-level entry of a requirement that is
    no VCS requirement *)
Definition top_level_version (info : ReqInfo) : option string :=
  match truthy_str (req_specifiers info) with
  | Some s => Some s
  | None =>
      match truthy_str (setup_info_version info) with
      | Some v => Some ("==" ++ v)
      | None => None
      end
  end.

(** [ireq.req.specifier = ireq.specifier.__class__(f"=={version}")] *)
Definition pin_to (ireq : InstallRequirement) (best_version : string)
  : InstallRequirement :=
  {| ireq_name := ireq_name ireq;
     ireq_link := ireq_link ireq;
     ireq_original_link := ireq_original_link ireq;
     ireq_editable := ireq_editable ireq;
     ireq_req := Some [ {| operator := "=="; version := best_version |} ] |}.

(** The branch of a requirement that is not fetched.  Reading
    [ireq.specifier] of an install requirement without a [req] is an
    [AttributeError]. *)
Definition expand_plain (info : ReqInfo) (h : heap) : result expansion :=
  match req_marker info with
  | Some false =>
      match resolver with
      | Some pypi =>
          let ireq := req_as_ireq info in
          match ireq_req ireq with
          | None => Raise (AttributeError "specifier")
          | Some _ =>
              match best_candidate pypi ireq with
              | Some best_version =>
                  hashes ←
                    resolver_collect_hashes pypi (pin_to ireq best_version);
                  let '(name, pf_entry) :=
                    pinned_pipfile_entry info best_version hashes in
                  translated ←
                    match pf_entry with
                    | PfMap e => translate_markers Marker_str e
                    | PfStr _ =>
                        Raise (TypeError
                                 "Entry is not a pipfile formatted mapping.")
                    end;
                  let '(a, h) := alloc (PfMap translated) h in
                  Ok (∅, [(pep423_name name, a)], h)
              | None =>
                  (* "Could not find a version of ... that matches your
                     environment, it will be skipped." *)
                  Ok (∅, [], h)
              end
          end
      | None => Ok (∅, [], h)
      end
  | _ => Ok ({[ req_constraint_line info ]}, [], h)
  end.

(** [(req.is_file_or_url or req.is_vcs) and not req.is_wheel] *)
Definition is_fetched (info : ReqInfo) : bool :=
  (req_is_file_or_url info || req_is_vcs info) && negb (req_is_wheel info).

(** The entry of the requirement itself, stored first: its address, the
    name it is stored under and the locked map so far *)
Definition fetch_entry (info : ReqInfo) (h : heap)
  : result (nat * string * expansion) :=
  '(entry, h) ←
    (if req_is_vcs info then
       '(lockfile, h) ← get_vcs_deps info (req_checkout info) h;
       (* req = next(iter(...), req_list); entry = lockfile[...] *)
       match lockfile with
       | Some (name, a) =>
           if String.eqb (pep423_name name) name then Ok (a, h)
           else Raise (KeyError (pep423_name name))
       | None => Raise (AttributeError "normalized_name")
       end
     else Ok (alloc (req_pipfile_entry info (req_index info)).2 h));
  name ←
    match req_normalized_name info with
    | Raise (TypeError _) => Raise RequirementError
    | r => r
    end;
  Ok (entry, name, (∅, set (pep423_name name) entry [], h)).

(** [resolve_vcs or (req.editable or parsed_line.is_wheel or (...))] *)
Definition reads_requires (info : ReqInfo) (resolve_vcs : bool) : bool :=
  resolve_vcs
  || (req_editable info || line_is_wheel info
      || (req_is_file_or_url info && line_is_local info
          && line_is_installable_dir info)).

(** "ensure the top level entry remains as provided" *)
Definition keep_top_level (info : ReqInfo) (entry : nat) (name : string)
    (st : expansion) : result expansion :=
  let '(constraints, locked_deps, h) := st in
  h ←
    (if negb (req_is_vcs info) then
       match top_level_version info with
       | Some v =>
           a ← getitem name locked_deps;
           setitem_at a "version" (PyStr v) h
       | None => Ok h
       end
     else Ok h);
  Ok (constraints, update locked_deps [(name, entry)], h).

Fixpoint get_deps_from_req (req : Requirement) (resolve_vcs : bool)
    (h : heap) : result expansion :=
  match req with
  | Req info requires =>
      if is_fetched info then
        match fetch_entry info h with
        | Raise e => Raise e
        | Ok (entry, name, st) =>
            if reads_requires info resolve_vcs then
              match
                expand_all
                  (fun new_req h => get_deps_from_req new_req true h)
                  info requires st
              with
              | Ok st => keep_top_level info entry name st
              | Raise e => Raise e
              end
            else keep_top_level info entry name st
        end
      else expand_plain info h
  end.

End expander.

(** Requirements for the worked examples of the expander *)

Module ExpanderSamples.

(** [pywin32; sys_platform == "win32"], evaluated on a host that is not
    Windows *)
Definition pywin32_ireq : InstallRequirement :=
  {| ireq_name := "pywin32";
     ireq_link := None;
     ireq_original_link := None;
     ireq_editable := false;
     ireq_req := Some [] |}.

Definition pywin32 : ReqInfo :=
  {| req_name := "pywin32";
     req_normalized_name := Ok "pywin32";
     req_index := None;
     req_specifiers := None;
     req_get_version := "";
     req_pipfile_entry := fun _ =>
       ("pywin32",
        PfMap [("version", PyStr "*");
               ("markers", PyStr "sys_platform == 'win32'")]);
     req_is_vcs := false;
     req_vcs := None;
     req_editable := false;
     req_is_file_or_url := false;
     req_is_wheel := false;
     req_is_direct_url := false;
     req_uri := "";
     req_commit_hash := None;
     req_checkout := None;
     req_as_ireq := pywin32_ireq;
     req_constraint_line := "pywin32; sys_platform == 'win32'";
     req_marker := Some false;
     line_is_wheel := false;
     line_is_local := false;
     line_is_installable_dir := false;
     setup_info_version := None |}.

(** A finder that knows no release of anything *)
Definition empty_index : Resolver :=
  {| best_candidate := fun _ => None;
     resolver_collect_hashes := fun _ => Ok ∅ |}.

(** A finder whose best candidate is always release 300 *)
Definition one_release : Resolver :=
  {| best_candidate := fun _ => Some "300";
     resolver_collect_hashes := fun _ => Ok {[ "sha256:c5a1" ]} |}.

Definition pinned_entry (info : ReqInfo) (v : string) (hs : gset string)
  : string * pf_value :=
  (req_name info,
   PfMap [("version", PyStr ("==" ++ v));
          ("hashes", PyList (sorted (elements hs)));
          ("markers", PyStr "sys_platform == 'win32'")]).

(** A local package at [./app] *)
Definition app (marker : option bool) : ReqInfo :=
  {| req_name := "app";
     req_normalized_name := Ok "app";
     req_index := None;
     req_specifiers := None;
     req_get_version := "";
     req_pipfile_entry := fun _ =>
       ("app", PfMap [("path", PyStr "./app"); ("editable", PyBool true)]);
     req_is_vcs := false;
     req_vcs := None;
     req_editable := true;
     req_is_file_or_url := true;
     req_is_wheel := false;
     req_is_direct_url := false;
     req_uri := "file:///src/app";
     req_commit_hash := None;
     req_checkout := None;
     req_as_ireq :=
       {| ireq_name := "app"; ireq_link := None;
          ireq_original_link := None; ireq_editable := true;
          ireq_req := Some [] |};
     req_constraint_line := "-e ./app";
     req_marker := marker;
     line_is_wheel := false;
     line_is_local := true;
     line_is_installable_dir := true;
     setup_info_version := Some "0.1" |}.

(** A dependency of [app] that is fetched from a URL and only applies on
    Windows *)
Definition winhelper_dep : DepInfo :=
  {| dep_url := Some "https://example.org/winhelper-1.0.tar.gz";
     dep_editable := false;
     dep_marker := Some false;
     dep_line :=
       "winhelper@ https://example.org/winhelper-1.0.tar.gz ; sys_platform == 'win32'" |}.

Definition winhelper : ReqInfo :=
  {| req_name := "winhelper";
     req_normalized_name := Ok "winhelper";
     req_index := None;
     req_specifiers := None;
     req_get_version := "";
     req_pipfile_entry := fun _ =>
       ("winhelper",
        PfMap [("file", PyStr "https://example.org/winhelper-1.0.tar.gz")]);
     req_is_vcs := false;
     req_vcs := None;
     req_editable := false;
     req_is_file_or_url := true;
     req_is_wheel := false;
     req_is_direct_url := true;
     req_uri := "https://example.org/winhelper-1.0.tar.gz";
     req_commit_hash := None;
     req_checkout := None;
     req_as_ireq :=
       {| ireq_name := "winhelper"; ireq_link := None;
          ireq_original_link := None; ireq_editable := false;
          ireq_req := Some [] |};
     req_constraint_line :=
       "winhelper@ https://example.org/winhelper-1.0.tar.gz";
     req_marker := Some false;
     line_is_wheel := false;
     line_is_local := false;
     line_is_installable_dir := false;
     setup_info_version := Some "1.0" |}.

Definition app_with_winhelper : Requirement :=
  Req (app None) [ Some (winhelper_dep, Ok (Req winhelper [])) ].

(** Dependencies of [app] that come from the index: one that applies
    everywhere, one that only applies on Windows.  [parse_line] is never
    asked about them. *)
Definition requests_dep : DepInfo :=
  {| dep_url := None;
     dep_editable := false;
     dep_marker := None;
     dep_line := "requests>=2.0" |}.

Definition pywin32_dep : DepInfo :=
  {| dep_url := None;
     dep_editable := false;
     dep_marker := Some false;
     dep_line := "pywin32; sys_platform == 'win32'" |}.

Definition app_with_index_deps : Requirement :=
  Req (app None)
    [ Some (requests_dep, Raise ResolutionFailure);
      Some (pywin32_dep, Raise ResolutionFailure) ].

End ExpanderSamples.

(** ** Further string methods *)

Module PyText.

(** The line feed character, and [chr(10)] as a string *)
Definition LF : ascii := "010"%char.
Definition newline : string := String LF "".

(** [s.split(sep)] for a non-empty [sep]: the separators found scanning
    from the left, none overlapping another.  [skip] counts the characters
    of a separator just found that are still to be passed over. *)
Fixpoint split_from (sep : string) (skip : nat) (s : string) : list string :=
  match s with
  | EmptyString => [""]
  | String c s' =>
      match skip with
      | S k => split_from sep k s'
      | O =>
          if String.prefix sep s
          then "" :: split_from sep (String.length sep - 1) s'
          else
            match split_from sep 0 s' with
            | x :: l => String c x :: l
            | [] => [String c ""]
            end
      end
  end.

Definition split (s sep : string) : list string := split_from sep 0 s.

(** [s.replace(old, new)] for a non-empty [old] *)
Definition replace (s old new : string) : string :=
  PyStr.join new (split s old).

(** [s] without the prefix [p], when it starts with it *)
Fixpoint strip_prefix (p s : string) : option string :=
  match p, s with
  | EmptyString, _ => Some s
  | String a p', String b s' =>
      if Ascii.eqb a b then strip_prefix p' s' else None
  | String _ _, EmptyString => None
  end.

End PyText.

(** ** Pipfile text (utils.py, lines 74-94) *)

(** The second loop of [cleanup_toml]: [i] is the index [enumerate]
    gives the line. *)
Fixpoint space_sections (i : nat) (lines : list string) : list string :=
  match lines with
  | [] => []
  | line :: rest =>
      let heading :=
        if PyStr.startswith line "[" && negb (i =? 0)%nat then [""] else [] in
      (heading ++ line :: space_sections (S i) rest)%list
  end.

Definition cleanup_toml (tml : string) : string :=
  let toml := PyText.split tml PyText.newline in
  (* Remove all empty lines from TOML. *)
  let new_toml :=
    List.filter (fun line => PyStr.nonempty (PyStr.strip line)) toml in
  let toml := PyStr.join PyText.newline new_toml in
  (* Add newlines between TOML sections. *)
  let new_toml := space_sections 0 (PyText.split toml PyText.newline) in
  (* adding new line at the end of the TOML file *)
  let new_toml := (new_toml ++ [""])%list in
  PyStr.join PyText.newline new_toml.

Module TomlSamples.

Definition pipfile : string :=
  PyStr.join PyText.newline
    [ "[packages]"; "requests = '*'"; ""; "   "; "[dev-packages]";
      "pytest = '*'" ].

End TomlSamples.

(** ** Temporary environments (utils.py, lines 1682-1691 and 2015-2028) *)

(** [os.environ.update(new)] *)
Definition environ_update (new env : environ) : environ := new ∪ env.

(** [with temp_environ(): body], whatever way the body is left: the
    [finally] clause empties [os.environ] and puts the saved copy back. *)
Definition with_temp_environ {A} (body : environ → A * environ)
    (env : environ) : A * environ :=
  let saved := env in                        (* dict(os.environ) *)
  let '(a, env) := body env in
  let env : gmap string string := ∅ in       (* os.environ.clear() *)
  (a, environ_update saved env).

(** [with locked_repository(requirement): body] for a VCS requirement, as
    far as [os.environ] goes; the [finally] clause runs on every exit
    path. *)
Definition with_locked_repository {A} (body : environ → A * environ)
    (env : environ) : A * environ :=
  let original_base := env !! "PIP_SHIMS_BASE_MODULE" in
  let env := delete "PIP_SHIMS_BASE_MODULE" env in
  let env := <["PIP_SHIMS_BASE_MODULE" := "pipenv.patched.notpip"]> env in
  let '(a, env) := body env in
  (a, setenv_if "PIP_SHIMS_BASE_MODULE" original_base env).

(** ** The resolver subprocess (utils.py, lines 1277-1303) *)

Section venv_resolver.

Context {A : Type}.

(** [get_pipenv_sitedir()] *)
Variable get_pipenv_sitedir : option string.
(** [str(project.s.PIPENV_VERBOSITY)] *)
Variable PIPENV_VERBOSITY : string.
(** The tracked temporary directory [req_dir] *)
Variable req_dir : string.
(** The lines [convert_deps_to_pip] gives, in the order in which
    [set(deps)] is iterated *)
Variable constraints : list string.
(** [resolve(cmd, sp, project)]: the subprocess gets a copy of
    [os.environ] *)
Variable resolve : environ → A * environ.

(** The assignments to [os.environ] inside the [with temp_environ()]
    block, in their order.  The first statement of the block re-encodes
    every key and value with [fs_str], the identity on text; the spinner and
    [convert_deps_to_pip] are taken not to write to [os.environ]. *)
Definition locking_environ (pypi_mirror : option string)
    (keep_outdated : bool) (env : environ) : environ :=
  let env := setenv_if "PIPENV_PYPI_MIRROR" pypi_mirror env in
  let env := <["PIPENV_VERBOSITY" := PIPENV_VERBOSITY]> env in
  let env := <["PIPENV_REQ_DIR" := req_dir]> env in
  let env := <["PIP_NO_INPUT" := "1"]> env in
  let env :=
    match get_pipenv_sitedir with
    | Some pipenv_site_dir => <["PIPENV_SITE_DIR" := pipenv_site_dir]> env
    | None => delete "PIPENV_SITE_DIR" env
    end in
  let env :=
    if keep_outdated then <["PIPENV_KEEP_OUTDATED" := "1"]> env else env in
  <["PIPENV_PACKAGES" := PyStr.join PyText.newline constraints]> env.

(** The block [with temp_environ(): ...] of [venv_resolve_deps] *)
Definition venv_resolve_deps_locking (pypi_mirror : option string)
    (keep_outdated : bool) (env : environ) : A * environ :=
  with_temp_environ
    (fun env => resolve (locking_environ pypi_mirror keep_outdated env)) env.

End venv_resolver.

(** ** Version specifiers of a Pipfile (utils.py, lines 1401-1404 and
    1479-1489) *)

Definition is_pinned (val : pf_value) : bool :=
  match val with
  | PfStr s => PyStr.startswith s "=="
  | PfMap e =>
      match get "version" e with
      | Some (PyStr s) => PyStr.startswith s "=="
      | _ => false
      end
  end.

(** [specified_version.split("==")[1]] is taken when the text starts with
    [==], so the list has a second element (lemma [split_pin_second]). *)
Definition is_required_version (version : string)
    (specified_version : pf_value) : result bool :=
  specified_version ←
    match specified_version with
    | PfStr s => Ok s
    | PfMap e =>
        match get "version" e with
        | None => Ok ""
        | Some v => as_str v
        end
    end;
  if PyStr.startswith specified_version "==" then
    let pin := default "" (PyText.split specified_version "==" !! 1%nat) in
    Ok (String.eqb (PyStr.strip version) (PyStr.strip pin))
  else Ok true.

(** ** Package indexes (utils.py, lines 286-332 and 1723-1738) *)

(** Exceptions of pipenv and of the libraries it calls that [exn] does not
    list *)
Inductive raised : Type :=
  | Builtin (e : exn)
  | SourceNotFound
  | PipenvUsageError (msg : string).

Inductive outcome (A : Type) : Type :=
  | Returns (a : A)
  | Raises (e : raised).
Arguments Returns {A} a.
Arguments Raises {A} e.

#[global] Instance outcome_ret : MRet outcome := fun A a => Returns a.
#[global] Instance outcome_bind : MBind outcome := fun A B k r =>
  match r with
  | Returns a => k a
  | Raises e => Raises e
  end.

Definition builtin {A} (r : result A) : outcome A :=
  match r with
  | Ok a => Returns a
  | Raise e => Raises (Builtin e)
  end.

(** The regular expressions of [utils.py] that are a sequence of literals,
    optional literals and [$]; [re.match] anchors them at the start, the
    second alternative of an optional literal is the backtracking. *)
Inductive re_item : Type :=
  | ReLit (s : string)
  | ReOpt (s : string)
  | ReEnd.

Fixpoint re_match (p : list re_item) (s : string) : bool :=
  match p with
  | [] => true
  | ReLit l :: p' =>
      match PyText.strip_prefix l s with
      | Some rest => re_match p' rest
      | None => false
      end
  | ReOpt l :: p' =>
      match PyText.strip_prefix l s with
      | Some rest => re_match p' rest || re_match p' s
      | None => re_match p' s
      end
  | ReEnd :: p' =>
      (* the end of the text, or just before a line feed that ends it *)
      (String.eqb s "" || String.eqb s PyText.newline) && re_match p' s
  end.

(** [^http[s]?:\/\/pypi(?:\.python)?\.org\/simple[\/]?$] *)
Definition is_pypi_url (url : string) : bool :=
  re_match
    [ ReLit "http"; ReOpt "s"; ReLit "://pypi"; ReOpt ".python";
      ReLit ".org/simple"; ReOpt "/"; ReEnd ] url.

(** [is_pypi_url(source["url"])]: [re.match] wants a string *)
Definition is_pypi_source (source : entry) : result bool :=
  url ← getitem "url" source;
  match url with
  | PyStr url => Ok (is_pypi_url url)
  | _ => Raise (TypeError "expected string or bytes-like object")
  end.

(** [[source for source in sources if not is_pypi_url(source["url"])]] *)
Fixpoint non_pypi_sources (sources : list entry) : result (list entry) :=
  match sources with
  | [] => Ok []
  | source :: rest =>
      pypi ← is_pypi_source source;
      kept ← non_pypi_sources rest;
      Ok (if pypi : bool then kept else source :: kept)
  end.

Definition replace_pypi_sources (sources : list entry)
    (pypi_replacement_source : entry) : result (list entry) :=
  kept ← non_pypi_sources sources;
  Ok (pypi_replacement_source :: kept).

(** What [urllib3.util.parse_url] gives of a URL *)
Record url_parts : Type := {
  url_host : option string;
  url_port : option nat;
}.

(** An index as [get_project_index] takes it: a name or URL, or a source
    mapping *)
Inductive index_arg : Type :=
  | IndexText (s : string)
  | IndexSource (source : entry).

Definition index_truthy (index : index_arg) : bool :=
  match index with
  | IndexText s => PyStr.nonempty s
  | IndexSource source => match source with [] => false | _ => true end
  end.

Section package_indexes.

(** [project.find_source], [None] for its [SourceNotFound] *)
Variable find_source : pyval → option entry.
(** [project.src_name_from_url] *)
Variable src_name_from_url : string → string.
(** [urllib3_util.parse_url], which raises on what it cannot parse *)
Variable parse_url : pyval → outcome url_parts.
(** [urlparse(url).hostname] *)
Variable urlparse_hostname : string → option string.

Definition create_mirror_source (url : string) : entry :=
  [ ("url", PyStr url);
    ("verify_ssl", PyBool (PyStr.startswith url "https://"));
    ("name", match urlparse_hostname url with
             | Some h => PyStr h
             | None => PyNone
             end) ].

Definition get_project_index (index : index_arg)
    (trusted_hosts : list string) : outcome entry :=
  match index with
  | IndexSource index =>
      match find_source (default PyNone (get "url" index)) with
      | Some source => Returns source
      | None => Raises SourceNotFound
      end
  | IndexText index =>
      match find_source (PyStr index) with
      | Some source => Returns source
      | None =>
          index_url ← parse_url (PyStr index);
          let src_name := src_name_from_url index in
          let verify_ssl :=
            match url_host index_url with
            | Some host => negb (PyStr.in_list host trusted_hosts)
            | None => true
            end in
          Returns [ ("url", PyStr index);
                    ("verify_ssl", PyBool verify_ssl);
                    ("name", PyStr src_name) ]
      end
  end.

(** [if not sources or source["url"] != sources[0]["url"]:
    sources.append(source)] *)
Definition append_unless_first (sources : list entry) (source : entry)
  : outcome (list entry) :=
  match sources with
  | [] => Returns [source]
  | first :: _ =>
      url ← builtin (getitem "url" source);
      first_url ← builtin (getitem "url" first);
      Returns (if decide (url = first_url) then sources
               else (sources ++ [source])%list)
  end.

Fixpoint append_extra_indexes (extra_indexes : list index_arg)
    (sources : list entry) : outcome (list entry) :=
  match extra_indexes with
  | [] => Returns sources
  | source :: rest =>
      extra_src ← get_project_index source [];
      sources ← append_unless_first sources extra_src;
      append_extra_indexes rest sources
  end.

Fixpoint append_pipfile_sources (pipfile_sources : list entry)
    (sources : list entry) : outcome (list entry) :=
  match pipfile_sources with
  | [] => Returns sources
  | source :: rest =>
      sources ← append_unless_first sources source;
      append_pipfile_sources rest sources
  end.

(** [[create_mirror_source(pypi_mirror) if is_pypi_url(source["url"])
      else source for source in sources]] *)
Fixpoint mirrored (pypi_mirror : string) (sources : list entry)
  : outcome (list entry) :=
  match sources with
  | [] => Returns []
  | source :: rest =>
      pypi ← builtin (is_pypi_source source);
      rest ← mirrored pypi_mirror rest;
      Returns ((if pypi : bool then create_mirror_source pypi_mirror
                else source) :: rest)
  end.

(** [get_source_list]; [trusted_hosts] is not passed on to
    [get_project_index].  [extra_indexes] is the list the function loops
    over (a single string stands for the list of it). *)
Definition get_source_list (pipfile_sources : list entry)
    (index : option index_arg) (extra_indexes : list index_arg)
    (trusted_hosts : list string) (pypi_mirror : option string)
  : outcome (list entry) :=
  let sources : list entry := [] in
  sources ←
    match index with
    | Some index =>
        if index_truthy index then
          source ← get_project_index index [];
          Returns (sources ++ [source])%list
        else Returns sources
    | None => Returns sources
    end;
  sources ←
    match extra_indexes with
    | [] => Returns sources
    | _ =>
        sources ← append_extra_indexes extra_indexes sources;
        (* the [else] of the [for] loop, which has no [break] *)
        append_pipfile_sources pipfile_sources sources
    end;
  let sources :=
    match sources with
    | [] => pipfile_sources
    | _ => sources
    end in
  match truthy_str pypi_mirror with
  | Some pypi_mirror => mirrored pypi_mirror sources
  | None => Returns sources
  end.

(** No source after the first has the URL of the first. *)
Definition first_url_unique (sources : list entry) : Prop :=
  match sources with
  | [] => True
  | first :: rest =>
      Forall (fun source =>
                ∃ url first_url, get "url" source = Some url
                                 ∧ get "url" first = Some first_url
                                 ∧ url ≠ first_url) rest
  end.

(** ** Arguments for pip (utils.py, lines 253-283 and 719-763) *)

(** [f"{url_parts.host}{url_port}"] *)
Definition trusted_host (parts : url_parts) : string :=
  let url_port :=
    match url_port parts with
    | Some (S p) => ":" ++ pretty (S p)
    | _ => ""
    end in
  match url_host parts with
  | Some host => host
  | None => "None"
  end ++ url_port.

(** [if not source.get("verify_ssl", True):] with what is added then *)
Definition trust_args (source : entry) (url : pyval)
  : outcome (list pyval) :=
  if negb (truthy (default (PyBool true) (get "verify_ssl" source))) then
    parts ← parse_url url;
    Returns [PyStr "--trusted-host"; PyStr (trusted_host parts)]
  else Returns [].

(** The loop over [sources[1:]] *)
Fixpoint extra_index_args (sources : list entry) (pip_args : list pyval)
  : outcome (list pyval) :=
  match sources with
  | [] => Returns pip_args
  | source :: rest =>
      let url := default PyNone (get "url" source) in
      if negb (truthy url) then extra_index_args rest pip_args
      else
        let pip_args := (pip_args ++ [PyStr "--extra-index-url"; url])%list in
        trust ← trust_args source url;
        extra_index_args rest (pip_args ++ trust)%list
  end.

Definition prepare_pip_source_args (sources : list entry)
    (pip_args : list pyval) : outcome (list pyval) :=
  match sources with
  | [] => Returns pip_args
  | first :: rest =>
      let package_url := default PyNone (get "url" first) in
      if negb (truthy package_url) then
        Raises (PipenvUsageError
                  "[[source]] section does not contain a URL.")
      else
        let pip_args := (pip_args ++ [PyStr "-i"; package_url])%list in
        trust ← trust_args first package_url;
        extra_index_args rest (pip_args ++ trust)%list
  end.

(** [Resolver.prepare_pip_args]; [None] for an option of the environment
    that is unset *)
Definition prepare_pip_args (sources : list entry) (pre : bool)
    (PIPENV_CACHE_DIR : string) (use_pep517 build_isolation : option bool)
  : outcome (list pyval) :=
  pip_args ←
    match sources with
    | [] => Returns []
    | _ => prepare_pip_source_args sources []
    end;
  let pip_args :=
    if decide (use_pep517 = Some false)
    then (pip_args ++ [PyStr "--no-use-pep517"])%list else pip_args in
  let pip_args :=
    if decide (build_isolation = Some false)
    then (pip_args ++ [PyStr "--no-build-isolation"])%list else pip_args in
  let pip_args :=
    if pre then (pip_args ++ [PyStr "--pre"])%list else pip_args in
  Returns (pip_args ++ [PyStr "--cache-dir"; PyStr PIPENV_CACHE_DIR])%list.

End package_indexes.

(** [bad_arg in arg] *)
Definition py_contains (needle : string) (v : pyval) : result bool :=
  match v with
  | PyStr s => Ok (PyStr.contains needle s)
  | PyList l => Ok (PyStr.in_list needle l)
  | PyBool _ => Raise (TypeError "argument of type 'bool' is not iterable")
  | PyNone => Raise (TypeError "argument of type 'NoneType' is not iterable")
  end.

(** [any(bad_arg in arg for bad_arg in skip_args)] *)
Fixpoint any_contained (skip_args : list string) (arg : pyval)
  : result bool :=
  match skip_args with
  | [] => Ok false
  | bad_arg :: rest =>
      found ← py_contains bad_arg arg;
      if found : bool then Ok true else any_contained rest arg
  end.

Fixpoint args_to_add (pip_args : list pyval) : result (list pyval) :=
  match pip_args with
  | [] => Ok []
  | arg :: rest =>
      skip ← any_contained ["build-isolation"; "use-pep517"; "cache-dir"] arg;
      kept ← args_to_add rest;
      Ok (if skip : bool then kept else arg :: kept)
  end.

(** [" ".join(args)] *)
Fixpoint as_strs (args : list pyval) : result (list string) :=
  match args with
  | [] => Ok []
  | PyStr s :: rest => cons s <$> as_strs rest
  | _ :: _ => Raise (TypeError "sequence item: expected str instance")
  end.

(** What [Resolver.prepare_constraint_file] writes into the file *)
Definition prepare_constraint_file (pip_args : list pyval)
    (sources : list entry) (initial_constraints : list string)
  : result string :=
  args_to_add ← args_to_add pip_args;
  header ←
    match sources with
    | [] => Ok ""
    | _ =>
        requirementstxt_sources ←
          match args_to_add with
          | [] => Ok ""
          | _ => PyStr.join " " <$> as_strs args_to_add
          end;
        let requirementstxt_sources :=
          PyText.replace requirementstxt_sources " --"
            (PyText.newline ++ "--") in
        Ok (requirementstxt_sources ++ PyText.newline)
    end;
  Ok (header ++ PyStr.join PyText.newline initial_constraints).

(** ** Looking for requirements.txt (utils.py, lines 1640-1677) *)

Inductive search_result : Type :=
  | Found (r : string)
  | NotFound                 (* [RuntimeError("No requirements.txt found!")] *)
  | Walking.                 (* the walk has not come to its end *)

Section requirements_search.

(** The file system *)
Variable realpath : string → string.
Variable path_join : string → string → string.
Variable listdir_ok : string → bool.
Variable isfile : string → bool.

(** The loop of [find_requirements] over [walk_up]: [bottom] is the
    argument of the pending call of [walk_up], [i] the counter; [steps]
    bounds the directories visited. *)
Fixpoint find_requirements_from (steps : nat) (max_depth i : nat)
    (bottom : string) : search_result :=
  match steps with
  | O => Walking
  | S steps =>
      let bottom := realpath bottom in
      if negb (listdir_ok bottom) then NotFound
      else
        let i := S i in
        let r := path_join bottom "requirements.txt" in
        if (i <? max_depth)%nat && isfile r then Found r
        else
          let new_path := realpath (path_join bottom "..") in
          if String.eqb new_path bottom then NotFound
          else find_requirements_from steps max_depth i new_path
  end.

Definition find_requirements (steps : nat) (max_depth : nat)
    (getcwd : string) : search_result :=
  find_requirements_from steps max_depth 0 getcwd.

(** The [n]-th directory [walk_up] yields *)
Fixpoint walked (n : nat) (bottom : string) : string :=
  match n with
  | O => realpath bottom
  | S n => walked n (realpath (path_join (realpath bottom) ".."))
  end.

End requirements_search.

(** A small file system for the worked example: [/srv/app/src] is the
    working directory, [/srv/app/requirements.txt] the only file. *)
Module FsSamples.

Definition path_join (a b : string) : string := a ++ "/" ++ b.

Definition realpath (p : string) : string :=
  if String.eqb p "/srv/app/src/.." then "/srv/app"
  else if String.eqb p "/srv/app/.." then "/srv"
  else if String.eqb p "/srv/.." then "/"
  else if String.eqb p "//.." then "/"
  else p.

Definition isfile (p : string) : bool :=
  String.eqb p "/srv/app/requirements.txt".

End FsSamples.

(** ** Entries of the hash cache *)

(** A cached hash that is not empty *)
Definition cached (cache : hash_cache) (url v : string) : Prop :=
  cache !! url = Some v ∧ v ≠ "".

(** ** The lockfile section of a resolution (utils.py, lines 992-1024) *)

(** [if name in results: results[name].update(entry)
    else: results[name] = entry] *)
Definition merge_result (name : string) (e : entry)
    (results : dict entry) : dict entry :=
  match get name results with
  | Some current => set name (update current e) results
  | None => set name e results
  end.

Section resolved_results.

Variable Marker_str : string → result string.
(** [self.collect_hashes], with the hash cache it reads and fills *)
Variable collect_hashes_of :
  InstallRequirement → hash_cache → result (gset string * hash_cache).
(** [Requirement.from_ireq(ireq)], [req.add_hashes(hashes)] and
    [Requirement.from_pipfile(k, entry)] of requirementslib *)
Variable from_ireq : InstallRequirement → ReqInfo.
Variable add_hashes : ReqInfo → gset string → ReqInfo.
Variable from_pipfile : string → entry → ReqInfo.
(** [self.hashes.get(ireq, set())] *)
Variable hashes : InstallRequirement → gset string.
(** [self.markers_lookup] and [self.index_lookup] *)
Variable markers_lookup index_lookup : dict string.

(** The body of the loop over the resolved tree *)
Definition clean_resolved (skipped : dict entry) (ireq : InstallRequirement)
    (results : dict entry) : result (dict entry) :=
  let req := from_ireq ireq in
  if bool_decide (is_Some (truthy_str (req_vcs req)))
     && req_editable req && negb (req_is_direct_url req)
  then Ok results
  else
    normalized_name ← req_normalized_name req;
    if mem normalized_name skipped then Ok results
    else
      let collected_hashes := hashes ireq in
      let req := add_hashes req collected_hashes in
      '(name, entry) ←
        format_requirement_for_lockfile Marker_str req markers_lookup
          index_lookup (sorted (elements collected_hashes));
      entry ← translate_markers Marker_str entry;
      Ok (merge_result name entry results).

Fixpoint clean_resolved_tree (skipped : dict entry)
    (resolved_tree : list InstallRequirement) (results : dict entry)
  : result (dict entry) :=
  match resolved_tree with
  | [] => Ok results
  | ireq :: rest =>
      results ← clean_resolved skipped ireq results;
      clean_resolved_tree skipped rest results
  end.

(** The loop over [list(self.skipped.keys())] *)
Fixpoint clean_skipped (skipped : dict entry) (results : dict entry)
    (cache : hash_cache) : result (dict entry * hash_cache) :=
  match skipped with
  | [] => Ok (results, cache)
  | (k, value) :: rest =>
      let req := from_pipfile k value in
      '(name, entry, cache) ←
        _clean_skipped_result collect_hashes_of req value cache;
      entry ← translate_markers Marker_str entry;
      clean_skipped rest (merge_result name entry results) cache
  end.

(** [Resolver.clean_results]; the resolved tree is a set, the list gives
    the order in which it is iterated. *)
Definition clean_results (resolved_tree : list InstallRequirement)
    (skipped : dict entry) (cache : hash_cache)
  : result (list entry * hash_cache) :=
  results ← clean_resolved_tree skipped resolved_tree [];
  '(results, cache) ← clean_skipped skipped results cache;
  Ok (results.*2, cache).

End resolved_results.

(** The results under construction: one binding per name, and each entry
    carries the name it is stored under. *)
Definition named_results (results : dict entry) : Prop :=
  wf results
  ∧ Forall (fun kv => get "name" kv.2 = Some (PyStr kv.1) ∧ wf kv.2) results.

(** Records for the worked examples of the merger *)
Module MergerSamples.

Definition resolved : entry :=
  [("name", PyStr "Pkg_A"); ("version", PyStr "1.3.0");
   ("markers", PyStr "os_name == 'nt'"); ("summary", PyStr "a package")].

Definition declared : pf_value :=
  PfMap [("version", PyStr "*"); ("sys_platform", PyStr "== 'win32'")].

End MergerSamples.

(** ** The records of the skipped map *)

(** Every requirement that expanding [req] looks at: [req] itself and,
    in turn, the declared dependencies whose line [parse_line] accepts. *)
Fixpoint discovered (req : Requirement) : list ReqInfo :=
  match req with
  | Req info requires =>
      info
      :: flat_map (fun r => match r with
                            | Some (_, Ok new_req) => discovered new_req
                            | _ => []
                            end) requires
  end.

(** A record that [_clean_skipped_result] turns into an entry without a
    version when it is a VCS or an editable record: with a key that names
    a version control system it has no [version], and flagged editable its
    [version], if it has one, is not empty. *)
Definition skippable (e : entry) : Prop :=
  (requirementslib_is_vcs e = true → get "version" e = None)
  ∧ (truthy_at "editable" e = true → mem "version" e = true →
     truthy_at "version" e = true).

(** What is taken of [req.pipfile_entry], which requirementslib builds:
    the entry of a VCS requirement has no [version]; the entry of any
    other requirement has no key that names a version control system, and
    when it is flagged editable its [version], if it has one, is not
    empty. *)
Definition requirementslib_entry (info : ReqInfo) : Prop :=
  ∀ e, (req_pipfile_entry info (req_index info)).2 = PfMap e →
       if req_is_vcs info then get "version" e = None
       else requirementslib_is_vcs e = false ∧ skippable e.

(** The locked map of a call of [get_deps_from_req] that started with the
    store [h0], and the store [h] it leaves: the records it points to are
    new, those of [h0] are untouched, each record is [skippable], and a
    record with a VCS key is bound under one name only. *)
Record records_skippable (h0 : heap) (locked : locked_map) (h : heap)
  : Prop := {
  rs_wf : wf locked;
  rs_length : (length h0 ≤ length h)%nat;
  rs_frame : ∀ a, (a < length h0)%nat → h !! a = h0 !! a;
  rs_range : ∀ k a, get k locked = Some a → (length h0 ≤ a < length h)%nat;
  rs_skippable :
    ∀ k a e, get k locked = Some a → h !! a = Some (PfMap e) → skippable e;
  rs_single :
    ∀ k k' a e, get k locked = Some a → get k' locked = Some a →
                h !! a = Some (PfMap e) → requirementslib_is_vcs e = true →
                k' = k;
}.

(** The entry of the requirement itself while its dependencies are
    expanded: it stays as stored, and no other name is bound to it. *)
Definition own_entry (a : nat) (rec : pf_value) (name : string)
    (st : expansion) : Prop :=
  st.2 !! a = Some rec ∧ ∀ k, get k st.1.2 = Some a → k = name.

(** A declared dependency whose expansion, if it returns, leaves
    [skippable] records *)
Definition expands_to_skippable
    (recurse : Requirement → heap → result expansion)
    (r : option (DepInfo * result Requirement)) : Prop :=
  match r with
  | Some (_, Ok new_req) =>
      ∀ h1 res, recurse new_req h1 = Ok res →
                records_skippable h1 res.1.2 res.2
  | _ => True
  end.

(** What the requirement has stored for itself, given what is taken of
    requirementslib: for a VCS requirement the name is in its PEP 423 form
    and the record has no [version]; for another requirement the record
    has no VCS key and is [skippable]. *)
Definition own_record_of (info : ReqInfo) (name : string) (rec : pf_value)
  : Prop :=
  if req_is_vcs info
  then pep423_name name = name ∧ ∀ e, rec = PfMap e → get "version" e = None
  else ∀ e, rec = PfMap e → requirementslib_is_vcs e = false ∧ skippable e.

(** [Requirement.from_pipfile(k, value)] for the worked examples: what
    [_clean_skipped_result] reads of it *)
Module SkippedSamples.

Definition from_pipfile (k : string) (value : entry) : ReqInfo :=
  {| req_name := k;
     req_normalized_name := Ok k;
     req_index := None;
     req_specifiers := None;
     req_get_version := "";
     req_pipfile_entry := fun _ => (k, PfMap value);
     req_is_vcs := requirementslib_is_vcs value;
     req_vcs := List.find (fun k => PyStr.in_list k VCS_LIST) (keys value);
     req_editable := truthy_at "editable" value;
     req_is_file_or_url := false;
     req_is_wheel := false;
     req_is_direct_url := false;
     req_uri := "";
     req_commit_hash := None;
     req_checkout := None;
     req_as_ireq :=
       {| ireq_name := k; ireq_link := None; ireq_original_link := None;
          ireq_editable := truthy_at "editable" value;
          ireq_req := Some [] |};
     req_constraint_line := k;
     req_marker := None;
     line_is_wheel := false;
     line_is_local := false;
     line_is_installable_dir := false;
     setup_info_version := None |}.

(** [requests @ git+https://github.com/psf/requests.git], declared by the
    local package [app] *)
Definition requests_git_dep : DepInfo :=
  {| dep_url := Some "git+https://github.com/psf/requests.git";
     dep_editable := false;
     dep_marker := None;
     dep_line := "requests@ git+https://github.com/psf/requests.git" |}.

Definition app_with_requests_git : Requirement :=
  Req (ExpanderSamples.app None)
    [ Some (requests_git_dep, Ok (Req Samples.requests_git [])) ].

End SkippedSamples.

(* ================================================================== *)
(** * Part II: properties                                              *)
(* ================================================================== *)

(** ** Package-name normalisation *)

Section pep423.

Lemma lower_ascii_idem c :
  PyStr.lower_ascii (PyStr.lower_ascii c) = PyStr.lower_ascii c.
Proof. destruct c as [[] [] [] [] [] [] [] []]; reflexivity. Qed.

Lemma lower_idem s : PyStr.lower (PyStr.lower s) = PyStr.lower s.
Proof.
  induction s as [|c s IH]; simpl; [done|].
  by rewrite lower_ascii_idem, IH.
Qed.

Lemma lower_ascii_dash c :
  PyStr.lower_ascii
    (if Ascii.eqb (PyStr.lower_ascii c) "_" then "-"%char
     else PyStr.lower_ascii c)
  = (if Ascii.eqb (PyStr.lower_ascii c) "_" then "-"%char
     else PyStr.lower_ascii c).
Proof. destruct c as [[] [] [] [] [] [] [] []]; reflexivity. Qed.

Lemma lower_replace_lower s :
  PyStr.lower (PyStr.replace_char "_" "-" (PyStr.lower s))
  = PyStr.replace_char "_" "-" (PyStr.lower s).
Proof.
  induction s as [|c s IH]; simpl; [done|].
  by rewrite lower_ascii_dash, IH.
Qed.

Lemma replace_char_idem s :
  PyStr.replace_char "_" "-" (PyStr.replace_char "_" "-" s)
  = PyStr.replace_char "_" "-" s.
Proof.
  induction s as [|c s IH]; simpl; [done|].
  rewrite IH. destruct (Ascii.eqb c "_") eqn:E; [done|]. by rewrite E.
Qed.

(** A word without a dash that starts the rewritten name already started
    the original one: the rewriting only produces dashes. *)
Lemma prefix_replace_char w s :
  PyStr.has_char "-" w = false →
  String.prefix w (PyStr.replace_char "_" "-" s) = true →
  String.prefix w s = true.
Proof.
  revert s. induction w as [|a w IH]; intros s Hw Hp.
  - by destruct s.
  - destruct s as [|c s]; simpl in *; [done|].
    apply orb_false_elim in Hw as [Ha Hw].
    destruct (ascii_dec a (if Ascii.eqb c "_" then "-"%char else c))
      as [Heq|]; [|done].
    destruct (Ascii.eqb c "_") eqn:E.
    + subst a. by rewrite Ascii.eqb_refl in Ha.
    + subst a. destruct (ascii_dec c c); [|done]. by apply IH.
Qed.

Lemma contains_replace_char w s :
  PyStr.has_char "-" w = false →
  PyStr.contains w (PyStr.replace_char "_" "-" s) = true →
  PyStr.contains w s = true.
Proof.
  intros Hw. induction s as [|c s IH]; simpl; intros H.
  - done.
  - apply orb_true_iff in H as [H|H]; apply orb_true_iff.
    + left. by apply (prefix_replace_char w (String c s)).
    + right. by apply IH.
Qed.

Lemma marker_words_dashless :
  Forall (fun w => PyStr.has_char "-" w = false) (VCS_LIST ++ SCHEME_LIST).
Proof. repeat constructor. Qed.

Lemma lacks_some_marker_word_replace s :
  lacks_some_marker_word s = true →
  lacks_some_marker_word (PyStr.replace_char "_" "-" s) = true.
Proof.
  unfold lacks_some_marker_word. rewrite !existsb_exists.
  intros (w & Hin & Hw). exists w. split; [done|].
  apply negb_true_iff. apply negb_true_iff in Hw.
  destruct (PyStr.contains w (PyStr.replace_char "_" "-" s)) eqn:E; [|done].
  rewrite <- Hw. symmetry. apply contains_replace_char; [|done].
  pose proof marker_words_dashless as HF.
  rewrite Forall_forall in HF. apply HF. by apply list_elem_of_In.
Qed.

End pep423.

(** C9. [pep423_name] is idempotent: normalising an already normalised
    package name changes nothing, for every string. *)
Theorem pep423_name_idempotent (x : string) :
  pep423_name (pep423_name x) = pep423_name x.
Proof.
  unfold pep423_name.
  destruct (lacks_some_marker_word (PyStr.lower x)) eqn:E.
  - rewrite lower_replace_lower.
    rewrite (lacks_some_marker_word_replace _ E).
    apply replace_char_idem.
  - rewrite lower_idem. by rewrite E.
Qed.

(** ** The Python-version override *)

(** X18. What a block under the override leaves behind, for every
    override and every starting environment: the requested version is
    gone, the path is the one of the override when it had one, every other
    variable is as before. *)
Lemma HackedPythonVersion_exit_enter (h : HackedPythonVersion)
    (env : environ) :
  let env' := HackedPythonVersion_exit h (HackedPythonVersion_enter h env) in
  env' !! "PIPENV_REQUESTED_PYTHON_VERSION" = None
  ∧ env' !! "PIP_PYTHON_PATH"
    = match truthy_str (python_path h) with
      | Some p => Some p
      | None => env !! "PIP_PYTHON_PATH"
      end
  ∧ ∀ k, k ≠ "PIPENV_REQUESTED_PYTHON_VERSION" → k ≠ "PIP_PYTHON_PATH" →
         env' !! k = env !! k.
Proof.
  unfold HackedPythonVersion_exit, HackedPythonVersion_enter, setenv_if.
  split_and!.
  - apply lookup_delete_eq.
  - rewrite lookup_delete_ne by done.
    destruct (truthy_str (python_path h)).
    + apply lookup_insert_eq.
    + destruct (truthy_str (python_version h)); [|done].
      by rewrite lookup_insert_ne.
  - intros k Hv Hp. rewrite lookup_delete_ne by done.
    destruct (truthy_str (python_path h));
      destruct (truthy_str (python_version h));
      by rewrite ?lookup_insert_ne.
Qed.

(** C4. The override is not undone on exit: starting from an empty
    environment, entering with version [3.8] and path [/usr/bin/python3]
    and leaving again keeps [PIP_PYTHON_PATH] set, although it was unset
    before; and a [PIPENV_REQUESTED_PYTHON_VERSION] that was set before the
    attempt is deleted instead of being put back. *)
Theorem HackedPythonVersion_not_restored :
  let h := {| python_version := Some "3.8";
              python_path := Some "/usr/bin/python3" |} in
  (HackedPythonVersion_exit h (HackedPythonVersion_enter h ∅))
    !! "PIP_PYTHON_PATH" = Some "/usr/bin/python3"
  ∧ (∅ : environ) !! "PIP_PYTHON_PATH" = None
  ∧ let before : environ := {[ "PIPENV_REQUESTED_PYTHON_VERSION" := "3.6" ]} in
    (HackedPythonVersion_exit h (HackedPythonVersion_enter h before))
      !! "PIPENV_REQUESTED_PYTHON_VERSION" = None.
Proof. split_and!; by vm_compute. Qed.

(** ** The two-pass orchestrator *)

Section two_pass.

Context {R : Type}.
Variable which_python : option string.
Variable virtualenv_src_location : string.
Variable sys_executable : option string.
Variable sys_version_info : nat * nat * nat.
Variable actually_resolve_deps : nat → environ → pass_outcome R * environ.

Lemma host_python_version_truthy :
  truthy_str (Some (host_python_version sys_version_info))
  = Some (host_python_version sys_version_info).
Proof.
  unfold host_python_version. destruct sys_version_info as [[a b] c].
  simpl. by destruct (pretty a).
Qed.

Lemma second_override_environ env :
  let env2 :=
    HackedPythonVersion_enter
      (second_override sys_executable sys_version_info) env in
  env2 !! "PIPENV_REQUESTED_PYTHON_VERSION"
    = Some (host_python_version sys_version_info)
  ∧ ∀ p, truthy_str sys_executable = Some p →
         env2 !! "PIP_PYTHON_PATH" = Some p.
Proof.
  unfold HackedPythonVersion_enter, setenv_if, second_override.
  cbn [python_version python_path].
  rewrite host_python_version_truthy. split.
  - destruct (truthy_str sys_executable).
    + rewrite lookup_insert_ne by done. by rewrite lookup_insert_eq.
    + by rewrite lookup_insert_eq.
  - intros p ->. by rewrite lookup_insert_eq.
Qed.

(** X16. Whatever the passes do, there are at most two of them. *)
Lemma resolve_deps_at_most_two_attempts
    (deps : list string) (python : option string) (env : environ) :
  (length
     (resolve_deps which_python virtualenv_src_location sys_executable
        sys_version_info actually_resolve_deps deps python env).2 <= 2)%nat.
Proof.
  unfold resolve_deps. destruct deps as [|d deps]; [simpl; lia|].
  unfold run_pass, with_HackedPythonVersion.
  destruct (actually_resolve_deps 0 _) as [[] e1]; simpl; try lia.
  destruct (actually_resolve_deps 1 _) as [[] e2]; simpl; lia.
Qed.

(** C1. When the first pass ends in a [RuntimeError], [resolve_deps] makes
    exactly two attempts; the second one runs under the host's own
    version and executable; and when it ends in a [RuntimeError] too the
    process exits with status 1.  There is never a third attempt. *)
Theorem resolve_deps_retries_exactly_once
    (deps : list string) (python : option string) (env : environ) :
  deps ≠ [] →
  (actually_resolve_deps 0
     (HackedPythonVersion_enter (first_override which_python python)
        (ensure_pip_src virtualenv_src_location env))).1
    = RaisedRuntimeError →
  ∃ a1 a2 : attempt,
    (resolve_deps which_python virtualenv_src_location sys_executable
       sys_version_info actually_resolve_deps deps python env).2
    = [a1; a2]
    ∧ attempt_override a2
      = {| python_version := Some (host_python_version sys_version_info);
           python_path := sys_executable |}
    ∧ attempt_environ a2 !! "PIPENV_REQUESTED_PYTHON_VERSION"
      = Some (host_python_version sys_version_info)
    ∧ (∀ p, truthy_str sys_executable = Some p →
            attempt_environ a2 !! "PIP_PYTHON_PATH" = Some p)
    ∧ ((actually_resolve_deps 1 (attempt_environ a2)).1
         = RaisedRuntimeError →
       (resolve_deps which_python virtualenv_src_location sys_executable
       sys_version_info actually_resolve_deps deps python env).1.1
       = SysExit 1).
Proof.
  intros Hdeps H1. unfold resolve_deps.
  destruct deps as [|d deps]; [done|].
  unfold run_pass, with_HackedPythonVersion.
  destruct (actually_resolve_deps 0 _) as [o1 e1] eqn:E1.
  simpl in H1. subst o1.
  destruct (actually_resolve_deps 1 _) as [o2 e2] eqn:E2.
  pose proof (second_override_environ
                (HackedPythonVersion_exit
                   (first_override which_python python) e1)) as [Hv Hp].
  eexists _, _.
  split; [by destruct o2|].
  split; [done|]. split; [exact Hv|]. split; [exact Hp|].
  simpl. rewrite E2. simpl. by intros ->.
Qed.

End two_pass.

Lemma resolve_deps_retries_exactly_once_witness :
  let solver : nat → environ → pass_outcome unit * environ :=
    fun _ env => (RaisedRuntimeError, env) in
  ∃ a1 a2 : attempt,
    (resolve_deps (Some "/venv/bin/python") "/venv/src"
       (Some "/usr/bin/python3") (3, 9, 7)%nat solver
       ["requests==2.25.1"] (Some "3.8") ∅).2 = [a1; a2]
    ∧ attempt_override a2
      = {| python_version := Some (host_python_version (3, 9, 7)%nat);
           python_path := Some "/usr/bin/python3" |}
    ∧ attempt_environ a2 !! "PIPENV_REQUESTED_PYTHON_VERSION"
      = Some (host_python_version (3, 9, 7)%nat)
    ∧ (∀ p, truthy_str (Some "/usr/bin/python3") = Some p →
            attempt_environ a2 !! "PIP_PYTHON_PATH" = Some p)
    ∧ ((solver 1%nat (attempt_environ a2)).1 = RaisedRuntimeError →
       (resolve_deps (Some "/venv/bin/python") "/venv/src"
          (Some "/usr/bin/python3") (3, 9, 7)%nat solver
          ["requests==2.25.1"] (Some "3.8") ∅).1.1 = SysExit 1).
Proof.
  intros solver.
  apply (resolve_deps_retries_exactly_once (Some "/venv/bin/python")
           "/venv/src" (Some "/usr/bin/python3") (3, 9, 7)%nat solver
           ["requests==2.25.1"] (Some "3.8") ∅).
  - discriminate.
  - reflexivity.
Defined.

(** ** The marker parser never runs out of fuel *)

Section marker_fuel.

Import Pep508.

Lemma skip_ws_length s :
  (String.length (skip_ws s) <= String.length s)%nat.
Proof.
  induction s as [|c s IH]; simpl; [done|].
  destruct (is_ws c); simpl; lia.
Qed.

Lemma drop_prefix_length l s :
  String.prefix l s = true →
  String.length (drop (String.length l) s) + String.length l
  = String.length s.
Proof.
  revert s. induction l as [|a l IH]; intros [|b s]; simpl; try done.
  destruct (ascii_dec a b); [|done]. intros H%IH. lia.
Qed.

Lemma literal_shrinks lits s l rest :
  Forall (fun l => l ≠ "") lits →
  literal lits s = Some (l, rest) →
  String.length rest < String.length s.
Proof.
  induction lits as [|l0 lits IH]; intros Hne; simpl; [done|].
  apply Forall_cons in Hne as [Hl0 Hne].
  destruct (String.prefix l0 (skip_ws s)) eqn:E; [|by apply IH].
  intros [= <- <-]. apply drop_prefix_length in E.
  pose proof (skip_ws_length s).
  assert (0 < String.length l0) by (destruct l0; [done|simpl; lia]). lia.
Qed.

Lemma quoted_body_shrinks q s body rest :
  quoted_body q s = Some (body, rest) →
  String.length rest < String.length s.
Proof.
  revert body. induction s as [|c s IH]; intros body; simpl; [done|].
  destruct (Ascii.eqb c q); [intros [= <- <-]; lia|].
  destruct (_ || _); [done|].
  destruct (quoted_body q s) as [[b r]|]; [|done].
  intros [= <- <-]. specialize (IH b eq_refl). lia.
Qed.

Lemma marker_var_shrinks s v rest :
  marker_var s = Some (v, rest) → String.length rest < String.length s.
Proof.
  unfold marker_var.
  destruct (literal VARIABLE s) as [[l r]|] eqn:E.
  - intros [= <- <-]. eapply literal_shrinks; [|exact E].
    repeat constructor; discriminate.
  - unfold marker_value. pose proof (skip_ws_length s) as Hs.
    destruct (skip_ws s) as [|c s']; [done|].
    destruct (_ || _); [|done].
    destruct (quoted_body c s') as [[b r]|] eqn:Eq; [|done].
    intros [= <- <-]. apply quoted_body_shrinks in Eq. simpl in Hs. lia.
Qed.

Lemma marker_item_shrinks s i rest :
  marker_item s = Some (i, rest) → String.length rest < String.length s.
Proof.
  unfold marker_item.
  destruct (marker_var s) as [[l s1]|] eqn:E1;
    cbn -[literal marker_var]; [|done].
  destruct (literal MARKER_OP s1) as [[op s2]|] eqn:E2;
    cbn -[literal marker_var]; [|done].
  destruct (marker_var s2) as [[r s3]|] eqn:E3;
    cbn -[literal marker_var]; [|done].
  intros [= <- <-].
  apply marker_var_shrinks in E1, E3.
  apply literal_shrinks in E2; [lia|]. repeat constructor; discriminate.
Qed.

(** With more fuel than characters the parser decides; what it leaves is
    shorter than what it was given. *)
Lemma marker_atom_decides expr s :
  (∀ s1, String.length s1 < String.length s →
         expr s1 ≠ OutOfFuel
         ∧ ∀ m rest, expr s1 = Parsed m rest →
                     String.length rest < String.length s1) →
  marker_atom expr s ≠ OutOfFuel
  ∧ ∀ a rest, marker_atom expr s = Parsed a rest →
              String.length rest < String.length s.
Proof.
  intros Hexpr. unfold marker_atom.
  destruct (marker_item s) as [[i r]|] eqn:Ei.
  - split; [done|]. intros a rest [= <- <-].
    by apply marker_item_shrinks in Ei.
  - destruct (literal ["("] s) as [[l s1]|] eqn:El; [|done].
    apply literal_shrinks in El; [|repeat constructor; discriminate].
    destruct (Hexpr s1 El) as [H1 H2].
    destruct (expr s1) as [g s2| |]; try done.
    specialize (H2 g s2 eq_refl).
    destruct (literal [")"] s2) as [[l' s3]|] eqn:Er; [|done].
    apply literal_shrinks in Er; [|repeat constructor; discriminate].
    split; [done|]. intros a rest [= <- <-]. lia.
Qed.

Lemma marker_expr_decides fuel s :
  String.length s < fuel →
  marker_expr fuel s ≠ OutOfFuel
  ∧ ∀ m rest, marker_expr fuel s = Parsed m rest →
              String.length rest < String.length s.
Proof.
  revert s. induction fuel as [|fuel IH]; intros s Hlen; [lia|].
  cbn [marker_expr].
  destruct (marker_atom_decides (marker_expr fuel) s) as [Ha1 Ha2].
  { intros s1 Hs1. apply IH. lia. }
  destruct (marker_atom _ s) as [a s1| |]; try done.
  specialize (Ha2 a s1 eq_refl).
  destruct (literal BOOLOP s1) as [[op s2]|] eqn:Eb.
  - apply literal_shrinks in Eb; [|repeat constructor; discriminate].
    destruct (IH s2 ltac:(lia)) as [H1 H2].
    destruct (marker_expr fuel s2) as [more s3| |]; try done.
    + specialize (H2 more s3 eq_refl). split; [done|].
      intros m rest [= <- <-]. lia.
    + split; [done|]. by intros m rest [= <- <-].
  - split; [done|]. by intros m rest [= <- <-].
Qed.

Lemma parse_marker_decides s : parse_marker s ≠ OutOfFuel.
Proof.
  unfold parse_marker.
  destruct (marker_expr_decides (S (String.length s)) s ltac:(lia))
    as [H _].
  destruct (marker_expr _ s) as [m rest| |]; try done.
  by destruct (skip_ws rest).
Qed.

End marker_fuel.

(** The text [python_version 3.8] is outside the marker grammar: after the
    variable an operator has to follow. *)
Example bare_version_is_no_marker :
  Pep508.parse_marker "python_version 3.8" = Pep508.NoParse.
Proof. reflexivity. Qed.

(** ** Marker normalisation *)

Lemma sorted_set_singleton (m : string) : sorted_set [m] = [m].
Proof.
  unfold sorted_set, sorted. cbn.
  destruct (decide_rel elem_of m []) as [H|_]; [|reflexivity].
  by apply elem_of_nil in H.
Qed.

(** Whatever parser stands behind [Marker], a marker key is handed over as
    the text [key value]: the comparison operator has to be part of the
    value, [translate_markers] adds none. *)
Lemma translate_markers_single_key (Marker_str : string → result string)
    (v : string) :
  translate_markers Marker_str [("python_version", PyStr v)]
  = (marker ← Marker_str ("python_version " ++ v);
     joined ← Marker_str marker;
     Ok [("markers", PyStr (PyStr.replace_char dquote squote joined))]).
Proof.
  unfold translate_markers. cbn.
  destruct (Marker_str _) as [marker|]; [|reflexivity].
  cbn [mbind result_bind]. rewrite sorted_set_singleton. cbn.
  destruct (Marker_str marker); reflexivity.
Qed.

(** C5, as stated: on the entry [{"python_version": "3.8"}] the result is
    not [{"markers": "python_version == '3.8'"}]. *)
Lemma translate_markers_bare_version_counterexample :
  translate_markers packaging_Marker_str [("python_version", PyStr "3.8")]
  ≠ Ok [("markers", PyStr "python_version == '3.8'")].
Proof. vm_compute. discriminate. Qed.

(** C5, amended.  With the operator in the value, as a Pipfile writes it,
    [{"python_version": "== '3.8'"}] becomes
    [{"markers": "python_version == '3.8'"}]: no [python_version] key is
    left and the marker text uses single quotes.  On
    [{"python_version": "3.8"}] the text [python_version 3.8] reaches the
    marker parser, which rejects it. *)
Theorem translate_markers_python_version :
  translate_markers packaging_Marker_str
    [("python_version", PyStr "== '3.8'")]
  = Ok [("markers", PyStr "python_version == '3.8'")]
  ∧ translate_markers packaging_Marker_str [("python_version", PyStr "3.8")]
    = Raise (InvalidMarker "python_version 3.8").
Proof. split; vm_compute; reflexivity. Qed.

(** ** Dictionaries *)

Section dict_facts.

Context {V : Type}.
Implicit Types (d e : dict V) (k : string) (v : V).

Lemma get_set_eq k v d : get k (set k v d) = Some v.
Proof.
  induction d as [|[k' v'] d IH]; simpl.
  - by rewrite String.eqb_refl.
  - destruct (String.eqb k' k) eqn:E; simpl; by rewrite E.
Qed.

Lemma get_set_ne k k' v d : k ≠ k' → get k' (set k v d) = get k' d.
Proof.
  intros Hne. induction d as [|[k0 v0] d IH]; simpl.
  - destruct (String.eqb_spec k k'); done.
  - destruct (String.eqb_spec k0 k) as [->|]; simpl.
    + destruct (String.eqb_spec k k'); done.
    + by rewrite IH.
Qed.

Lemma get_del_eq k d : get k (del k d) = None.
Proof.
  induction d as [|[k0 v0] d IH]; simpl; [done|].
  destruct (String.eqb k0 k) eqn:E; simpl; [done|]. by rewrite E.
Qed.

Lemma get_del_ne k k' d : k ≠ k' → get k' (del k d) = get k' d.
Proof.
  intros Hne. induction d as [|[k0 v0] d IH]; simpl; [done|].
  destruct (String.eqb_spec k0 k) as [->|]; simpl.
  - rewrite IH. destruct (String.eqb_spec k k'); done.
  - by rewrite IH.
Qed.

Lemma get_Some_keys k v d : get k d = Some v → k ∈ keys d.
Proof.
  induction d as [|[k0 v0] d IH]; simpl; [done|].
  destruct (String.eqb_spec k0 k) as [->|]; intros H.
  - by left.
  - right. by apply IH.
Qed.

Lemma keys_set k v d :
  keys (set k v d) = if mem k d then keys d else (keys d ++ [k])%list.
Proof.
  unfold mem. induction d as [|[k0 v0] d IH]; simpl; [done|].
  destruct (String.eqb_spec k0 k) as [->|]; simpl; [done|].
  rewrite IH. by destruct (get k d).
Qed.

Lemma mem_keys k d : mem k d = true ↔ k ∈ keys d.
Proof.
  unfold mem. split.
  - destruct (get k d) eqn:E; [|done]. intros _. by eapply get_Some_keys.
  - induction d as [|[k0 v0] d IH]; simpl.
    + by intros ?%elem_of_nil.
    + destruct (String.eqb_spec k0 k) as [->|]; [done|].
      intros [?|?]%elem_of_cons; [congruence|]. by apply IH.
Qed.

Lemma set_wf k v d : wf d → wf (set k v d).
Proof.
  unfold wf. rewrite keys_set. destruct (mem k d) eqn:E; [done|].
  intros Hd. apply NoDup_app. split_and!; [done| |apply NoDup_singleton].
  intros x Hx ->%list_elem_of_singleton.
  apply mem_keys in Hx. congruence.
Qed.

Lemma get_update k d e :
  wf e →
  get k (update d e)
  = match get k e with Some v => Some v | None => get k d end.
Proof.
  unfold update, wf. revert d.
  induction e as [|[k0 v0] e IH]; intros d He; simpl; [done|].
  simpl in He. apply NoDup_cons in He as [Hk0 He].
  rewrite IH by done. destruct (get k e) eqn:E.
  - destruct (String.eqb_spec k0 k) as [->|Hne]; [|done].
    exfalso. apply Hk0. by eapply get_Some_keys.
  - destruct (String.eqb_spec k0 k) as [->|Hne].
    + apply get_set_eq.
    + by apply get_set_ne.
Qed.

Lemma mem_get k d : mem k d = bool_decide (is_Some (get k d)).
Proof.
  unfold mem. destruct (get k d); symmetry.
  - by apply bool_decide_eq_true.
  - apply bool_decide_eq_false. by intros [? ?].
Qed.

End dict_facts.

(** ** Marker normalisation keeps the other keys *)

Section translate_markers_frame.

Variable Marker_str : string → result string.

Lemma translate_marker_keys_get k pipfile_entry ms st st' :
  Forall (fun m => m ≠ k) ms →
  translate_marker_keys Marker_str pipfile_entry ms st = Ok st' →
  get k st'.1 = get k st.1.
Proof.
  revert st. induction ms as [|m ms IH]; intros [np mset] Hms H; simpl in *.
  - by inversion H.
  - apply Forall_cons in Hms as [Hm Hms].
    destruct (getitem m pipfile_entry) as [v|]; simpl in H; [|done].
    destruct (String.eqb m "markers").
    + by apply IH in H.
    + destruct (Marker_str _) as [marker|]; simpl in H; [|done].
      apply IH in H; [|done]. simpl in H. rewrite H.
      by apply get_del_ne.
Qed.

(** A key that is no marker key keeps its value. *)
Lemma translate_markers_get k e e' :
  PyStr.in_list k allowed_marker_keys = false →
  translate_markers Marker_str e = Ok e' →
  get k e' = get k e.
Proof.
  intros Hk H. unfold translate_markers in H.
  assert (k ≠ "markers") as Hkm.
  { intros ->. by vm_compute in Hk. }
  assert (Forall (fun m => m ≠ k)
            (List.filter (fun k => PyStr.in_list k allowed_marker_keys)
               (keys e))) as Hms.
  { apply Forall_forall. intros m Hm%list_elem_of_In%filter_In ->.
    destruct Hm as [_ Hm]. congruence. }
  set (st := match get "markers" e with Some _ => _ | None => _ end) in H.
  assert (∀ s, st = Ok s → get k s.1 = get k e) as Hst.
  { subst st. intros s. destruct (get "markers" e) as [mv|].
    - destruct (truthy mv).
      + destruct (Marker_str_of _ mv) as [marker|]; simpl; [|done].
        destruct (PyStr.contains "extra" marker); intros [= <-]; simpl;
          by apply get_del_ne.
      + intros [= <-]; simpl. by apply get_del_ne.
    - by intros [= <-]. }
  destruct st as [s|]; simpl in H; [|done].
  specialize (Hst s eq_refl).
  destruct (translate_marker_keys _ _ _ _) as [[np mset]|] eqn:E;
    simpl in H; [|done].
  apply (translate_marker_keys_get k) in E; [|done]. simpl in E.
  destruct mset.
  - inversion H; subst. congruence.
  - destruct (Marker_str _); simpl in H; [|done]. inversion H; subst.
    rewrite get_set_ne by done. congruence.
Qed.

End translate_markers_frame.

(** ** Hash collection *)

Section collect_hashes_facts.

Variable FAVORITE_HASH : string.
Variable sources : list string.
Variable pypi_json : string → pypi_answer.
Variable pep440_version : string → option string.
Variable applicable_candidates : string → list Specifier → list Link.
Variable file_hexdigest : string → result string.

(** What the code calls pinned is pinned in the words of the
    specification. *)
Lemma is_pinned_requirement_as_specified ireq :
  is_pinned_requirement ireq = true → pinned_as_specified ireq.
Proof.
  unfold is_pinned_requirement, pinned_as_specified, ireq_specifier.
  destruct (ireq_editable ireq); [done|].
  destruct (ireq_req ireq) as [[|spec [|]]|]; try done.
  intros [Hop Hv]%andb_true_iff. split; [done|]. exists spec.
  split; [done|]. split.
  - simpl in Hop. rewrite orb_false_r in Hop.
    apply orb_true_iff in Hop as [H|H]; apply String.eqb_eq in H; auto.
  - by apply negb_true_iff.
Qed.

(** C7. [collect_hashes] returns the empty set for a VCS link and for a
    link to an existing local directory, and also for a requirement that
    is not pinned to an exact version and carries no link.  The hash
    cache is left as it was. *)
Theorem collect_hashes_empty (ireq : InstallRequirement)
    (cache : hash_cache) :
  (∃ link, ireq_link ireq = Some link
           ∧ (link_is_vcs link = true
              ∨ (link_is_file link = true
                 ∧ link_is_existing_dir link = true)))
  ∨ (¬ pinned_as_specified ireq ∧ ireq_link ireq = None) →
  collect_hashes FAVORITE_HASH sources pypi_json pep440_version
    applicable_candidates file_hexdigest ireq cache
  = Ok (∅, cache).
Proof.
  unfold collect_hashes.
  intros [(link & -> & Hl)|[Hpin ->]].
  - destruct Hl as [->|[-> ->]]; [done|]. by rewrite orb_true_r.
  - unfold when_pinned.
    destruct (is_pinned_requirement ireq) eqn:E; [|done].
    by apply is_pinned_requirement_as_specified in E.
Qed.

End collect_hashes_facts.

Lemma collect_hashes_empty_witness :
  let ireq :=
    {| ireq_name := "requests";
       ireq_link := None;
       ireq_original_link := None;
       ireq_editable := false;
       ireq_req := Some [ {| operator := ">="; version := "2.0" |} ] |} in
  collect_hashes "sha256" ["https://pypi.org/simple"] (fun _ => ApiCaught)
    Some (fun _ _ => []) (fun _ => Ok "00") ireq ∅
  = Ok (∅, ∅).
Proof.
  intros ireq.
  apply (collect_hashes_empty "sha256" ["https://pypi.org/simple"]
           (fun _ => ApiCaught) Some (fun _ _ => []) (fun _ => Ok "00")
           ireq ∅).
  right. split; [|reflexivity].
  intros [_ (spec & Hs & [Hop|Hop] & _)];
    injection Hs as <-; simpl in Hop; discriminate.
Defined.

(** ** Version keys of VCS and editable entries *)

Lemma get_del_keys_version (e : entry) :
  get "version" (del_keys ["index"; "version"; "file"] e) = None.
Proof.
  unfold del_keys. simpl.
  rewrite get_del_ne by done. apply get_del_eq.
Qed.

(** What [_clean_skipped_result] does to the [version] key, in full: it
    goes when the record is flagged editable and has a non-empty version,
    and is left alone otherwise. *)
Lemma _clean_skipped_result_version
    (collect_hashes_of :
       InstallRequirement → hash_cache → result (gset string * hash_cache))
    (req : ReqInfo) (value : entry) (cache cache' : hash_cache)
    (name : string) (e : entry) :
  _clean_skipped_result collect_hashes_of req value cache
    = Ok (name, e, cache') →
  get "version" e
  = if truthy_at "editable" value && truthy_at "version" value
    then None else get "version" value.
Proof.
  unfold _clean_skipped_result.
  destruct (collect_hashes_of _ _) as [[hs c]|]; simpl; [|done].
  intros [= <- <- <-].
  assert (∀ k, k ≠ "name" →
            truthy_at k (set "name" (PyStr (req_name req)) value)
            = truthy_at k value) as Htr.
  { intros k Hk. unfold truthy_at. by rewrite get_set_ne. }
  rewrite !Htr by done.
  set (e1 := if _ && _ then _ else _).
  assert (get "version" e1
          = if truthy_at "editable" value && truthy_at "version" value
            then None else get "version" value) as He1.
  { subst e1. destruct (_ && _).
    - apply get_del_eq.
    - by rewrite get_set_ne. }
  rewrite <- He1.
  destruct (decide (hs = ∅)); [|rewrite get_set_ne by done];
    destruct (truthy _); by rewrite ?get_set_ne.
Qed.

(** Formatted from solver output, the entry of a VCS or editable
    requirement has no [version]. *)
Lemma format_requirement_for_lockfile_unversioned
    (Marker_str : string → result string) (req : ReqInfo)
    (markers_lookup index_lookup : dict string) (hashes : list string)
    (name : string) (e : entry) :
  is_Some (truthy_str (req_vcs req)) ∨ req_editable req = true →
  format_requirement_for_lockfile Marker_str req markers_lookup index_lookup
    hashes = Ok (name, e) →
  get "version" e = None.
Proof.
  intros Hreq. unfold format_requirement_for_lockfile.
  destruct (assembled_entry _ _ _ _) as [[[n e0] idx]|]; simpl; [|done].
  destruct (translate_markers _ e0) as [e1|]; simpl; [|done].
  assert (bool_decide (is_Some (truthy_str (req_vcs req)))
          || req_editable req = true) as ->.
  { destruct Hreq as [H| ->]; [|by rewrite orb_true_r].
    by rewrite (bool_decide_eq_true_2 _ H). }
  intros [= <- <-]. apply get_del_keys_version.
Qed.

(** ** Sorting *)

Lemma sorted_spec (l : list string) :
  StronglySorted String.le (sorted l) ∧ sorted l ≡ₚ l.
Proof.
  split.
  - apply StronglySorted_merge_sort; apply _.
  - apply merge_sort_Permutation.
Qed.

Lemma sorted_set_spec (l : list string) :
  StronglySorted String.le (sorted_set l)
  ∧ NoDup (sorted_set l)
  ∧ ∀ x, x ∈ sorted_set l ↔ x ∈ l.
Proof.
  unfold sorted_set.
  destruct (sorted_spec (remove_dups l)) as [Hs Hp]. split_and!.
  - done.
  - rewrite Hp. apply NoDup_remove_dups.
  - intros x. rewrite Hp. apply elem_of_remove_dups.
Qed.

(** ** The hashes of a lockfile entry *)

Section hash_invariant.

Variable FAVORITE_HASH : string.
Variable sources : list string.
Variable pypi_json : string → pypi_answer.
Variable pep440_version : string → option string.
Variable applicable_candidates : string → list Specifier → list Link.
Variable file_hexdigest : string → result string.
Variable Marker_str : string → result string.

Hypothesis favorite_hash_named : FAVORITE_HASH ≠ "".
Hypothesis file_digests_hex :
  ∀ url d, file_hexdigest url = Ok d → is_hex d = true.

Lemma all_hex_no_colon d : all_hex d = true → PyStr.has_char ":" d = false.
Proof.
  induction d as [|c d IH]; simpl; [done|].
  intros [Hc Hd]%andb_true_iff. rewrite IH by done.
  destruct (Ascii.eqb_spec c ":") as [->|]; [|done]. by vm_compute in Hc.
Qed.

Lemma prefix_cons a s1 b s2 :
  String.prefix (String a s1) (String b s2)
  = if ascii_dec a b then String.prefix s1 s2 else false.
Proof. reflexivity. Qed.

Lemma prefix_colon a d :
  String.prefix (a ++ ":") d = true → PyStr.has_char ":" d = true.
Proof.
  revert d. induction a as [|c a IH]; intros [|c' d]; try done.
  - change ("" ++ ":") with ":". rewrite (prefix_cons ":" "" c' d).
    destruct (ascii_dec ":" c') as [<-|]; [|done]. intros _. reflexivity.
  - change (String c a ++ ":") with (String c (a ++ ":")).
    rewrite prefix_cons. destruct (ascii_dec c c') as [<-|]; [|done].
    intros H%IH. cbn [PyStr.has_char]. rewrite H. apply orb_true_r.
Qed.

Lemma prepend_hash_type_hex d :
  is_hex d = true →
  prepend_hash_type FAVORITE_HASH d = FAVORITE_HASH ++ ":" ++ d.
Proof.
  intros [_ Hd]%andb_true_iff. unfold prepend_hash_type, PyStr.startswith.
  destruct (String.prefix _ d) eqn:E; [|done].
  apply prefix_colon in E. apply all_hex_no_colon in Hd. congruence.
Qed.

Lemma hash_form_intro d :
  is_hex d = true → hash_form (FAVORITE_HASH ++ ":" ++ d).
Proof. intros Hd. by exists FAVORITE_HASH, d. Qed.

Lemma prepend_hash_types_form checksums h :
  Forall digest_ok checksums →
  h ∈ prepend_hash_types checksums FAVORITE_HASH → hash_form h.
Proof.
  intros Hcs. unfold prepend_hash_types.
  rewrite elem_of_list_to_set, list_elem_of_fmap.
  intros (c & -> & Hc%list_elem_of_In%filter_In). destruct Hc as [Hc Hne].
  rewrite Forall_forall in Hcs.
  destruct (Hcs c) as [->|Hhex]; [by apply list_elem_of_In|done|].
  rewrite prepend_hash_type_hex by done. by apply hash_form_intro.
Qed.

Lemma get_hash_form link cache h cache' :
  cache_ok cache →
  get_hash FAVORITE_HASH file_hexdigest link cache = Ok (h, cache') →
  hash_form h ∧ cache_ok cache'.
Proof.
  intros Hc. unfold get_hash.
  assert (∀ d, file_hexdigest (link_url link) = Ok d →
               hash_form (PyStr.join ":" [FAVORITE_HASH; d])
               ∧ cache_ok (<[link_url link :=
                               PyStr.join ":" [FAVORITE_HASH; d]]> cache))
    as Hfresh.
  { intros d Hd%file_digests_hex. split; [by apply hash_form_intro|].
    intros url v. destruct (decide (link_url link = url)) as [<-|Hne].
    - rewrite lookup_insert_eq. intros [= <-]. right.
      by apply hash_form_intro.
    - rewrite lookup_insert_ne by done. apply Hc. }
  destruct (cache !! link_url link) as [v|] eqn:E.
  - destruct (PyStr.nonempty v) eqn:Hv.
    + intros [= <- <-]. split; [|done].
      destruct (Hc _ _ E) as [->|]; done.
    + destruct (file_hexdigest _) as [d|]; simpl; [|done].
      intros [= <- <-]. by apply Hfresh.
  - destruct (file_hexdigest _) as [d|]; simpl; [|done].
    intros [= <- <-]. by apply Hfresh.
Qed.

Lemma _get_hash_from_link_form link cache h cache' :
  link_ok link → cache_ok cache →
  _get_hash_from_link FAVORITE_HASH file_hexdigest link cache
    = Ok (h, cache') →
  hash_form h ∧ cache_ok cache'.
Proof.
  intros Hl Hc. unfold _get_hash_from_link.
  destruct (link_hash link) as [lh|] eqn:Elh;
    [|by apply get_hash_form].
  destruct (link_hash_name link) as [n|]; [|by apply get_hash_form].
  destruct (PyStr.nonempty lh && String.eqb n FAVORITE_HASH) eqn:E;
    [|by apply get_hash_form].
  apply andb_true_iff in E as [Hne ->%String.eqb_eq].
  intros [= <- <-]. split; [|done].
  destruct (Hl lh Elh) as [->|Hhex]; [done|]. by apply hash_form_intro.
Qed.

Lemma hashes_of_links_form links cache hs cache' :
  Forall link_ok links → cache_ok cache →
  hashes_of_links FAVORITE_HASH file_hexdigest links cache
    = Ok (hs, cache') →
  (∀ h, h ∈ hs → hash_form h) ∧ cache_ok cache'.
Proof.
  revert cache hs cache'.
  induction links as [|link links IH]; intros cache hs cache' Hl Hc; simpl.
  - intros [= <- <-]. split; [set_solver|done].
  - apply Forall_cons in Hl as [Hl Hls].
    destruct (_get_hash_from_link _ _ link cache) as [[h c1]|] eqn:E1;
      simpl; [|done].
    destruct (_get_hash_from_link_form _ _ _ _ Hl Hc E1) as [Hh Hc1].
    destruct (hashes_of_links _ _ links c1) as [[hs' c2]|] eqn:E2;
      simpl; [|done].
    destruct (IH _ _ _ Hls Hc1 E2) as [Hhs Hc2].
    intros [= <- <-]. split; [|done].
    intros h' [->%elem_of_singleton|?]%elem_of_union; auto.
Qed.

Lemma cleaned_releases_values releases acc cleaned v files :
  cleaned_releases pep440_version releases acc = Some cleaned →
  get v cleaned = Some files →
  (∃ v0, (v0, files) ∈ releases) ∨ get v acc = Some files.
Proof.
  revert acc. induction releases as [|[v0 fs] releases IH]; intros acc; simpl.
  - intros [= <-]. auto.
  - destruct (clean_pkg_version _ v0) as [v1|]; [|done].
    intros H Hv. destruct (IH _ H Hv) as [[v2 Hin]|Hacc].
    + left. exists v2. by right.
    + destruct (decide (v1 = v)) as [->|Hne].
      * rewrite get_set_eq in Hacc. injection Hacc as ->.
        left. exists v0. by left.
      * rewrite get_set_ne in Hacc by done. by right.
Qed.

Lemma _get_hashes_from_pypi_form ireq hs :
  (∀ name releases version files file d,
     pypi_json name = ApiReleases releases →
     (version, files) ∈ releases → file ∈ files →
     get FAVORITE_HASH file = Some d → digest_ok d) →
  _get_hashes_from_pypi FAVORITE_HASH pypi_json pep440_version ireq
    = Ok (Some hs) →
  ∀ h, h ∈ hs → hash_form h.
Proof.
  intros Hidx. unfold _get_hashes_from_pypi.
  destruct (pypi_json (ireq_name ireq)) as [releases| |] eqn:Ej; try done.
  destruct (cleaned_releases _ releases []) as [cleaned|] eqn:Ec; [|done].
  destruct (get _ cleaned) as [files|] eqn:Ev; [|done].
  destruct (mapM _ files) as [collected|] eqn:Em; [|done].
  intros [= <-] h. apply prepend_hash_types_form.
  apply Forall_forall. intros d Hd.
  apply mapM_Some in Em.
  destruct (cleaned_releases_values _ _ _ _ _ Ec Ev) as [[v0 Hin]|?];
    [|done].
  apply list_elem_of_lookup in Hd as [i Hi].
  destruct (Forall2_lookup_r _ _ _ _ _ Em Hi) as (file & Hfile & Hget).
  eapply Hidx; [exact Ej|exact Hin| |exact Hget].
  by eapply list_elem_of_lookup_2.
Qed.

Lemma collect_hashes_form ireq cache hs cache' :
  (∀ name releases version files file d,
     pypi_json name = ApiReleases releases →
     (version, files) ∈ releases → file ∈ files →
     get FAVORITE_HASH file = Some d → digest_ok d) →
  (∀ l, ireq_original_link ireq = Some l → link_ok l) →
  Forall link_ok
    (applicable_candidates (ireq_name ireq) (ireq_specifier ireq)) →
  cache_ok cache →
  collect_hashes FAVORITE_HASH sources pypi_json pep440_version
    applicable_candidates file_hexdigest ireq cache = Ok (hs, cache') →
  ∀ h, h ∈ hs → hash_form h.
Proof.
  intros Hidx Horig Hcand Hcache.
  assert (∀ hs cache',
            from_candidates FAVORITE_HASH applicable_candidates
              file_hexdigest ireq cache = Ok (hs, cache') →
            ∀ h, h ∈ hs → hash_form h) as Hfc.
  { intros hs0 c0 H. by apply (hashes_of_links_form _ _ _ _ Hcand Hcache H). }
  assert (∀ hs cache',
            when_pinned FAVORITE_HASH sources pypi_json pep440_version
              applicable_candidates file_hexdigest ireq cache
              = Ok (hs, cache') →
            ∀ h, h ∈ hs → hash_form h) as Hwp.
  { intros hs0 c0. unfold when_pinned.
    destruct (negb _); [intros [= <- <-]; set_solver|].
    unfold from_index. destruct (any_pypi_source sources); [|apply Hfc].
    destruct (_get_hashes_from_pypi _ _ _ ireq) as [[idx|]|] eqn:Ep;
      simpl; [| apply Hfc | done].
    destruct (decide (idx = ∅)); [apply Hfc|].
    intros [= <- <-]. by apply (_get_hashes_from_pypi_form ireq). }
  unfold collect_hashes.
  destruct (ireq_link ireq) as [link|]; [|apply Hwp].
  destruct (_ || _); [intros [= <- <-]; set_solver|].
  destruct (ireq_original_link ireq) as [ol|] eqn:Eol; [|apply Hwp].
  destruct (_get_hash_from_link _ _ ol cache) as [[h0 c0]|] eqn:E;
    simpl; [|done].
  intros [= <- <-] h ->%elem_of_singleton.
  by apply (_get_hash_from_link_form _ _ _ _ (Horig _ eq_refl) Hcache E).
Qed.

End hash_invariant.

Section lockfile_hashes.

Variable Marker_str : string → result string.

Lemma get_del_keys_other k (e : entry) :
  k ≠ "index" → k ≠ "version" → k ≠ "file" →
  get k (del_keys ["index"; "version"; "file"] e) = get k e.
Proof.
  intros. unfold del_keys. simpl. by rewrite !get_del_ne.
Qed.

Lemma get_update_singleton k k' (v : pyval) (e : entry) :
  k ≠ k' → get k' (update e [(k, v)]) = get k' e.
Proof. intros. unfold update. simpl. by rewrite get_set_ne. Qed.

(** The [hashes] key of the assembled entry survives to the end. *)
Lemma format_requirement_for_lockfile_hashes req ml il hashes name e :
  hashes ≠ [] →
  format_requirement_for_lockfile Marker_str req ml il hashes
    = Ok (name, e) →
  get "hashes" e = Some (PyList (sorted_set hashes)).
Proof.
  intros Hne. unfold format_requirement_for_lockfile.
  destruct (assembled_entry req ml il hashes) as [[[n e0] idx]|] eqn:Ea;
    simpl; [|done].
  destruct (translate_markers _ e0) as [e1|] eqn:Et; simpl; [|done].
  intros [= <- <-].
  assert (get "hashes" e1 = Some (PyList (sorted_set hashes))) as He1.
  { rewrite (translate_markers_get _ "hashes" e0 e1) by done.
    unfold assembled_entry in Ea.
    destruct (req_normalized_name req) as [nn|]; simpl in Ea; [|done].
    destruct (req_pipfile_entry req _) as [? pf].
    injection Ea as <- <- _.
    destruct hashes as [|h0 hashes]; [done|].
    destruct (truthy_str (get nn ml)); destruct (truthy_str (get nn il));
      unfold update; simpl; rewrite ?get_set_ne by done;
      apply get_set_eq. }
  destruct (_ || _); [|done].
  unfold del_keys; simpl. by rewrite !get_del_ne.
Qed.

End lockfile_hashes.

Lemma sorted_elements_spec (hs : gset string) :
  StronglySorted String.le (sorted (elements hs))
  ∧ NoDup (sorted (elements hs))
  ∧ ∀ h, h ∈ sorted (elements hs) ↔ h ∈ hs.
Proof.
  destruct (sorted_spec (elements hs)) as [Hs Hp]. split_and!.
  - done.
  - rewrite Hp. apply NoDup_elements.
  - intros h. rewrite Hp. apply elem_of_elements.
Qed.

Lemma mem_update_inv {V} k (d e : dict V) :
  mem k (update d e) = true → mem k d = true ∨ mem k e = true.
Proof.
  unfold update. revert d.
  induction e as [|[k' v] e IH]; intros d; simpl; [by left|].
  intros [H|H]%IH.
  - destruct (decide (k' = k)) as [->|Hne].
    + right. unfold mem. cbn [get]. by rewrite String.eqb_refl.
    + left. unfold mem in *. by rewrite get_set_ne in H.
  - right. unfold mem in *. cbn [get]. by destruct (String.eqb k' k).
Qed.

Section attached_hashes.

Variable Marker_str : string → result string.

(** Without hashes handed over, the formatter attaches none: a [hashes]
    key of the entry was in the requirement's own Pipfile entry. *)
Lemma format_requirement_for_lockfile_no_hashes req ml il name e :
  format_requirement_for_lockfile Marker_str req ml il [] = Ok (name, e) →
  is_Some (get "hashes" e) →
  ∃ index n pf, req_pipfile_entry req index = (n, PfMap pf)
                ∧ mem "hashes" pf = true.
Proof.
  unfold format_requirement_for_lockfile.
  destruct (assembled_entry req ml il []) as [[[n e0] idx]|] eqn:Ea;
    simpl; [|done].
  destruct (translate_markers _ e0) as [e1|] eqn:Et; simpl; [|done].
  intros [= <- <-] He.
  assert (is_Some (get "hashes" e0)) as He0.
  { rewrite <- (translate_markers_get _ "hashes" e0 e1) by done.
    revert He. destruct (_ || _); [|done].
    unfold del_keys; simpl. by rewrite !get_del_ne. }
  clear He. unfold assembled_entry in Ea.
  destruct (req_normalized_name req) as [nn|]; simpl in Ea; [|done].
  destruct (req_pipfile_entry req (get nn il)) as [n0 pf] eqn:Ep.
  injection Ea as <- <- _.
  assert (is_Some
            (get "hashes"
               match pf with
               | PfStr s => [("version", PyStr (PyStr.lstrip_char "=" s))]
               | PfMap pf =>
                   let entry := update [] pf in
                   let entry :=
                     match
                       match truthy_str (req_specifiers req) with
                       | Some _ => Some (req_get_version req)
                       | None => None
                       end
                     with
                     | Some v =>
                         if negb (req_is_vcs req)
                         then set "version" (PyStr v) entry else entry
                     | None => entry
                     end in
                   if req_is_direct_url req && negb (req_is_vcs req)
                   then set "file" (PyStr (req_uri req)) entry else entry
               end)) as Hpf.
  { revert He0.
    destruct (truthy_str (get nn ml)); destruct (truthy_str (get nn il));
      unfold update; simpl; by rewrite ?get_set_ne by done. }
  destruct pf as [s|pf]; [by destruct Hpf|].
  exists (get nn il), n0, pf. split; [done|].
  assert (is_Some (get "hashes" (update [] pf))) as [v Hv].
  { revert Hpf. simpl.
    destruct (truthy_str (req_specifiers req)); destruct (negb _);
      rewrite ?andb_false_r, ?andb_true_r; try destruct (req_is_direct_url _);
      by rewrite ?get_set_ne by done. }
  destruct (mem_update_inv "hashes" [] pf) as [H|H]; [|done..].
  unfold mem. by rewrite Hv.
Qed.

End attached_hashes.

(** The [hashes] key that [_clean_skipped_result] leaves in the entry *)
Lemma _clean_skipped_result_hashes
    (collect_hashes_of :
       InstallRequirement → hash_cache → result (gset string * hash_cache))
    (req : ReqInfo) (value : entry) (cache cache' : hash_cache)
    (name : string) (e : entry) :
  _clean_skipped_result collect_hashes_of req value cache
    = Ok (name, e, cache') →
  ∃ hs, collect_hashes_of (req_as_ireq req) cache = Ok (hs, cache')
        ∧ get "hashes" e
          = if decide (hs = ∅) then get "hashes" value
            else Some (PyList (sorted (elements hs))).
Proof.
  unfold _clean_skipped_result.
  destruct (collect_hashes_of _ _) as [[hs c]|]; simpl; [|done].
  intros [= <- <- <-]. exists hs. split; [done|].
  destruct (decide (hs = ∅)); [|apply get_set_eq].
  set (e1 := if _ && _ then _ else _).
  assert (get "hashes" e1 = get "hashes" value) as <-.
  { subst e1. destruct (_ && _); rewrite ?get_del_ne by done;
      by rewrite get_set_ne. }
  destruct (truthy _); by rewrite ?get_set_ne.
Qed.

(** C8. The hashes list of a final lockfile entry.  The hashes come from
    [collect_hashes]; whatever list of them is handed to
    [format_requirement_for_lockfile], in any order and with repetitions,
    the list under [hashes] is sorted, has no duplicates, holds exactly
    the hashes handed over, and each is an algorithm name, a colon and a
    hex digest.  The same holds of the list [_clean_skipped_result]
    attaches for the hashes it collects.  With no hashes neither function
    attaches a list: a [hashes] key is then the one the Pipfile entry or
    the skipped record came with. *)
Theorem lockfile_hashes_sorted_unique_formed
    (FAVORITE_HASH : string) (sources : list string)
    (pypi_json : string → pypi_answer)
    (pep440_version : string → option string)
    (applicable_candidates : string → list Specifier → list Link)
    (file_hexdigest : string → result string)
    (Marker_str : string → result string)
    (ireq : InstallRequirement) (cache cache' : hash_cache)
    (hs : gset string) (hashes : list string) (req : ReqInfo)
    (markers_lookup index_lookup : dict string)
    (skipped_req : ReqInfo) (value : entry) :
  sources_well_formed FAVORITE_HASH pypi_json applicable_candidates
    file_hexdigest ireq cache →
  collect_hashes FAVORITE_HASH sources pypi_json pep440_version
    applicable_candidates file_hexdigest ireq cache = Ok (hs, cache') →
  (∀ h, h ∈ hashes → h ∈ hs) →
  req_as_ireq skipped_req = ireq →
  match format_requirement_for_lockfile Marker_str req markers_lookup
          index_lookup hashes with
  | Ok (_, e) =>
      match hashes with
      | [] =>
          is_Some (get "hashes" e) →
          ∃ index n pf, req_pipfile_entry req index = (n, PfMap pf)
                        ∧ mem "hashes" pf = true
      | _ =>
          ∃ l, get "hashes" e = Some (PyList l)
               ∧ StronglySorted String.le l
               ∧ NoDup l
               ∧ Forall hash_form l
               ∧ ∀ h, h ∈ l ↔ h ∈ hashes
      end
  | Raise _ => True
  end
  ∧ match _clean_skipped_result
            (collect_hashes FAVORITE_HASH sources pypi_json pep440_version
               applicable_candidates file_hexdigest)
            skipped_req value cache with
    | Ok (_, e, _) =>
        if decide (hs = ∅) then get "hashes" e = get "hashes" value
        else ∃ l, get "hashes" e = Some (PyList l)
                  ∧ StronglySorted String.le l
                  ∧ NoDup l
                  ∧ Forall hash_form l
                  ∧ ∀ h, h ∈ l ↔ h ∈ hs
    | Raise _ => True
    end.
Proof.
  intros [Hfav Hidx Hfile Horig Hcand Hcache] Hcollect Hsub Hireq.
  assert (∀ h, h ∈ hs → hash_form h) as Hform.
  { by eapply (collect_hashes_form FAVORITE_HASH sources pypi_json
                 pep440_version applicable_candidates file_hexdigest
                 Hfav Hfile ireq cache hs cache'). }
  split.
  - destruct (format_requirement_for_lockfile _ _ _ _ _) as [[name e]|]
      eqn:E; [|done].
    destruct hashes as [|h0 hashes].
    { by apply (format_requirement_for_lockfile_no_hashes _ _ _ _ _ _ E). }
    apply format_requirement_for_lockfile_hashes in E; [|done].
    destruct (sorted_set_spec (h0 :: hashes)) as (Hs & Hd & Hm).
    eexists. split_and!; [exact E|done|done| |done].
    apply Forall_forall. intros h Hh%Hm. auto.
  - destruct (_clean_skipped_result _ _ _ _) as [[[name e] c]|] eqn:E;
      [|done].
    apply _clean_skipped_result_hashes in E as (hs' & Hc' & He).
    rewrite Hireq, Hcollect in Hc'. injection Hc' as <- <-.
    destruct (decide (hs = ∅)) as [->|Hhs]; [done|].
    destruct (sorted_elements_spec hs) as (Hs & Hd & Hm).
    eexists. split_and!; [exact He|done|done| |done].
    apply Forall_forall. intros h Hh%Hm. auto.
Qed.

Lemma lockfile_hashes_sorted_unique_formed_witness :
  let hs : gset string := list_to_set ["sha256:c5a1"; "sha256:27b3"] in
  let hashes := ["sha256:c5a1"; "sha256:27b3"; "sha256:c5a1"] in
  match format_requirement_for_lockfile packaging_Marker_str
          Samples.requests [] [] hashes with
  | Ok (_, e) =>
      match hashes with
      | [] =>
          is_Some (get "hashes" e) →
          ∃ index n pf,
            req_pipfile_entry Samples.requests index = (n, PfMap pf)
            ∧ mem "hashes" pf = true
      | _ =>
          ∃ l, get "hashes" e = Some (PyList l)
               ∧ StronglySorted String.le l
               ∧ NoDup l
               ∧ Forall hash_form l
               ∧ ∀ h, h ∈ l ↔ h ∈ hashes
      end
  | Raise _ => True
  end
  ∧ match _clean_skipped_result
            (collect_hashes "sha256" ["https://pypi.org/simple"]
               (fun _ => IndexSamples.requests_json) Some (fun _ _ => [])
               (fun _ => Ok "00"))
            Samples.requests [("version", PyStr "==2.25.1")] ∅ with
    | Ok (_, e, _) =>
        if decide (hs = ∅)
        then get "hashes" e = get "hashes" [("version", PyStr "==2.25.1")]
        else ∃ l, get "hashes" e = Some (PyList l)
                  ∧ StronglySorted String.le l
                  ∧ NoDup l
                  ∧ Forall hash_form l
                  ∧ ∀ h, h ∈ l ↔ h ∈ hs
    | Raise _ => True
    end.
Proof.
  intros hs hashes.
  apply (lockfile_hashes_sorted_unique_formed "sha256"
           ["https://pypi.org/simple"]
           (fun _ => IndexSamples.requests_json) Some (fun _ _ => [])
           (fun _ => Ok "00") packaging_Marker_str Samples.requests_ireq
           ∅ ∅ hs hashes Samples.requests [] [] Samples.requests
           [("version", PyStr "==2.25.1")]).
  - split.
    + discriminate.
    + intros name releases version files file d [= <-] Hin Hfile Hget.
      apply list_elem_of_singleton in Hin. injection Hin as -> ->.
      apply elem_of_cons in Hfile as [->|Hfile];
        [|apply list_elem_of_singleton in Hfile as ->];
        vm_compute in Hget; injection Hget as <-; right; reflexivity.
    + intros url d [= <-]. reflexivity.
    + intros l Hl. vm_compute in Hl. discriminate.
    + simpl. constructor.
    + intros url v Hv. rewrite lookup_empty in Hv. discriminate.
  - vm_compute. reflexivity.
  - intros h Hh. apply elem_of_list_to_set.
    repeat (apply elem_of_cons in Hh as [->|Hh]; [by repeat constructor|]).
    by apply elem_of_nil in Hh.
  - reflexivity.
Defined.

(** ** Pin precedence in the lockfile merger *)

Section pin_precedence.

Variable Marker_str : string → result string.
Variable is_vcs : entry → bool.

Lemma versioned_set dep key v lockfile :
  key ≠ "version" →
  versioned dep lockfile → versioned dep (set key v lockfile).
Proof.
  intros Hk [Hv Hwf]. split; [by rewrite get_set_ne|by apply set_wf].
Qed.

Lemma versioned_copy_key dep key lockfile :
  key ≠ "version" →
  versioned dep lockfile → versioned dep (copy_key key dep lockfile).
Proof.
  intros Hk H. unfold copy_key.
  destruct (get key dep); [by apply versioned_set|done].
Qed.

Lemma versioned_lock_version dep : versioned dep (lock_version dep []).
Proof.
  unfold versioned, lock_version.
  destruct (resolved_version dep) as [v|]; simpl.
  - split; [done|]. apply NoDup_singleton.
  - split; [done|apply NoDup_nil_2].
Qed.

Lemma versioned_lock_vcs_keys dep lockfile :
  versioned dep lockfile → versioned dep (lock_vcs_keys is_vcs dep lockfile).
Proof.
  intros H. unfold lock_vcs_keys. destruct (is_vcs dep); [|done].
  apply versioned_copy_key; [done|].
  assert (versioned dep
            match get "ref" dep with
            | Some PyNone | None => lockfile
            | Some ref => set "ref" ref lockfile
            end) as Href.
  { destruct (get "ref" dep) as [[]|]; try done;
      by apply versioned_set. }
  destruct (List.find _ (keys dep)) as [vcs_type|] eqn:E; [|done].
  destruct (PyStr.nonempty vcs_type); [|done].
  apply versioned_copy_key; [|done].
  apply find_some in E as [_ E]. intros ->. by vm_compute in E.
Qed.

Lemma versioned_lock_plain_keys dep lockfile :
  versioned dep lockfile → versioned dep (lock_plain_keys dep lockfile).
Proof.
  intros H. unfold lock_plain_keys. simpl.
  by repeat (apply versioned_copy_key; [done|]).
Qed.

Lemma find_path_or_file (f : string → bool) k :
  List.find f ["path"; "file"] = Some k → k ≠ "version".
Proof.
  intros [Hin _]%find_some ->. simpl in Hin.
  destruct Hin as [?|[?|[]]]; discriminate.
Qed.

Lemma versioned_lock_fs_key dep pe lockfile lockfile' :
  versioned dep lockfile →
  lock_fs_key dep pe lockfile = Ok lockfile' → versioned dep lockfile'.
Proof.
  intros H. unfold lock_fs_key.
  destruct (List.find _ _) as [fk|] eqn:Ef; [|by intros [= <-]].
  pose proof (find_path_or_file _ _ Ef) as Hfk.
  set (pk := match pe with Some _ => _ | None => _ end).
  assert (∀ k, pk = Some k → k ≠ "version") as Hpk.
  { subst pk. intros k. destruct pe as [[s|e]|]; [| |done].
    - destruct (pf_truthy _); [apply find_path_or_file|done].
    - destruct (pf_truthy _); [apply find_path_or_file|done]. }
  destruct pk as [k|].
  - specialize (Hpk k eq_refl). destruct (negb _).
    + destruct pe as [[s|e]|]; try done.
      destruct (getitem k e) as [v|]; simpl; [|done].
      intros [= <-]. by apply versioned_set.
    + intros [= <-]. by apply versioned_copy_key.
  - intros [= <-]. by apply versioned_copy_key.
Qed.

Lemma versioned_lock_markers dep top pe lockfile lockfile' :
  versioned dep lockfile →
  lock_markers Marker_str dep top pe lockfile = Ok lockfile' →
  versioned dep lockfile'.
Proof.
  intros H. unfold lock_markers.
  destruct (match get "markers" dep with Some _ => _ | None => _ end)
    as [[]|]; simpl; [| by intros [= <-] | done].
  destruct (negb top).
  - destruct (translate_markers _ dep) as [te|]; simpl; [|done].
    destruct (as_str _) as [s|]; simpl; [|done].
    intros [= <-]. destruct (PyStr.nonempty _); [|done].
    by apply versioned_set.
  - destruct pe as [[s|e]|]; try by intros [= <-].
    destruct (translate_markers _ e) as [e'|[]]; try done;
      intros [= <-]; [by apply versioned_set|done].
Qed.

(** What [clean_resolved_dep] returns carries the resolved version. *)
Lemma clean_resolved_dep_version dep top pe name cleaned :
  clean_resolved_dep Marker_str is_vcs dep top pe = Ok (name, cleaned) →
  get "version" cleaned = PyStr <$> resolved_version dep ∧ wf cleaned.
Proof.
  unfold clean_resolved_dep.
  destruct (pep423_name <$> _) as [n|]; simpl; [|done].
  destruct (lock_fs_key _ _ _) as [l1|] eqn:E1; simpl; [|done].
  destruct (lock_markers _ _ _ _ _) as [l2|] eqn:E2; simpl; [|done].
  intros [= <- <-].
  eapply versioned_lock_markers; [|exact E2].
  eapply versioned_lock_fs_key; [|exact E1].
  apply versioned_lock_plain_keys, versioned_lock_vcs_keys,
    versioned_lock_version.
Qed.

Lemma get_locked_dep_pinned dep pipfile declared name cleaned v :
  pipfile_entry_of dep pipfile = Ok declared →
  clean_for_lockfile Marker_str is_vcs dep declared = Ok (name, cleaned) →
  declared_version declared = PyStr v →
  get_locked_dep Marker_str is_vcs dep pipfile true
  = Ok (name, if pin_wins dep v then set "version" (PyStr v) cleaned
              else cleaned).
Proof.
  intros Hentry Hclean Hdecl. unfold get_locked_dep.
  rewrite Hentry. simpl. rewrite Hclean. simpl. rewrite Hdecl.
  assert (get "version" cleaned = PyStr <$> resolved_version dep) as ->.
  { unfold clean_for_lockfile in Hclean.
    destruct (top_level_entry declared);
      by apply clean_resolved_dep_version in Hclean as [? _]. }
  unfold pin_wins. destruct (resolved_version dep) as [r|]; simpl.
  - destruct (decide (r = v)) as [->|Hne].
    + rewrite !bool_decide_eq_true_2 by done. simpl.
      by rewrite andb_false_r.
    + rewrite !bool_decide_eq_false_2 by congruence. simpl.
      by rewrite andb_true_r.
  - destruct (decide (v = "")) as [->|Hne].
    + by rewrite bool_decide_eq_true_2.
    + rewrite !bool_decide_eq_false_2 by congruence. simpl.
      by rewrite andb_true_r.
Qed.

(** C3. A resolved record [dep] is merged into the lockfile section.
    When the version the Pipfile declares for the package is an exact pin
    (it starts with [==] and has no [*]) and differs from the resolved
    version, the entry written for the package carries the Pipfile's
    pin; otherwise it carries the resolved version (and, for a record
    without a version, whatever version the section already had). *)
Theorem pipfile_pin_precedence
    (dep : entry) (pipfile lockfile : dict pf_value)
    (declared : option pf_value) (name : string) (cleaned : entry)
    (v : string) :
  dep ≠ [] →
  pipfile_entry_of dep pipfile = Ok declared →
  clean_for_lockfile Marker_str is_vcs dep declared = Ok (name, cleaned) →
  declared_version declared = PyStr v →
  (∀ current,
     get name lockfile = Some (PfMap current) → current ≠ [] →
     is_ok (translate_markers Marker_str
              (update current
                 (if pin_wins dep v then set "version" (PyStr v) cleaned
                  else cleaned))) = true) →
  ∃ lockfile' e,
    prepare_lockfile Marker_str is_vcs [dep] pipfile lockfile
      = Ok lockfile'
    ∧ get name lockfile' = Some (PfMap e)
    ∧ get "version" e
      = if pin_wins dep v then Some (PyStr v)
        else match resolved_version dep with
             | Some resolved => Some (PyStr resolved)
             | None =>
                 match get name lockfile with
                 | Some (PfMap current) => get "version" current
                 | _ => None
                 end
             end.
Proof.
  intros Hdep Hentry Hclean Hdecl Hmerge.
  pose proof (get_locked_dep_pinned _ _ _ _ _ _ Hentry Hclean Hdecl) as Hl.
  set (locked := if pin_wins dep v then _ else _) in *.
  assert (get "version" cleaned = PyStr <$> resolved_version dep
          ∧ wf cleaned) as [Hv Hwf].
  { unfold clean_for_lockfile in Hclean.
    destruct (top_level_entry declared);
      by apply clean_resolved_dep_version in Hclean. }
  assert (get "version" locked
          = if pin_wins dep v then Some (PyStr v)
            else PyStr <$> resolved_version dep) as Hlv.
  { subst locked. destruct (pin_wins dep v); [apply get_set_eq|done]. }
  assert (wf locked) as Hlwf.
  { subst locked. destruct (pin_wins dep v); [by apply set_wf|done]. }
  unfold prepare_lockfile, prepare_lockfile_entry.
  destruct dep as [|kv dep']; [done|]. rewrite Hl. simpl.
  assert (∀ e, get "version" e = get "version" locked →
            (∀ current, get name lockfile = Some (PfMap current) →
                        get "version" current = None) →
            ∃ lockfile' e0,
              Ok (set name (PfMap e) lockfile) = Ok lockfile'
              ∧ get name lockfile' = Some (PfMap e0)
              ∧ get "version" e0
                = if pin_wins (kv :: dep') v then Some (PyStr v)
                  else match resolved_version (kv :: dep') with
                       | Some resolved => Some (PyStr resolved)
                       | None =>
                           match get name lockfile with
                           | Some (PfMap current) => get "version" current
                           | _ => None
                           end
                       end) as Hfresh.
  { intros e He Hprior. eexists _, e. split; [done|].
    split; [apply get_set_eq|]. rewrite He, Hlv.
    destruct (pin_wins _ v); [done|].
    destruct (resolved_version _); [done|]. simpl.
    destruct (get name lockfile) as [[?|current]|]; try done.
    symmetry. by apply Hprior. }
  destruct (get name lockfile) as [[s|current]|] eqn:Ecur;
    try (apply Hfresh; [done|by intros ? [=]]).
  destruct current as [|kv0 current].
  { apply Hfresh; [done|]. by intros ? [= <-]. }
  simpl. specialize (Hmerge _ eq_refl).
  destruct (translate_markers _ _) as [merged|] eqn:Em;
    [|by specialize (Hmerge ltac:(done))].
  simpl. eexists _, merged. split; [done|]. split; [apply get_set_eq|].
  rewrite (translate_markers_get _ "version" _ _ eq_refl Em).
  rewrite get_update by done. rewrite Hlv.
  destruct (pin_wins _ v); [done|].
  by destruct (resolved_version _).
Qed.

End pin_precedence.

Lemma pipfile_pin_precedence_witness :
  let dep : entry :=
    [("name", PyStr "pkg"); ("version", PyStr "1.3.0");
     ("hashes", PyList ["sha256:c5a1"])] in
  let pipfile : dict pf_value := [("Pkg", PfStr "==1.2.0")] in
  let lockfile : dict pf_value :=
    [("pkg", PfMap [("version", PyStr "==1.1.0"); ("index", PyStr "pypi")])] in
  ∃ lockfile' e,
    prepare_lockfile packaging_Marker_str requirementslib_is_vcs [dep]
      pipfile lockfile = Ok lockfile'
    ∧ get "pkg" lockfile' = Some (PfMap e)
    ∧ get "version" e = Some (PyStr "==1.2.0").
Proof.
  intros dep pipfile lockfile.
  apply (pipfile_pin_precedence packaging_Marker_str requirementslib_is_vcs
           dep pipfile lockfile (Some (PfStr "==1.2.0")) "pkg"
           [("version", PyStr "==1.3.0");
            ("hashes", PyList ["sha256:c5a1"])] "==1.2.0").
  - discriminate.
  - reflexivity.
  - reflexivity.
  - reflexivity.
  - intros current [= <-] _. reflexivity.
Defined.

(** ** The transitive expander *)

Section expander_facts.

Variable Marker_str : string → result string.
Variable resolver : option Resolver.
Variable pinned_pipfile_entry :
  ReqInfo → string → gset string → string * pf_value.

Lemma mem_set_mono {V} k k' (v : V) (d : dict V) :
  mem k d = true → mem k (set k' v d) = true.
Proof.
  unfold mem. destruct (decide (k' = k)) as [->|Hne].
  - by rewrite get_set_eq.
  - by rewrite get_set_ne.
Qed.

Lemma mem_update_mono {V} k (d e : dict V) :
  mem k d = true → mem k (update d e) = true.
Proof.
  unfold update. revert d.
  induction e as [|[k' v] e IH]; intros d Hd; simpl; [done|].
  by apply IH, mem_set_mono.
Qed.

Lemma mem_update_singleton {V} k (v : V) (d : dict V) :
  mem k (update d [(k, v)]) = true.
Proof. unfold update, mem. simpl. by rewrite get_set_eq. Qed.

(** The loop over the declared dependencies only adds keys. *)
Lemma expand_declared_mem recurse info r k st st' :
  expand_declared recurse info r st = Ok st' →
  mem k st.1.2 = true → mem k st'.1.2 = true.
Proof.
  destruct st as [[cs locked] h]. unfold expand_declared.
  destruct r as [[d parsed]|]; [|by intros [= <-]].
  destruct (_ && _).
  - destruct parsed as [new_req|]; [|done].
    destruct (dep_marker d) as [[]|].
    + destruct (recurse new_req h) as [[[cs' l'] h']|]; [|done].
      intros [= <-]. simpl. apply mem_update_mono.
    + destruct (alloc _ h). by destruct (req_normalized_name _).
    + destruct (recurse new_req h) as [[[cs' l'] h']|]; [|done].
      intros [= <-]. simpl. apply mem_update_mono.
  - destruct (dep_marker d) as [[]|]; by intros [= <-].
Qed.

Lemma expand_all_mem recurse info rs k st st' :
  expand_all recurse info rs st = Ok st' →
  mem k st.1.2 = true → mem k st'.1.2 = true.
Proof.
  revert st. induction rs as [|r rs IH]; intros st; simpl.
  - by intros [= <-].
  - destruct (expand_declared recurse info r st) as [st1|] eqn:E; [|done].
    intros H Hk. eapply IH; [exact H|]. by eapply expand_declared_mem.
Qed.

(** A declared dependency that comes from a URL, is not editable and has
    a marker that is false here never gets past the union of a set with
    a dictionary. *)
Lemma expand_declared_excluded_url recurse info d new_req st :
  is_Some (truthy_str (dep_url d)) →
  dep_editable d = false →
  dep_marker d = Some false →
  ∃ e, expand_declared recurse info (Some (d, Ok new_req)) st = Raise e.
Proof.
  intros Hurl Hed Hm. destruct st as [[cs locked] h].
  unfold expand_declared.
  rewrite (bool_decide_eq_true_2 _ Hurl), Hed, Hm. simpl.
  destruct (req_normalized_name _); simpl; eauto.
Qed.

(** C2, amended.  A requirement that is not fetched lands in the
    constraint set alone unless its marker is false here; with a false
    marker it lands in the locked map alone when the finder has a
    candidate, and in neither when there is none (or no resolver).  A
    fetched requirement, when the expansion returns, is in the locked
    map under its name.  A dependency it declares that is not fetched
    from a URL goes to the constraint set, unless its marker is false
    here: then it is recorded nowhere. *)
Theorem get_deps_from_req_partition
    (info : ReqInfo) requires (resolve_vcs : bool) (h : heap) :
  let run :=
    get_deps_from_req Marker_str resolver pinned_pipfile_entry
      (Req info requires) resolve_vcs h in
  (is_fetched info = false → req_marker info ≠ Some false →
   run
   = Ok ({[ req_constraint_line info ]}, [], h))
  ∧ (is_fetched info = false → req_marker info = Some false →
     match resolver with
     | Some pypi =>
         match best_candidate pypi (req_as_ireq info) with
         | Some best_version =>
             match run with
             | Ok (constraints, locked, _) =>
                 constraints = ∅
                 ∧ ∃ hashes a,
                     locked
                     = [(pep423_name
                           (pinned_pipfile_entry info best_version
                              hashes).1, a)]
             | Raise _ => True
             end
         | None =>
             is_Some (ireq_req (req_as_ireq info)) → run = Ok (∅, [], h)
         end
     | None => run = Ok (∅, [], h)
     end)
  ∧ (is_fetched info = true →
     match run with
     | Ok (_, locked, _) =>
         ∃ name, req_normalized_name info = Ok name
                 ∧ mem name locked = true
                 ∧ mem (pep423_name name) locked = true
     | Raise _ => True
     end)
  ∧ (∀ recurse d parsed constraints locked h0,
       bool_decide (is_Some (truthy_str (dep_url d)))
       && negb (dep_editable d) = false →
       expand_declared recurse info (Some (d, parsed))
         (constraints, locked, h0)
       = match dep_marker d with
         | Some false => Ok (constraints, locked, h0)
         | _ => Ok ({[ dep_line d ]} ∪ constraints, locked, h0)
         end).
Proof.
  intros run. subst run. simpl. split_and!;
    [| | |by intros recurse d parsed cs l h0 ->;
          destruct (dep_marker d) as [[]|]].
  - intros -> Hm. unfold expand_plain.
    destruct (req_marker info) as [[]|]; done.
  - intros -> Hm. unfold expand_plain. rewrite Hm.
    destruct resolver as [pypi|]; [|done].
    destruct (best_candidate pypi _) as [v|];
      [|by intros [? ->]].
    destruct (ireq_req _); simpl; [|done].
    destruct (resolver_collect_hashes pypi _) as [hs|]; simpl; [|done].
    destruct (pinned_pipfile_entry info v hs) as [n pf] eqn:Ep.
    destruct pf as [s|e]; simpl; [done|].
    destruct (translate_markers _ e); simpl; [|done].
    split; [done|]. exists hs. rewrite Ep. eauto.
  - intros ->. destruct (fetch_entry info h) as [[[a name] st]|] eqn:Ef;
      [|done].
    assert (req_normalized_name info = Ok name
            ∧ mem (pep423_name name) st.1.2 = true) as [Hn Hst].
    { unfold fetch_entry in Ef.
      destruct (if req_is_vcs info then _ else _) as [[a0 h0]|];
        simpl in Ef; [|done].
      destruct (req_normalized_name info) as [n|[]]; simpl in Ef; try done.
      injection Ef as <- <- <-. split; [done|]. simpl.
      unfold mem. simpl. by rewrite String.eqb_refl. }
    assert (∀ st1,
              mem (pep423_name name) st1.1.2 = true →
              match keep_top_level info a name st1 with
              | Ok (_, locked, _) =>
                  ∃ name0, req_normalized_name info = Ok name0
                           ∧ mem name0 locked = true
                           ∧ mem (pep423_name name0) locked = true
              | Raise _ => True
              end) as Hkeep.
    { intros [[cs locked] h1] Hk. unfold keep_top_level.
      destruct (if negb _ then _ else _) as [h2|]; simpl; [|done].
      exists name. split_and!; [done|apply mem_update_singleton|].
      by apply (mem_update_mono _ locked [(name, a)]). }
    destruct (reads_requires info resolve_vcs); [|by apply Hkeep].
    destruct (expand_all _ _ _ _) as [st1|] eqn:Ea; [|done].
    apply Hkeep. by eapply expand_all_mem.
Qed.

End expander_facts.

(** C2, as stated: a requirement from the index whose marker is false
    here and for which the finder has no candidate comes back in neither
    the constraint set nor the locked map. *)
Lemma get_deps_from_req_neither_counterexample :
  get_deps_from_req packaging_Marker_str
    (Some ExpanderSamples.empty_index) ExpanderSamples.pinned_entry
    (Req ExpanderSamples.pywin32 []) true []
  = Ok (∅, [], [])
  ∧ req_marker ExpanderSamples.pywin32 = Some false
  ∧ best_candidate ExpanderSamples.empty_index
      (req_as_ireq ExpanderSamples.pywin32) = None.
Proof. split_and!; reflexivity. Qed.

(** With a candidate the same requirement is recorded in the locked map
    and kept out of the constraints. *)
Example get_deps_from_req_excluded_with_candidate :
  get_deps_from_req packaging_Marker_str
    (Some ExpanderSamples.one_release) ExpanderSamples.pinned_entry
    (Req ExpanderSamples.pywin32 []) true []
  = Ok (∅, [("pywin32", 0)],
        [PfMap [("version", PyStr "==300");
                ("hashes", PyList ["sha256:c5a1"]);
                ("markers", PyStr "sys_platform == 'win32'")]]).
Proof. vm_compute. reflexivity. Qed.

(** A local package with two declared dependencies from the index: the
    package itself is recorded in the locked map (with the version its
    build metadata gives), the dependency that applies goes to the
    constraints, the one whose marker is false is dropped. *)
Example get_deps_from_req_local_package :
  get_deps_from_req packaging_Marker_str
    (Some ExpanderSamples.one_release) ExpanderSamples.pinned_entry
    ExpanderSamples.app_with_index_deps true []
  = Ok ({[ "requests>=2.0" ]}, [("app", 0)],
        [PfMap [("path", PyStr "./app"); ("editable", PyBool true);
                ("version", PyStr "==0.1")]]).
Proof. vm_compute. reflexivity. Qed.

(** C10.  The local package [app] declares the dependency [winhelper],
    fetched from a URL, with a marker that is false here.  Expanding [app]
    does not return a locked map: the record for [winhelper] is built from
    the entry of [app], and then the union of the constraint set with a
    dictionary raises [TypeError]. *)
Theorem get_deps_from_req_excluded_url_dependency :
  get_deps_from_req packaging_Marker_str
    (Some ExpanderSamples.one_release) ExpanderSamples.pinned_entry
    ExpanderSamples.app_with_winhelper true []
  = Raise (TypeError "unsupported operand type(s) for |=: 'set' and 'dict'").
Proof. vm_compute. reflexivity. Qed.


Lemma get_deps_from_req_partition_witness :
  get_deps_from_req packaging_Marker_str
    (Some ExpanderSamples.one_release) ExpanderSamples.pinned_entry
    (Req Samples.requests []) true []
  = Ok ({[ "requests==2.25.1" ]}, [], []).
Proof.
  apply (get_deps_from_req_partition packaging_Marker_str
           (Some ExpanderSamples.one_release) ExpanderSamples.pinned_entry
           Samples.requests [] true []).
  - reflexivity.
  - discriminate.
Defined.

(* ================================================================== *)
(** * Part III: further properties of the code                         *)
(* ================================================================== *)

(** ** More facts on strings, lists and dictionaries *)

Lemma string_app_cons c (s t : string) : String c s ++ t = String c (s ++ t).
Proof. reflexivity. Qed.

Lemma string_app_nil_r (s : string) : s ++ "" = s.
Proof.
  induction s as [|c s IH]; [reflexivity|].
  by rewrite string_app_cons, IH.
Qed.

Lemma string_app_assoc (s t u : string) : (s ++ t) ++ u = s ++ t ++ u.
Proof.
  induction s as [|c s IH]; [reflexivity|].
  by rewrite !string_app_cons, IH.
Qed.

Lemma prefix_refl_app (p s : string) : String.prefix p (p ++ s) = true.
Proof.
  induction p as [|c p IH].
  - by destruct s.
  - rewrite string_app_cons, prefix_cons. by destruct (ascii_dec c c).
Qed.

Lemma in_list_spec k l : PyStr.in_list k l = true ↔ k ∈ l.
Proof.
  unfold PyStr.in_list. rewrite existsb_exists. split.
  - intros (x & Hx & ->%String.eqb_eq). by apply list_elem_of_In.
  - intros Hk. exists k. split; [by apply list_elem_of_In|].
    apply String.eqb_refl.
Qed.

(** Membership in a list that is written out *)
Ltac listed := apply in_list_spec; reflexivity.
Ltac listed_from H :=
  repeat (apply elem_of_cons in H as [->|H]; [listed|]);
  by apply elem_of_nil in H.

Lemma filter_idem {A} (f : A → bool) (l : list A) :
  List.filter f (List.filter f l) = List.filter f l.
Proof.
  induction l as [|a l IH]; [reflexivity|]. cbn [List.filter].
  destruct (f a) eqn:E; [|exact IH]. cbn [List.filter]. by rewrite E, IH.
Qed.

Lemma find_elem_of {A} (f : A → bool) (l : list A) x :
  List.find f l = Some x → x ∈ l ∧ f x = true.
Proof.
  intros [H1 H2]%find_some. split; [by apply list_elem_of_In|done].
Qed.

Lemma get_None_keys {V} k (d : dict V) : get k d = None ↔ k ∉ keys d.
Proof.
  split.
  - intros H Hk. apply mem_keys in Hk. unfold mem in Hk. by rewrite H in Hk.
  - intros H. destruct (get k d) eqn:E; [|done].
    exfalso. apply H. by eapply get_Some_keys.
Qed.

Lemma get_del_None {V} k k' (d : dict V) :
  get k' d = None → get k' (del k d) = None.
Proof.
  intros H. destruct (decide (k = k')) as [->|Hne].
  - apply get_del_eq.
  - by rewrite get_del_ne.
Qed.

Lemma mem_set {V} k k' (v : V) (d : dict V) :
  mem k (set k' v d) = true ↔ k = k' ∨ mem k d = true.
Proof.
  unfold mem. destruct (decide (k' = k)) as [->|Hne].
  - rewrite get_set_eq. split; [by left|done].
  - rewrite get_set_ne by done. split; [by right|].
    by intros [->|?].
Qed.

(** ** Pipfile text *)

Lemma split_from_cons_char c d s :
  PyText.split_from (String c "") 0 (String d s)
  = if Ascii.eqb d c then "" :: PyText.split_from (String c "") 0 s
    else match PyText.split_from (String c "") 0 s with
         | x :: l => String d x :: l
         | [] => [String d ""]
         end.
Proof.
  cbn [PyText.split_from]. rewrite prefix_cons.
  destruct (ascii_dec c d) as [->|Hne].
  - rewrite Ascii.eqb_refl. destruct s; reflexivity.
  - destruct (Ascii.eqb_spec d c) as [->|_]; [done|reflexivity].
Qed.

Lemma split_from_not_nil sep k s : PyText.split_from sep k s ≠ [].
Proof.
  revert k. induction s as [|c s IH]; intros k; cbn [PyText.split_from];
    [done|].
  destruct k; [|apply IH].
  destruct (String.prefix sep (String c s)); [done|].
  destruct (PyText.split_from sep 0 s); done.
Qed.

Lemma split_char_free c s :
  Forall (fun x => PyStr.has_char c x = false)
    (PyText.split s (String c "")).
Proof.
  unfold PyText.split. induction s as [|d s IH].
  - repeat constructor.
  - rewrite split_from_cons_char.
    destruct (Ascii.eqb_spec d c) as [->|Hne].
    + constructor; [reflexivity|exact IH].
    + destruct (PyText.split_from (String c "") 0 s) as [|x l].
      * repeat constructor. cbn. apply Ascii.eqb_neq in Hne. by rewrite Hne.
      * inversion IH; subst. constructor; [|done].
        cbn. apply Ascii.eqb_neq in Hne. by rewrite Hne.
Qed.

Lemma split_no_sep c x :
  PyStr.has_char c x = false → PyText.split x (String c "") = [x].
Proof.
  unfold PyText.split. induction x as [|d x IH]; [reflexivity|].
  cbn [PyStr.has_char]. intros [Hd Hx]%orb_false_iff.
  rewrite split_from_cons_char, Hd, IH by done. reflexivity.
Qed.

Lemma split_app_sep c x rest :
  PyStr.has_char c x = false →
  PyText.split (x ++ String c rest) (String c "")
  = x :: PyText.split rest (String c "").
Proof.
  unfold PyText.split. induction x as [|d x IH].
  - intros _. change ("" ++ String c rest) with (String c rest).
    rewrite split_from_cons_char.
    by rewrite Ascii.eqb_refl.
  - cbn [PyStr.has_char]. intros [Hd Hx]%orb_false_iff.
    rewrite string_app_cons, split_from_cons_char, Hd, IH by done.
    reflexivity.
Qed.

(** Splitting what was joined gives the lines back. *)
Lemma split_join c (l : list string) :
  l ≠ [] →
  Forall (fun x => PyStr.has_char c x = false) l →
  PyText.split (PyStr.join (String c "") l) (String c "") = l.
Proof.
  induction l as [|x l IH]; [done|]. intros _ Hl.
  inversion Hl as [|? ? Hx Hl']; subst.
  destruct l as [|y l].
  - cbn [PyStr.join]. by apply split_no_sep.
  - change (PyStr.join (String c "") (x :: y :: l))
      with (x ++ String c (PyStr.join (String c "") (y :: l))).
    rewrite split_app_sep by done. f_equal. by apply IH.
Qed.

Lemma join_snoc_empty sep (l : list string) :
  l ≠ [] → PyStr.join sep (l ++ [""]) = PyStr.join sep l ++ sep.
Proof.
  induction l as [|x l IH]; [done|]. intros _.
  destruct l as [|y l].
  - cbn. by rewrite string_app_nil_r.
  - change (PyStr.join sep ((x :: y :: l) ++ [""]))
      with (x ++ sep ++ PyStr.join sep ((y :: l) ++ [""])).
    rewrite IH by done.
    change (PyStr.join sep (x :: y :: l))
      with (x ++ sep ++ PyStr.join sep (y :: l)).
    by rewrite !string_app_assoc.
Qed.

Lemma space_sections_not_nil i lines :
  lines ≠ [] → space_sections i lines ≠ [].
Proof.
  destruct lines as [|line rest]; [done|]. intros _. cbn [space_sections].
  destruct (PyStr.startswith line "[" && negb (i =? 0)%nat); done.
Qed.

Lemma space_sections_char_free c i lines :
  Forall (fun x => PyStr.has_char c x = false) lines →
  Forall (fun x => PyStr.has_char c x = false) (space_sections i lines).
Proof.
  intros H. revert i. induction H as [|line rest Hl _ IH]; intros i.
  - constructor.
  - cbn [space_sections].
    destruct (PyStr.startswith line "[" && negb (i =? 0)%nat); cbn.
    + constructor; [reflexivity|]. constructor; [done|apply IH].
    + constructor; [done|apply IH].
Qed.

Lemma space_sections_content i lines :
  List.filter (fun line => PyStr.nonempty (PyStr.strip line))
    (space_sections i lines)
  = List.filter (fun line => PyStr.nonempty (PyStr.strip line)) lines.
Proof.
  revert i. induction lines as [|line rest IH]; intros i; [reflexivity|].
  cbn [space_sections].
  destruct (PyStr.startswith line "[" && negb (i =? 0)%nat);
    cbn [app List.filter]; rewrite ?IH.
  - change (PyStr.nonempty (PyStr.strip "")) with false. cbn iota.
    reflexivity.
  - reflexivity.
Qed.

(** The lines of the text [cleanup_toml] returns *)
Lemma cleanup_toml_lines tml :
  let kept :=
    List.filter (fun line => PyStr.nonempty (PyStr.strip line))
      (PyText.split tml PyText.newline) in
  PyText.split (cleanup_toml tml) PyText.newline
  = (space_sections 0 (match kept with [] => [""] | _ => kept end)
     ++ [""])%list.
Proof.
  intros kept. unfold cleanup_toml. fold kept.
  assert (Hkept : Forall (fun x => PyStr.has_char PyText.LF x = false) kept).
  { unfold kept. apply Forall_forall. intros x Hx.
    apply list_elem_of_In, filter_In in Hx as [Hx _].
    apply list_elem_of_In in Hx.
    pose proof (split_char_free PyText.LF tml) as H.
    rewrite Forall_forall in H. by apply H. }
  assert (Hmid : PyText.split (PyStr.join PyText.newline kept) PyText.newline
                 = match kept with [] => [""] | _ => kept end).
  { destruct kept as [|x l] eqn:E; [reflexivity|].
    rewrite <- E in *. apply split_join; [by rewrite E|done]. }
  rewrite Hmid. apply split_join.
  - destruct (space_sections _ _); done.
  - apply Forall_app. split; [|repeat constructor].
    apply space_sections_char_free.
    destruct kept; [repeat constructor|done].
Qed.

(** X2. [cleanup_toml] keeps the lines that are not blank, all of them and
    in their order: what it removes and what it adds are blank lines. *)
Theorem cleanup_toml_keeps_content (tml : string) :
  List.filter (fun line => PyStr.nonempty (PyStr.strip line))
    (PyText.split (cleanup_toml tml) PyText.newline)
  = List.filter (fun line => PyStr.nonempty (PyStr.strip line))
      (PyText.split tml PyText.newline).
Proof.
  rewrite cleanup_toml_lines. cbv zeta.
  rewrite List.filter_app, space_sections_content.
  change (List.filter _ [""]) with (@nil string). rewrite app_nil_r.
  destruct (List.filter _ (PyText.split tml PyText.newline)) as [|x l] eqn:E.
  - reflexivity.
  - rewrite <- E. apply filter_idem.
Qed.

(** X1. [cleanup_toml] is idempotent: cleaning a text that was cleaned
    before gives it back unchanged. *)
Theorem cleanup_toml_idempotent (tml : string) :
  cleanup_toml (cleanup_toml tml) = cleanup_toml tml.
Proof.
  pose proof (cleanup_toml_lines tml) as Hlines. cbv zeta in Hlines.
  unfold cleanup_toml at 1. cbv zeta. rewrite Hlines.
  rewrite List.filter_app, space_sections_content.
  change (List.filter _ [""]) with (@nil string). rewrite app_nil_r.
  unfold cleanup_toml.
  destruct (List.filter _ (PyText.split tml PyText.newline)) as [|x l] eqn:E.
  - reflexivity.
  - by rewrite <- E, filter_idem.
Qed.

(** X4. The text [cleanup_toml] returns ends with a line feed, whatever
    the input is (an empty text becomes a single line feed). *)
Theorem cleanup_toml_ends_with_newline (tml : string) :
  ∃ body, cleanup_toml tml = body ++ PyText.newline.
Proof.
  unfold cleanup_toml. cbv zeta. eexists. apply join_snoc_empty.
  apply space_sections_not_nil, split_from_not_nil.
Qed.

Lemma space_sections_spaced i lines :
  let out := space_sections i lines in
  (∀ n line, out !! S n = Some line → PyStr.startswith line "[" = true →
             out !! n = Some "")
  ∧ (i ≠ 0%nat → ∀ line, out !! 0%nat = Some line →
     PyStr.startswith line "[" = false).
Proof.
  revert i. induction lines as [|l rest IH]; intros i; cbn zeta.
  - split; [intros n line H; done|intros _ line H; done].
  - destruct (IH (S i)) as [IH1 IH2]. specialize (IH2 ltac:(done)).
    cbn [space_sections].
    destruct (PyStr.startswith l "[") eqn:Hl; cbn [andb].
    + destruct (Nat.eqb_spec i 0) as [->|Hi]; cbn [negb app].
      * split; [|done]. intros [|n] line H Hh.
        -- cbn in H. apply IH2 in H. congruence.
        -- cbn in H |- *. by apply (IH1 _ line).
      * split.
        -- intros [|[|n]] line H Hh.
           ++ reflexivity.
           ++ cbn in H. apply IH2 in H. congruence.
           ++ cbn in H |- *. by apply (IH1 _ line).
        -- intros _ line [= <-]. reflexivity.
    + cbn [app]. split.
      * intros [|n] line H Hh.
        -- cbn in H. apply IH2 in H. congruence.
        -- cbn in H |- *. by apply (IH1 _ line).
      * intros _ line [= <-]. exact Hl.
Qed.

(** X3. In the text [cleanup_toml] returns, a line that opens a section
    (it starts with an opening bracket) and is not the first line has an
    empty line right before it. *)
Theorem cleanup_toml_sections_spaced (tml : string) (n : nat)
    (line : string) :
  PyText.split (cleanup_toml tml) PyText.newline !! S n = Some line →
  PyStr.startswith line "[" = true →
  PyText.split (cleanup_toml tml) PyText.newline !! n = Some "".
Proof.
  rewrite cleanup_toml_lines. cbv zeta.
  match goal with
  | |- context [space_sections 0 ?kept] =>
      destruct (space_sections_spaced 0 kept) as [H _];
      set (body := space_sections 0 kept) in *
  end.
  intros Hline Hh.
  destruct (decide (S n < length body)%nat) as [Hlt|Hge].
  - rewrite lookup_app_l in Hline by done.
    rewrite lookup_app_l by lia. by apply (H n line).
  - rewrite lookup_app_r in Hline by lia.
    destruct (S n - length body)%nat eqn:E; [|done].
    cbn in Hline. injection Hline as <-. done.
Qed.

Lemma cleanup_toml_sections_spaced_witness :
  PyText.split (cleanup_toml TomlSamples.pipfile) PyText.newline !! 2%nat
  = Some "".
Proof.
  apply (cleanup_toml_sections_spaced _ 2 "[dev-packages]");
    vm_compute; reflexivity.
Defined.

(** ** Temporary environments *)

(** Lookups in an environment built by assignments and deletions *)
Ltac simpl_environ :=
  repeat first
    [ rewrite lookup_insert_eq
    | rewrite lookup_insert_ne by done
    | rewrite lookup_delete_eq
    | rewrite lookup_delete_ne by done ].

(** X5. Whatever the resolver subprocess and the code around it do to
    the environment, and whichever way the block is left, the block of
    [venv_resolve_deps] under [temp_environ] leaves [os.environ] exactly as
    it found it. *)
Theorem venv_resolve_deps_restores_environ {A : Type}
    (get_pipenv_sitedir : option string) (PIPENV_VERBOSITY req_dir : string)
    (constraints : list string) (resolve : environ → A * environ)
    (pypi_mirror : option string) (keep_outdated : bool) (env : environ) :
  (venv_resolve_deps_locking get_pipenv_sitedir PIPENV_VERBOSITY req_dir
     constraints resolve pypi_mirror keep_outdated env).2 = env.
Proof.
  unfold venv_resolve_deps_locking, with_temp_environ.
  destruct (resolve _) as [a env']. cbn [snd].
  unfold environ_update. apply map_union_empty.
Qed.

(** X6. The environment the resolver subprocess is started in:
    [PIP_NO_INPUT], the requirements directory, the verbosity and the
    package lines are always set; [PIPENV_SITE_DIR] is what
    [get_pipenv_sitedir] says, so a value inherited from the caller never
    gets through; [PIPENV_KEEP_OUTDATED] and [PIPENV_PYPI_MIRROR] are
    inherited when the argument does not ask for them; every other variable
    is the caller's. *)
Theorem venv_resolve_deps_subprocess_environ {A : Type}
    (get_pipenv_sitedir : option string) (PIPENV_VERBOSITY req_dir : string)
    (constraints : list string) (resolve : environ → A * environ)
    (pypi_mirror : option string) (keep_outdated : bool) (env : environ) :
  ∃ child : environ,
    (venv_resolve_deps_locking get_pipenv_sitedir PIPENV_VERBOSITY req_dir
       constraints resolve pypi_mirror keep_outdated env).1
    = (resolve child).1
    ∧ child !! "PIP_NO_INPUT" = Some "1"
    ∧ child !! "PIPENV_REQ_DIR" = Some req_dir
    ∧ child !! "PIPENV_VERBOSITY" = Some PIPENV_VERBOSITY
    ∧ child !! "PIPENV_PACKAGES"
      = Some (PyStr.join PyText.newline constraints)
    ∧ child !! "PIPENV_SITE_DIR" = get_pipenv_sitedir
    ∧ child !! "PIPENV_KEEP_OUTDATED"
      = (if keep_outdated then Some "1" else env !! "PIPENV_KEEP_OUTDATED")
    ∧ child !! "PIPENV_PYPI_MIRROR"
      = match truthy_str pypi_mirror with
        | Some m => Some m
        | None => env !! "PIPENV_PYPI_MIRROR"
        end
    ∧ ∀ k, k ∉ ["PIPENV_PYPI_MIRROR"; "PIPENV_VERBOSITY"; "PIPENV_REQ_DIR";
                "PIP_NO_INPUT"; "PIPENV_SITE_DIR"; "PIPENV_KEEP_OUTDATED";
                "PIPENV_PACKAGES"] →
           child !! k = env !! k.
Proof.
  exists (locking_environ get_pipenv_sitedir PIPENV_VERBOSITY req_dir
            constraints pypi_mirror keep_outdated env).
  split.
  { unfold venv_resolve_deps_locking, with_temp_environ.
    by destruct (resolve _). }
  unfold locking_environ, setenv_if.
  split_and!.
  1-7: destruct keep_outdated, get_pipenv_sitedir, (truthy_str pypi_mirror);
    by simpl_environ.
  intros k Hk.
  assert (Forall (fun n => n ≠ k)
            ["PIPENV_PYPI_MIRROR"; "PIPENV_VERBOSITY"; "PIPENV_REQ_DIR";
             "PIP_NO_INPUT"; "PIPENV_SITE_DIR"; "PIPENV_KEEP_OUTDATED";
             "PIPENV_PACKAGES"]) as Hne.
  { apply Forall_forall. intros n Hn ->. done. }
  repeat (apply Forall_cons in Hne as [? Hne]).
  destruct keep_outdated, get_pipenv_sitedir, (truthy_str pypi_mirror);
    by simpl_environ.
Qed.

(** X7. After a block under [locked_repository] that does not touch
    [PIP_SHIMS_BASE_MODULE] itself, the variable is set: to the value it
    had before when that was not empty, and to [pipenv.patched.notpip]
    otherwise (it is not unset again). *)
Theorem locked_repository_base_module {A : Type}
    (body : environ → A * environ) (env : environ) :
  (∀ e, (body e).2 !! "PIP_SHIMS_BASE_MODULE"
        = e !! "PIP_SHIMS_BASE_MODULE") →
  (with_locked_repository body env).2 !! "PIP_SHIMS_BASE_MODULE"
  = Some (default "pipenv.patched.notpip"
            (truthy_str (env !! "PIP_SHIMS_BASE_MODULE"))).
Proof.
  intros Hbody. unfold with_locked_repository, setenv_if.
  match goal with |- context [body ?e] =>
    specialize (Hbody e); destruct (body e) as [a env'] end.
  cbn [snd] in *.
  destruct (truthy_str (env !! "PIP_SHIMS_BASE_MODULE")) as [v|]; cbn.
  - apply lookup_insert_eq.
  - rewrite Hbody. apply lookup_insert_eq.
Qed.

Lemma locked_repository_base_module_witness :
  (with_locked_repository (fun e => (tt, <["PIP_SRC" := "/venv/src"]> e)) ∅).2
    !! "PIP_SHIMS_BASE_MODULE"
  = Some "pipenv.patched.notpip".
Proof.
  rewrite (locked_repository_base_module
             (fun e => (tt, <["PIP_SRC" := "/venv/src"]> e)) ∅).
  - reflexivity.
  - intros e. cbn [snd]. by rewrite lookup_insert_ne.
Defined.

(** ** Version specifiers *)

Lemma split_absent (sep s : string) :
  PyStr.contains sep s = false → PyText.split s sep = [s].
Proof.
  unfold PyText.split. induction s as [|c s IH]; [reflexivity|].
  cbn [PyStr.contains PyText.split_from].
  intros [Hp Hs]%orb_false_iff. rewrite Hp, IH by done. reflexivity.
Qed.

(** The second element that [is_required_version] reads *)
Lemma split_pin_second (w : string) :
  PyText.split ("==" ++ w) "==" !! 1%nat
  = head (PyText.split w "==").
Proof.
  unfold PyText.split.
  change ("==" ++ w) with (String "=" (String "=" w)).
  cbn [PyText.split_from]. rewrite prefix_cons.
  destruct (ascii_dec "=" "=") as [_|]; [|done].
  rewrite prefix_cons. destruct (ascii_dec "=" "=") as [_|]; [|done].
  cbn [String.prefix String.length Nat.sub lookup].
  replace (String.prefix "" w) with true by (by destruct w).
  by destruct (PyText.split_from "==" 0 w).
Qed.

(** X8. For a Pipfile pin [==v] ([v] holding no further [==]),
    [is_required_version] admits a version exactly when it equals [v] up
    to surrounding white space. *)
Theorem is_required_version_pin (version pinned : string) :
  PyStr.contains "==" pinned = false →
  is_required_version version (PfStr ("==" ++ pinned))
  = Ok (String.eqb (PyStr.strip version) (PyStr.strip pinned)).
Proof.
  intros Hw. unfold is_required_version. cbn [mbind result_bind].
  unfold PyStr.startswith. rewrite prefix_refl_app.
  rewrite split_pin_second, split_absent by done. reflexivity.
Qed.

Lemma is_required_version_pin_witness :
  is_required_version " 2.25.1" (PfStr ("==" ++ "2.25.1 "))
  = Ok (String.eqb (PyStr.strip " 2.25.1") (PyStr.strip "2.25.1 ")).
Proof. apply is_required_version_pin. reflexivity. Defined.

(** X9. When [is_pinned] says the Pipfile value is no pin (and the
    [version] of a mapping, if present, is a string),
    [is_required_version] admits every version. *)
Theorem is_required_version_unpinned (version : string)
    (specified_version : pf_value) :
  is_pinned specified_version = false →
  (∀ e v, specified_version = PfMap e → get "version" e = Some v →
          ∃ s, v = PyStr s) →
  is_required_version version specified_version = Ok true.
Proof.
  unfold is_pinned, is_required_version.
  destruct specified_version as [s|e].
  - intros Hp _. unfold mbind, result_bind. by rewrite Hp.
  - intros Hp Hv. destruct (get "version" e) as [v|] eqn:E; [|reflexivity].
    destruct (Hv e v eq_refl E) as [s ->].
    unfold mbind, result_bind. cbn [as_str]. by rewrite Hp.
Qed.

Lemma is_required_version_unpinned_witness :
  is_required_version "2.25.1"
    (PfMap [("version", PyStr ">=2.0"); ("extras", PyList ["security"])])
  = Ok true.
Proof.
  apply is_required_version_unpinned; [reflexivity|].
  intros e v [= <-] [= <-]. by eexists.
Defined.

(** ** Package indexes *)

Lemma strip_prefix_spec (p s r : string) :
  PyText.strip_prefix p s = Some r ↔ s = p ++ r.
Proof.
  revert s. induction p as [|a p IH]; intros s; cbn [PyText.strip_prefix].
  - change ("" ++ r) with r. split; congruence.
  - rewrite string_app_cons. destruct s as [|b s]; [done|].
    destruct (Ascii.eqb_spec a b) as [->|Hne].
    + rewrite IH. split; congruence.
    + split; [done|]. intros [= ? ?]. done.
Qed.

Lemma re_match_lit l p s :
  re_match (ReLit l :: p) s = true
  → ∃ r, s = l ++ r ∧ re_match p r = true.
Proof.
  cbn [re_match]. destruct (PyText.strip_prefix l s) as [r|] eqn:E; [|done].
  apply strip_prefix_spec in E. intros H. by exists r.
Qed.

Lemma re_match_opt l p s :
  re_match (ReOpt l :: p) s = true
  → ∃ o r, o ∈ [""; l] ∧ s = o ++ r ∧ re_match p r = true.
Proof.
  cbn [re_match]. destruct (PyText.strip_prefix l s) as [r|] eqn:E.
  - apply strip_prefix_spec in E. intros [H|H]%orb_true_iff.
    + exists l, r. split_and!; [|done..]. right. by left.
    + exists "", s. split_and!; [|done..]. by left.
  - intros H. exists "", s. split_and!; [|done..]. by left.
Qed.

Lemma re_match_end s :
  re_match [ReEnd] s = true → s ∈ [""; PyText.newline].
Proof.
  cbn [re_match]. rewrite andb_true_r.
  intros [->%String.eqb_eq| ->%String.eqb_eq]%orb_true_iff.
  - by left.
  - right. by left.
Qed.

(** X10. [is_pypi_url] accepts exactly eight URLs, the [simple] index of
    [pypi.org] and [pypi.python.org] over [http] and [https], with or
    without a final slash; each of them also with one line feed after it
    (the [$] of the pattern matches before a final line feed). *)
Theorem is_pypi_url_spec (url : string) :
  is_pypi_url url = true
  ↔ ∃ u n,
      u ∈ [ "http://pypi.org/simple"; "http://pypi.org/simple/";
            "http://pypi.python.org/simple";
            "http://pypi.python.org/simple/";
            "https://pypi.org/simple"; "https://pypi.org/simple/";
            "https://pypi.python.org/simple";
            "https://pypi.python.org/simple/" ]
      ∧ n ∈ [""; PyText.newline]
      ∧ url = u ++ n.
Proof.
  split.
  - unfold is_pypi_url.
    intros (r1 & -> & H)%re_match_lit.
    apply re_match_opt in H as (s & r2 & Hs & -> & H).
    apply re_match_lit in H as (r3 & -> & H).
    apply re_match_opt in H as (p & r4 & Hp & -> & H).
    apply re_match_lit in H as (r5 & -> & H).
    apply re_match_opt in H as (t & r6 & Ht & -> & H).
    apply re_match_end in H.
    exists ("http" ++ s ++ "://pypi" ++ p ++ ".org/simple" ++ t), r6.
    split_and!; [|done|].
    + apply elem_of_cons in Hs as [->|Hs];
        [|apply elem_of_cons in Hs as [->|Hs];
          [|by apply elem_of_nil in Hs]];
      (apply elem_of_cons in Hp as [->|Hp];
        [|apply elem_of_cons in Hp as [->|Hp];
          [|by apply elem_of_nil in Hp]]);
      (apply elem_of_cons in Ht as [->|Ht];
        [|apply elem_of_cons in Ht as [->|Ht];
          [|by apply elem_of_nil in Ht]]);
      listed.
    + by rewrite !string_app_assoc.
  - intros (u & n & Hu & Hn & ->).
    repeat (apply elem_of_cons in Hu as [->|Hu];
            [repeat (apply elem_of_cons in Hn as [->|Hn]; [reflexivity|]);
             by apply elem_of_nil in Hn|]).
    by apply elem_of_nil in Hu.
Qed.

Section source_facts.

Variable find_source : pyval → option entry.
Variable src_name_from_url : string → string.
Variable parse_url : pyval → outcome url_parts.
Variable urlparse_hostname : string → option string.

Lemma mirrored_no_pypi pypi_mirror sources out :
  is_pypi_url pypi_mirror = false →
  mirrored urlparse_hostname pypi_mirror sources = Returns out →
  Forall (fun source => is_pypi_source source = Ok false) out.
Proof.
  intros Hm. revert out.
  induction sources as [|source rest IH]; intros out; cbn [mirrored].
  - intros [= <-]. constructor.
  - destruct (is_pypi_source source) as [pypi|] eqn:E; cbn; [|done].
    destruct (mirrored _ _ rest) as [rest'|]; cbn; [|done].
    intros [= <-]. constructor; [|by apply IH].
    destruct pypi; [|done].
    change (is_pypi_source (create_mirror_source urlparse_hostname pypi_mirror))
      with (Ok (A := bool) (is_pypi_url pypi_mirror)).
    by rewrite Hm.
Qed.

(** X11. With a mirror that is not a PyPI URL itself, no source that
    [get_source_list] returns is a PyPI index: each one was replaced by
    the mirror. *)
Theorem get_source_list_mirrored (pipfile_sources : list entry)
    (index : option index_arg) (extra_indexes : list index_arg)
    (trusted_hosts : list string) (pypi_mirror : string)
    (sources : list entry) :
  pypi_mirror ≠ "" →
  is_pypi_url pypi_mirror = false →
  get_source_list find_source src_name_from_url parse_url urlparse_hostname
    pipfile_sources index extra_indexes trusted_hosts (Some pypi_mirror)
  = Returns sources →
  Forall (fun source => is_pypi_source source = Ok false) sources.
Proof.
  intros Hne Hm. unfold get_source_list.
  destruct (match index with Some _ => _ | None => _ end) as [s1|];
    cbn [mbind outcome_bind]; [|done].
  destruct (match extra_indexes with [] => _ | _ => _ end) as [s2|];
    cbn [mbind outcome_bind]; [|done].
  destruct pypi_mirror as [|c m]; [done|]. cbn [truthy_str PyStr.nonempty].
  by apply mirrored_no_pypi.
Qed.

Lemma append_unless_first_unique sources source sources' :
  first_url_unique sources →
  append_unless_first sources source = Returns sources' →
  first_url_unique sources' ∧ sources' ≠ [].
Proof.
  unfold append_unless_first. destruct sources as [|first rest].
  - intros _ [= <-]. split; [constructor|done].
  - intros Hu. unfold getitem.
    destruct (get "url" source) as [url|] eqn:E1; cbn; [|done].
    destruct (get "url" first) as [first_url|] eqn:E2; cbn; [|done].
    destruct (decide (url = first_url)) as [->|Hne]; intros [= <-].
    + done.
    + split; [|done]. cbn. apply Forall_app. split; [done|].
      constructor; [|constructor]. by exists url, first_url.
Qed.

Lemma append_extra_indexes_unique extra_indexes sources sources' :
  first_url_unique sources →
  append_extra_indexes find_source src_name_from_url parse_url
    extra_indexes sources = Returns sources' →
  first_url_unique sources' ∧ (extra_indexes ≠ [] → sources' ≠ []).
Proof.
  revert sources.
  induction extra_indexes as [|i rest IH]; intros sources Hu;
    cbn [append_extra_indexes].
  - by intros [= <-].
  - destruct (get_project_index _ _ _ i []) as [extra_src|]; cbn; [|done].
    destruct (append_unless_first sources extra_src) as [s1|] eqn:E1;
      cbn; [|done].
    apply append_unless_first_unique in E1 as [Hu1 Hne1]; [|done].
    intros H. split; [by apply (IH _ Hu1)|]. intros _.
    clear IH Hu Hu1. revert s1 Hne1 H.
    induction rest as [|j rest IH]; intros s1 Hne1;
      cbn [append_extra_indexes].
    + by intros [= <-].
    + destruct (get_project_index _ _ _ j []) as [src|]; cbn; [|done].
      destruct (append_unless_first s1 src) as [s2|] eqn:E2; cbn; [|done].
      apply IH. destruct s1 as [|f r]; [done|].
      unfold append_unless_first in E2.
      destruct (builtin (getitem "url" src)); cbn in E2; [|done].
      destruct (builtin (getitem "url" f)); cbn in E2; [|done].
      injection E2 as <-. destruct (decide _); [done|].
      by destruct r.
Qed.

Lemma append_pipfile_sources_unique pipfile_sources sources sources' :
  first_url_unique sources → sources ≠ [] →
  append_pipfile_sources pipfile_sources sources = Returns sources' →
  first_url_unique sources' ∧ sources' ≠ [].
Proof.
  revert sources.
  induction pipfile_sources as [|source rest IH]; intros sources Hu Hne;
    cbn [append_pipfile_sources].
  - by intros [= <-].
  - destruct (append_unless_first sources source) as [s1|] eqn:E1;
      cbn; [|done].
    apply append_unless_first_unique in E1 as [Hu1 Hne1]; [|done].
    by apply IH.
Qed.

(** X12. Without a mirror, and with an index or extra indexes given, no
    source after the first one that [get_source_list] returns has the URL
    of the first. *)
Theorem get_source_list_first_url (pipfile_sources : list entry)
    (index : option index_arg) (extra_indexes : list index_arg)
    (trusted_hosts : list string) (first : entry) (rest : list entry)
    (source : entry) :
  (∃ i, index = Some i ∧ index_truthy i = true) ∨ extra_indexes ≠ [] →
  get_source_list find_source src_name_from_url parse_url urlparse_hostname
    pipfile_sources index extra_indexes trusted_hosts None
  = Returns (first :: rest) →
  source ∈ rest →
  ∃ url first_url, get "url" source = Some url
                   ∧ get "url" first = Some first_url
                   ∧ url ≠ first_url.
Proof.
  intros Hgiven H Hin.
  enough (first_url_unique (first :: rest)) as Hu.
  { cbn in Hu. rewrite Forall_forall in Hu. by apply Hu. }
  revert H. unfold get_source_list.
  destruct (match index with Some _ => _ | None => _ end) as [s1|] eqn:E1;
    cbn [mbind outcome_bind]; [|done].
  assert (first_url_unique s1
          ∧ ((∃ i, index = Some i ∧ index_truthy i = true) → s1 ≠ []))
    as [Hu1 Hne1].
  { destruct index as [i|]; [|injection E1 as <-].
    - destruct (index_truthy i) eqn:Et; [|injection E1 as <-].
      + destruct (get_project_index _ _ _ i []) as [src|]; cbn in E1;
          [|done].
        injection E1 as <-. split; [repeat constructor|done].
      + split; [constructor|]. intros (i' & [= <-] & ?). congruence.
    - split; [constructor|]. by intros (i' & ? & ?). }
  destruct (match extra_indexes with [] => _ | _ => _ end) as [s2|] eqn:E2;
    cbn [mbind outcome_bind truthy_str]; [|done].
  assert (first_url_unique s2 ∧ s2 ≠ []) as [Hu2 Hne2].
  { destruct extra_indexes as [|e es].
    - injection E2 as <-. split; [done|].
      destruct Hgiven as [Hi|?]; [by apply Hne1|done].
    - destruct (append_extra_indexes _ _ _ (e :: es) s1) as [s1'|] eqn:E3;
        cbn in E2; [|done].
      apply append_extra_indexes_unique in E3 as [Hu3 Hne3]; [|done].
      eapply append_pipfile_sources_unique; [exact Hu3| |exact E2].
      by apply Hne3. }
  destruct s2 as [|f r]; [done|]. by intros [= <- <-].
Qed.

End source_facts.

Lemma get_source_list_mirrored_witness :
  let pypi : entry :=
    [("url", PyStr "https://pypi.org/simple"); ("verify_ssl", PyBool true);
     ("name", PyStr "pypi")] in
  Forall (fun source => is_pypi_source source = Ok false)
    [ [("url", PyStr "https://mirror.example.org/simple");
       ("verify_ssl", PyBool true); ("name", PyStr "mirror.example.org")] ].
Proof.
  intros pypi.
  apply (get_source_list_mirrored (fun _ => None) (fun url => url)
           (fun _ => Raises SourceNotFound)
           (fun _ => Some "mirror.example.org") [pypi] None [] []
           "https://mirror.example.org/simple"); [done|reflexivity|].
  reflexivity.
Defined.

Lemma get_source_list_first_url_witness :
  let pypi : entry :=
    [("url", PyStr "https://pypi.org/simple"); ("verify_ssl", PyBool true);
     ("name", PyStr "pypi")] in
  let private : entry :=
    [("url", PyStr "https://private.example.org/simple");
     ("verify_ssl", PyBool true); ("name", PyStr "private")] in
  ∃ url first_url, get "url" pypi = Some url
                   ∧ get "url" private = Some first_url
                   ∧ url ≠ first_url.
Proof.
  intros pypi private.
  apply (get_source_list_first_url
           (fun _ => Some private)
           (fun url => url) (fun _ => Raises SourceNotFound)
           (fun _ => None) [private; pypi]
           (Some (IndexText "private")) [IndexSource private] []
           private [pypi] pypi).
  - left. by eexists.
  - vm_compute. reflexivity.
  - by left.
Defined.

(** ** A separator found once *)

Lemma prefix_cons_ne a s1 b s2 :
  a ≠ b → String.prefix (String a s1) (String b s2) = false.
Proof. intros H. rewrite prefix_cons. by destruct (ascii_dec a b). Qed.

Lemma prefix_empty (s : string) : String.prefix "" s = true.
Proof. by destruct s. Qed.

Lemma split_from_skip sep p rest :
  PyText.split_from sep (String.length p) (p ++ rest)
  = PyText.split_from sep 0 rest.
Proof.
  induction p as [|c p IH]; [reflexivity|].
  rewrite string_app_cons. exact IH.
Qed.

(** A separator at the start of the text *)
Lemma split_from_found a sep rest :
  PyText.split_from (String a sep) 0 (String a sep ++ rest)
  = "" :: PyText.split_from (String a sep) 0 rest.
Proof.
  rewrite string_app_cons. cbn [PyText.split_from].
  rewrite <- string_app_cons, prefix_refl_app.
  cbn [String.length Nat.sub]. rewrite Nat.sub_0_r.
  by rewrite split_from_skip.
Qed.

(** No separator at the start of the text *)
Lemma split_from_miss sep c s :
  String.prefix sep (String c s) = false →
  PyText.split_from sep 0 (String c s)
  = match PyText.split_from sep 0 s with
    | x :: l => String c x :: l
    | [] => [String c ""]
    end.
Proof. intros H. cbn [PyText.split_from]. by rewrite H. Qed.

(** The one place where [" --"] is found in a line whose parts hold
    none: before the option [--pre]. *)
Lemma split_before_pre (x y : string) :
  PyStr.contains " --" (x ++ " " ++ y) = false →
  PyText.split (x ++ " --pre " ++ y) " --" = [x; "pre " ++ y].
Proof.
  unfold PyText.split. induction x as [|c x IH].
  - change ("" ++ " " ++ y) with (String " " y).
    change ("" ++ " --pre " ++ y) with (" --" ++ "pre " ++ y).
    intros H. rewrite split_from_found. f_equal. apply split_absent.
    change ("pre " ++ y)
      with (String "p" (String "r" (String "e" (String " " y)))).
    cbn [PyStr.contains] in H |- *.
    by rewrite H, !prefix_cons_ne.
  - rewrite (string_app_cons c x (" " ++ y)),
      (string_app_cons c x (" --pre " ++ y)).
    cbn [PyStr.contains].
    intros [Hp Hx]%orb_false_iff.
    assert (String.prefix " --" (String c (x ++ " --pre " ++ y)) = false)
      as Hq.
    { clear IH Hx. revert Hp. rewrite !prefix_cons.
      destruct (ascii_dec " " c) as [_|]; [|done].
      destruct x as [|a x]; [intros _; by apply prefix_cons_ne|].
      rewrite (string_app_cons a x (" " ++ y)),
        (string_app_cons a x (" --pre " ++ y)), !prefix_cons.
      destruct (ascii_dec "-" a) as [_|]; [|done].
      destruct x as [|b x]; [intros _; by apply prefix_cons_ne|].
      rewrite (string_app_cons b x (" " ++ y)),
        (string_app_cons b x (" --pre " ++ y)), !prefix_cons.
      destruct (ascii_dec "-" b) as [_|]; [|done].
      by rewrite !prefix_empty. }
    by rewrite (split_from_miss _ _ _ Hq), IH.
Qed.

(** ** Arguments for pip *)

Section pip_args_facts.

Variable parse_url : pyval → outcome url_parts.

Lemma extra_index_args_verified sources pip_args :
  Forall (fun source =>
            truthy (default (PyBool true) (get "verify_ssl" source)) = true)
    sources →
  extra_index_args parse_url sources pip_args
  = Returns
      (pip_args
       ++ flat_map (fun source => [PyStr "--extra-index-url";
                                   default PyNone (get "url" source)])
            (List.filter (fun source =>
                            truthy (default PyNone (get "url" source)))
               sources))%list.
Proof.
  intros H. revert pip_args.
  induction H as [|source rest Hs _ IH]; intros pip_args;
    cbn [extra_index_args List.filter flat_map].
  - by rewrite app_nil_r.
  - destruct (truthy (default PyNone (get "url" source))); cbn [negb].
    + unfold trust_args. rewrite Hs. cbn [negb mbind outcome_bind].
      rewrite IH. cbn [flat_map]. by rewrite app_nil_r, <- !app_assoc.
    + apply IH.
Qed.

(** X13. When no source switches [verify_ssl] off and the first source
    has a URL, [prepare_pip_source_args] does not fail and never parses a
    URL: it appends [-i] with the first URL and [--extra-index-url] with
    the URL of each further source that has one, in order; a further source
    without a URL is passed over. *)
Theorem prepare_pip_source_args_verified (first : entry)
    (rest : list entry) (pip_args : list pyval) :
  truthy (default PyNone (get "url" first)) = true →
  Forall (fun source =>
            truthy (default (PyBool true) (get "verify_ssl" source)) = true)
    (first :: rest) →
  prepare_pip_source_args parse_url (first :: rest) pip_args
  = Returns
      (pip_args
       ++ [PyStr "-i"; default PyNone (get "url" first)]
       ++ flat_map (fun source => [PyStr "--extra-index-url";
                                   default PyNone (get "url" source)])
            (List.filter (fun source =>
                            truthy (default PyNone (get "url" source)))
               rest))%list.
Proof.
  intros Hurl [Hfirst Hrest]%Forall_cons.
  unfold prepare_pip_source_args. rewrite Hurl. cbn [negb].
  unfold trust_args. rewrite Hfirst. cbn [negb mbind outcome_bind].
  rewrite extra_index_args_verified by done.
  by rewrite app_nil_r, <- !app_assoc.
Qed.

Lemma any_contained_none (arg : string) :
  Forall (fun w => PyStr.contains w arg = false)
    ["build-isolation"; "use-pep517"; "cache-dir"] →
  any_contained ["build-isolation"; "use-pep517"; "cache-dir"] (PyStr arg)
  = Ok false.
Proof.
  intros H. repeat (apply Forall_cons in H as [? H]).
  cbn [any_contained py_contains mbind result_bind].
  by repeat match goal with
            | E : PyStr.contains _ arg = false |- _ => rewrite E; clear E
            end.
Qed.

(** X14. The head of the constraints file for one verified source:
    [prepare_constraint_file] drops the options [--no-use-pep517],
    [--no-build-isolation] and [--cache-dir] of [prepare_pip_args], but
    the cache directory that followed [--cache-dir] stays: on the line of
    the index URL, or, when [--pre] is asked for, on the next line after
    [--pre]. *)
Theorem prepare_constraint_file_header (source : entry)
    (url PIPENV_CACHE_DIR : string) (initial_constraints : list string)
    (pre : bool) (use_pep517 build_isolation : option bool) :
  get "url" source = Some (PyStr url) →
  url ≠ "" →
  truthy (default (PyBool true) (get "verify_ssl" source)) = true →
  Forall (fun w => PyStr.contains w url = false)
    ["build-isolation"; "use-pep517"; "cache-dir"] →
  Forall (fun w => PyStr.contains w PIPENV_CACHE_DIR = false)
    ["build-isolation"; "use-pep517"; "cache-dir"] →
  PyStr.contains " --" ("-i " ++ url ++ " " ++ PIPENV_CACHE_DIR) = false →
  ∃ pip_args,
    prepare_pip_args parse_url [source] pre PIPENV_CACHE_DIR use_pep517
      build_isolation = Returns pip_args
    ∧ prepare_constraint_file pip_args [source] initial_constraints
      = Ok ("-i " ++ url
            ++ (if pre then PyText.newline ++ "--pre " else " ")
            ++ PIPENV_CACHE_DIR ++ PyText.newline
            ++ PyStr.join PyText.newline initial_constraints).
Proof.
  intros Hurl Hne Hv Hu Hc Hdash.
  unfold prepare_pip_args.
  rewrite prepare_pip_source_args_verified;
    [|rewrite Hurl; by destruct url|by constructor].
  rewrite Hurl. cbn [default List.filter flat_map app mbind outcome_bind].
  pose proof (any_contained_none _ Hu) as Hu'.
  pose proof (any_contained_none _ Hc) as Hc'.
  assert (PyStr.contains " --" (("-i " ++ url) ++ " " ++ PIPENV_CACHE_DIR)
          = false) as Hdash' by (by rewrite string_app_assoc).
  destruct pre;
    destruct (decide (use_pep517 = Some false));
    destruct (decide (build_isolation = Some false));
    (eexists; split; [reflexivity|]);
    unfold prepare_constraint_file.
  all: match goal with
    | |- context [args_to_add ?l] =>
        first
          [ replace (args_to_add l)
              with (Ok (A := list pyval)
                      [PyStr "-i"; PyStr url; PyStr "--pre";
                       PyStr PIPENV_CACHE_DIR])
              by (cbn [app args_to_add id]; rewrite Hu', Hc'; reflexivity)
          | replace (args_to_add l)
              with (Ok (A := list pyval)
                      [PyStr "-i"; PyStr url; PyStr PIPENV_CACHE_DIR])
              by (cbn [app args_to_add id]; rewrite Hu', Hc'; reflexivity) ]
    end;
    cbn [mbind result_bind as_strs fmap result_fmap].
  1-4: change (PyStr.join " " ["-i"; url; "--pre"; PIPENV_CACHE_DIR])
         with (("-i " ++ url) ++ " --pre " ++ PIPENV_CACHE_DIR);
       unfold PyText.replace; rewrite split_before_pre by done;
       cbn [PyStr.join]; by rewrite !string_app_assoc.
  all: change (PyStr.join " " ["-i"; url; PIPENV_CACHE_DIR])
         with ("-i " ++ url ++ " " ++ PIPENV_CACHE_DIR);
       unfold PyText.replace; rewrite split_absent by done;
       cbn [PyStr.join]; by rewrite !string_app_assoc.
Qed.

End pip_args_facts.

Lemma prepare_pip_source_args_verified_witness :
  let pypi : entry :=
    [("url", PyStr "https://pypi.org/simple"); ("verify_ssl", PyBool true);
     ("name", PyStr "pypi")] in
  let nameless : entry := [("name", PyStr "broken")] in
  let private : entry := [("url", PyStr "https://private.example.org/simple")] in
  prepare_pip_source_args
    (fun _ => Raises (Builtin (TypeError "parse_url")))
    [pypi; nameless; private] []
  = Returns [PyStr "-i"; PyStr "https://pypi.org/simple";
             PyStr "--extra-index-url";
             PyStr "https://private.example.org/simple"].
Proof.
  intros pypi nameless private.
  apply (prepare_pip_source_args_verified
           (fun _ => Raises (Builtin (TypeError "parse_url")))
           pypi [nameless; private] []); [reflexivity|].
  repeat constructor.
Defined.

Lemma prepare_constraint_file_header_witness :
  let pypi : entry :=
    [("url", PyStr "https://pypi.org/simple"); ("verify_ssl", PyBool true);
     ("name", PyStr "pypi")] in
  ∃ pip_args,
    prepare_pip_args (fun _ => Raises (Builtin (TypeError "parse_url")))
      [pypi] true "/home/user/.cache/pipenv" None (Some false)
    = Returns pip_args
    ∧ prepare_constraint_file pip_args [pypi] ["requests==2.25.1"]
      = Ok ("-i " ++ "https://pypi.org/simple"
            ++ (PyText.newline ++ "--pre ")
            ++ "/home/user/.cache/pipenv" ++ PyText.newline
            ++ PyStr.join PyText.newline ["requests==2.25.1"]).
Proof.
  intros pypi.
  apply (prepare_constraint_file_header
           (fun _ => Raises (Builtin (TypeError "parse_url"))) pypi
           "https://pypi.org/simple" "/home/user/.cache/pipenv"
           ["requests==2.25.1"] true None (Some false));
    try reflexivity; try done; repeat constructor.
Defined.

(** ** Looking for requirements.txt *)

Section requirements_facts.

Variable realpath : string → string.
Variable path_join : string → string → string.
Variable listdir_ok : string → bool.
Variable isfile : string → bool.

Lemma find_requirements_from_depth steps max_depth i bottom r :
  find_requirements_from realpath path_join listdir_ok isfile steps
    max_depth i bottom = Found r →
  ∃ n, (S (i + n) < max_depth)%nat
       ∧ r = path_join (walked realpath path_join n bottom)
               "requirements.txt"
       ∧ isfile r = true.
Proof.
  revert i bottom. induction steps as [|steps IH]; intros i bottom;
    cbn [find_requirements_from]; [done|].
  destruct (listdir_ok (realpath bottom)); cbn [negb]; [|done].
  destruct ((S i <? max_depth)%nat
            && isfile (path_join (realpath bottom) "requirements.txt"))
    eqn:E.
  - intros [= <-]. apply andb_true_iff in E as [Hi Hf].
    apply Nat.ltb_lt in Hi. exists 0%nat. cbn [walked].
    split_and!; [lia|done..].
  - destruct (String.eqb _ (realpath bottom)); [done|].
    intros (n & Hn & -> & Hf)%IH. exists (S n). cbn [walked].
    split_and!; [lia|done..].
Qed.

(** X15. A path [find_requirements] returns is the [requirements.txt]
    of one of the first [max_depth - 1] directories of the walk upwards,
    and it is a file: with the default depth of 3 the working directory
    and its parent are looked at, nothing above. *)
Theorem find_requirements_depth (steps max_depth : nat)
    (getcwd r : string) :
  find_requirements realpath path_join listdir_ok isfile steps max_depth
    getcwd = Found r →
  ∃ n, (S n < max_depth)%nat
       ∧ r = path_join (walked realpath path_join n getcwd)
               "requirements.txt"
       ∧ isfile r = true.
Proof.
  unfold find_requirements.
  intros (n & Hn & Hr & Hf)%find_requirements_from_depth.
  exists n. split_and!; [lia|done..].
Qed.

End requirements_facts.

Lemma find_requirements_depth_witness :
  ∃ n, (S n < 3)%nat
       ∧ "/srv/app/requirements.txt"
         = FsSamples.path_join
             (walked FsSamples.realpath FsSamples.path_join n "/srv/app/src")
             "requirements.txt"
       ∧ FsSamples.isfile "/srv/app/requirements.txt" = true.
Proof.
  apply (find_requirements_depth FsSamples.realpath FsSamples.path_join
           (fun _ => true) FsSamples.isfile 10 3 "/srv/app/src").
  reflexivity.
Defined.


(** ** The orchestrator retries on [RuntimeError] only *)

(** X17. A first pass that does not end in a [RuntimeError] is the only
    one: [resolve_deps] returns its result, or lets its exception through,
    after that single attempt under the requested override. *)
Theorem resolve_deps_single_pass {R : Type}
    (which_python : option string) (virtualenv_src_location : string)
    (sys_executable : option string) (sys_version_info : nat * nat * nat)
    (actually_resolve_deps : nat → environ → pass_outcome R * environ)
    (deps : list string) (python : option string) (env : environ) :
  let first :=
    (actually_resolve_deps 0
       (HackedPythonVersion_enter (first_override which_python python)
          (ensure_pip_src virtualenv_src_location env))).1 in
  deps ≠ [] →
  first ≠ RaisedRuntimeError →
  ∃ a1 : attempt,
    (resolve_deps which_python virtualenv_src_location sys_executable
       sys_version_info actually_resolve_deps deps python env).2 = [a1]
    ∧ attempt_override a1 = first_override which_python python
    ∧ (resolve_deps which_python virtualenv_src_location sys_executable
         sys_version_info actually_resolve_deps deps python env).1.1
      = match first with
        | Resolved r => Returned r
        | RaisedOther e => Propagated e
        | RaisedRuntimeError => SysExit 1
        end.
Proof.
  intros first Hdeps Hfirst. subst first. unfold resolve_deps.
  destruct deps as [|d deps]; [done|].
  unfold run_pass, with_HackedPythonVersion.
  destruct (actually_resolve_deps 0 _) as [o1 e1] eqn:E1.
  simpl in Hfirst |- *.
  destruct o1 as [r| |e]; [|done|]; eexists; split_and!; reflexivity.
Qed.

Lemma resolve_deps_single_pass_witness :
  let solver : nat → environ → pass_outcome unit * environ :=
    fun _ env => (RaisedOther (TypeError "boom"), env) in
  ∃ a1 : attempt,
    (resolve_deps (Some "/venv/bin/python") "/venv/src"
       (Some "/usr/bin/python3") (3, 9, 7)%nat solver
       ["requests==2.25.1"] (Some "3.8") ∅).2 = [a1]
    ∧ attempt_override a1 = first_override (Some "/venv/bin/python") (Some "3.8")
    ∧ (resolve_deps (Some "/venv/bin/python") "/venv/src"
         (Some "/usr/bin/python3") (3, 9, 7)%nat solver
         ["requests==2.25.1"] (Some "3.8") ∅).1.1
      = Propagated (TypeError "boom").
Proof.
  intros solver.
  apply (resolve_deps_single_pass (Some "/venv/bin/python") "/venv/src"
           (Some "/usr/bin/python3") (3, 9, 7)%nat solver
           ["requests==2.25.1"] (Some "3.8") ∅); done.
Defined.

(** ** Marker normalisation folds the marker keys *)

Section more_marker_facts.

Variable Marker_str : string → result string.

Lemma translate_marker_keys_gone k pipfile_entry ms st st' :
  translate_marker_keys Marker_str pipfile_entry ms st = Ok st' →
  get k st.1 = None ∨ (k ∈ ms ∧ k ≠ "markers") →
  get k st'.1 = None.
Proof.
  revert st. induction ms as [|m ms IH]; intros [np mset] H Hk; simpl in *.
  - inversion H; subst. destruct Hk as [Hk|[Hk _]]; [done|].
    by apply elem_of_nil in Hk.
  - destruct (getitem m pipfile_entry) as [v|]; simpl in H; [|done].
    destruct (String.eqb_spec m "markers") as [->|Hm].
    + apply (IH _ H). destruct Hk as [Hk|[Hk Hne]]; [by left|right].
      apply elem_of_cons in Hk as [->|Hk]; done.
    + destruct (Marker_str _) as [marker|]; simpl in H; [|done].
      apply (IH _ H). simpl.
      destruct Hk as [Hk|[Hk Hne]]; [left; by apply get_del_None|].
      apply elem_of_cons in Hk as [->|Hk].
      * left. apply get_del_eq.
      * by right.
Qed.

(** X19. An entry that [translate_markers] returns holds none of the
    environment marker keys ([python_version], [sys_platform], ...): they
    are folded into [markers]; and every key that is no marker key has the
    value it had. *)
Theorem translate_markers_folds_marker_keys (e e' : entry) :
  translate_markers Marker_str e = Ok e' →
  (∀ k, k ∈ default_environment_keys → get k e' = None)
  ∧ (∀ k, k ∉ allowed_marker_keys → get k e' = get k e).
Proof.
  intros H. split.
  - intros k Hk.
    assert (k ≠ "markers") as Hkm.
    { intros ->. apply in_list_spec in Hk. by vm_compute in Hk. }
    unfold translate_markers in H.
    set (st := match get "markers" e with Some _ => _ | None => _ end) in H.
    assert (∀ s, st = Ok s → get k s.1 = get k e) as Hst.
    { subst st. intros s. destruct (get "markers" e) as [mv|].
      - destruct (truthy mv).
        + destruct (Marker_str_of _ mv) as [marker|]; simpl; [|done].
          destruct (PyStr.contains "extra" marker); intros [= <-]; simpl;
            by apply get_del_ne.
        + intros [= <-]; simpl. by apply get_del_ne.
      - by intros [= <-]. }
    destruct st as [s|]; simpl in H; [|done].
    specialize (Hst s eq_refl).
    destruct (translate_marker_keys _ _ _ _) as [[np mset]|] eqn:E;
      simpl in H; [|done].
    apply (translate_marker_keys_gone k) in E.
    + simpl in E. destruct mset.
      * by inversion H; subst.
      * destruct (Marker_str _); simpl in H; [|done]. inversion H; subst.
        by rewrite get_set_ne.
    + destruct (get k e) as [v|] eqn:Eg; [right|left; congruence].
      split; [|done]. apply list_elem_of_In, filter_In. split.
      * apply list_elem_of_In. by eapply get_Some_keys.
      * apply (proj2 (in_list_spec k allowed_marker_keys)). by right.
  - intros k Hk. eapply translate_markers_get; [|exact H].
    destruct (PyStr.in_list k allowed_marker_keys) eqn:E; [|done].
    by apply in_list_spec in E.
Qed.

(** X20. An entry with no [markers] and no environment marker key comes
    back from [translate_markers] as it is; the marker parser is not
    called. *)
Theorem translate_markers_without_markers (e : entry) :
  (∀ k, k ∈ keys e → k ∉ allowed_marker_keys) →
  translate_markers Marker_str e = Ok e.
Proof.
  intros He. unfold translate_markers.
  assert (get "markers" e = None) as ->.
  { apply get_None_keys. intros Hk. apply (He _ Hk). by left. }
  assert (List.filter (fun k => PyStr.in_list k allowed_marker_keys) (keys e)
          = []) as ->.
  { induction (keys e) as [|k ks IH]; [done|]. cbn [List.filter].
    destruct (PyStr.in_list k allowed_marker_keys) eqn:E.
    - apply in_list_spec in E. destruct (He k); [by left|done].
    - apply IH. intros k' Hk'. apply He. by right. }
  reflexivity.
Qed.

End more_marker_facts.

Lemma translate_markers_folds_marker_keys_witness :
  let e' : entry :=
    [("version", PyStr "*"); ("markers", PyStr "os_name == 'nt'")] in
  (∀ k, k ∈ default_environment_keys → get k e' = None)
  ∧ (∀ k, k ∉ allowed_marker_keys
          → get k e' = get k [("os_name", PyStr "== 'nt'");
                              ("version", PyStr "*")]).
Proof.
  apply (translate_markers_folds_marker_keys packaging_Marker_str
           [("os_name", PyStr "== 'nt'"); ("version", PyStr "*")]).
  vm_compute. reflexivity.
Defined.

Lemma translate_markers_without_markers_witness :
  translate_markers packaging_Marker_str
    [("version", PyStr "==2.25.1"); ("index", PyStr "pypi")]
  = Ok [("version", PyStr "==2.25.1"); ("index", PyStr "pypi")].
Proof.
  apply translate_markers_without_markers.
  intros k Hk Ha. revert Hk.
  apply in_list_spec in Ha. revert Ha.
  cbn [keys map fst]. intros Ha Hk.
  apply elem_of_cons in Hk as [->|Hk]; [by vm_compute in Ha|].
  apply elem_of_cons in Hk as [->|Hk]; [by vm_compute in Ha|].
  by apply elem_of_nil in Hk.
Defined.


(** ** Hash prefixes *)

Lemma prepend_hash_type_prefixed hash_type checksum :
  PyStr.startswith (prepend_hash_type hash_type checksum) (hash_type ++ ":")
  = true.
Proof.
  unfold prepend_hash_type.
  destruct (PyStr.startswith checksum (hash_type ++ ":")) eqn:E; [done|].
  unfold PyStr.startswith. rewrite <- string_app_assoc.
  apply prefix_refl_app.
Qed.

Lemma prepend_hash_type_fixed hash_type checksum :
  PyStr.startswith checksum (hash_type ++ ":") = true →
  prepend_hash_type hash_type checksum = checksum.
Proof. unfold prepend_hash_type. by intros ->. Qed.

Lemma prepend_hash_type_nonempty hash_type checksum :
  PyStr.nonempty checksum = true →
  PyStr.nonempty (prepend_hash_type hash_type checksum) = true.
Proof.
  unfold prepend_hash_type. intros H.
  destruct (PyStr.startswith checksum (hash_type ++ ":")); [done|].
  destruct hash_type; reflexivity.
Qed.

Lemma elem_of_prepend_hash_types h checksums hash_type :
  h ∈ prepend_hash_types checksums hash_type
  ↔ ∃ c, c ∈ checksums ∧ PyStr.nonempty c = true
         ∧ h = prepend_hash_type hash_type c.
Proof.
  unfold prepend_hash_types. rewrite elem_of_list_to_set, list_elem_of_fmap.
  split.
  - intros (c & -> & Hc). apply list_elem_of_In, filter_In in Hc as [Hc Hn].
    exists c. by rewrite list_elem_of_In.
  - intros (c & Hc & Hn & ->). exists c. split; [done|].
    apply list_elem_of_In, filter_In. by rewrite <- list_elem_of_In.
Qed.

(** X21. Every checksum [prepend_hash_types] returns starts with the
    hash type and a colon, and the function is idempotent: applied to its
    own result it changes nothing. *)
Theorem prepend_hash_types_idempotent (checksums : list string)
    (hash_type : string) :
  (∀ h, h ∈ prepend_hash_types checksums hash_type →
        PyStr.startswith h (hash_type ++ ":") = true)
  ∧ prepend_hash_types (elements (prepend_hash_types checksums hash_type))
      hash_type
    = prepend_hash_types checksums hash_type.
Proof.
  split.
  - intros h (c & _ & _ & ->)%elem_of_prepend_hash_types.
    apply prepend_hash_type_prefixed.
  - apply set_eq. intros h. rewrite !elem_of_prepend_hash_types. split.
    + intros (c' & Hc' & _ & ->). apply elem_of_elements in Hc'.
      apply elem_of_prepend_hash_types in Hc' as (c & Hc & Hn & ->).
      exists c. split_and!; [done..|].
      apply prepend_hash_type_fixed, prepend_hash_type_prefixed.
    + intros (c & Hc & Hn & ->). exists (prepend_hash_type hash_type c).
      split_and!.
      * apply elem_of_elements, elem_of_prepend_hash_types. by exists c.
      * by apply prepend_hash_type_nonempty.
      * symmetry.
        apply prepend_hash_type_fixed, prepend_hash_type_prefixed.
Qed.

(** ** The hash cache *)

Section cache_facts.

Variable FAVORITE_HASH : string.
Variable sources : list string.
Variable pypi_json : string → pypi_answer.
Variable pep440_version : string → option string.
Variable applicable_candidates : string → list Specifier → list Link.

Lemma joined_hash_nonempty (d : string) :
  PyStr.nonempty (PyStr.join ":" [FAVORITE_HASH; d]) = true.
Proof. cbn [PyStr.join]. by destruct FAVORITE_HASH. Qed.

Lemma get_hash_again file_hexdigest file_hexdigest' link cache h cache' :
  get_hash FAVORITE_HASH file_hexdigest link cache = Ok (h, cache') →
  get_hash FAVORITE_HASH file_hexdigest' link cache' = Ok (h, cache').
Proof.
  unfold get_hash.
  assert (∀ d, get_hash FAVORITE_HASH file_hexdigest' link
                 (<[link_url link := PyStr.join ":" [FAVORITE_HASH; d]]> cache)
               = Ok (PyStr.join ":" [FAVORITE_HASH; d],
                     <[link_url link := PyStr.join ":" [FAVORITE_HASH; d]]>
                       cache)) as Hfresh.
  { intros d. unfold get_hash. rewrite lookup_insert_eq.
    by rewrite joined_hash_nonempty. }
  unfold get_hash in Hfresh.
  destruct (cache !! link_url link) as [hv|] eqn:E.
  - destruct (PyStr.nonempty hv) eqn:En.
    + intros [= <- <-]. by rewrite E, En.
    + destruct (file_hexdigest (link_url link)) as [d|]; simpl; [|done].
      intros [= <- <-]. apply Hfresh.
  - destruct (file_hexdigest (link_url link)) as [d|]; simpl; [|done].
    intros [= <- <-]. apply Hfresh.
Qed.

(** X22. Once [_get_hash_from_link] has returned the hash of a link,
    asking again returns the same hash and leaves the cache as it is,
    whatever reading the artifact would give now: it is not read again. *)
Theorem hash_from_link_computed_once
    (file_hexdigest file_hexdigest' : string → result string)
    (link : Link) (cache cache' : hash_cache) (h : string) :
  _get_hash_from_link FAVORITE_HASH file_hexdigest link cache
    = Ok (h, cache') →
  _get_hash_from_link FAVORITE_HASH file_hexdigest' link cache'
    = Ok (h, cache').
Proof.
  unfold _get_hash_from_link.
  destruct (link_hash link) as [lh|]; [|apply get_hash_again].
  destruct (link_hash_name link) as [n|]; [|apply get_hash_again].
  destruct (PyStr.nonempty lh && String.eqb n FAVORITE_HASH);
    [|apply get_hash_again].
  by intros [= <- <-].
Qed.

Variable file_hexdigest : string → result string.

Lemma get_hash_keeps link cache h cache' url v :
  get_hash FAVORITE_HASH file_hexdigest link cache = Ok (h, cache') →
  cached cache url v → cached cache' url v.
Proof.
  unfold get_hash, cached. intros H [Hc Hv].
  assert (∀ d, cache !! link_url link = None
               ∨ cache !! link_url link = Some "" →
               (<[link_url link := d]> cache) !! url = Some v) as Hins.
  { intros d Hl. rewrite lookup_insert_ne; [done|].
    intros <-. destruct Hl; congruence. }
  destruct (cache !! link_url link) as [hv|] eqn:E.
  - destruct hv as [|c hv]; cbn [PyStr.nonempty] in H.
    + destruct (file_hexdigest (link_url link)) as [d|]; simpl in H; [|done].
      injection H as <- <-. split; [|done]. apply Hins. by right.
    + by injection H as <- <-.
  - destruct (file_hexdigest (link_url link)) as [d|]; simpl in H; [|done].
    injection H as <- <-. split; [|done]. apply Hins. by left.
Qed.

Lemma _get_hash_from_link_keeps link cache h cache' url v :
  _get_hash_from_link FAVORITE_HASH file_hexdigest link cache
    = Ok (h, cache') →
  cached cache url v → cached cache' url v.
Proof.
  unfold _get_hash_from_link.
  destruct (link_hash link) as [lh|]; [|apply get_hash_keeps].
  destruct (link_hash_name link) as [n|]; [|apply get_hash_keeps].
  destruct (PyStr.nonempty lh && String.eqb n FAVORITE_HASH);
    [|apply get_hash_keeps].
  by intros [= <- <-].
Qed.

Lemma hashes_of_links_keeps links cache hs cache' url v :
  hashes_of_links FAVORITE_HASH file_hexdigest links cache
    = Ok (hs, cache') →
  cached cache url v → cached cache' url v.
Proof.
  revert cache hs. induction links as [|l links IH]; intros cache hs; simpl.
  - by intros [= <- <-].
  - destruct (_get_hash_from_link _ _ l cache) as [[h c1]|] eqn:E1;
      simpl; [|done].
    destruct (hashes_of_links _ _ links c1) as [[hs' c2]|] eqn:E2;
      simpl; [|done].
    intros [= <- <-] Hc. eapply IH; [exact E2|].
    eapply _get_hash_from_link_keeps; [exact E1|done].
Qed.

(** X23. [collect_hashes] never changes a hash that the cache holds: a
    URL cached with a value that is not empty has that value afterwards. *)
Theorem collect_hashes_keeps_cache (ireq : InstallRequirement)
    (cache cache' : hash_cache) (hs : gset string) (url v : string) :
  collect_hashes FAVORITE_HASH sources pypi_json pep440_version
    applicable_candidates file_hexdigest ireq cache = Ok (hs, cache') →
  cache !! url = Some v → v ≠ "" →
  cache' !! url = Some v.
Proof.
  intros H Hc Hv.
  assert (cached cache url v) as Hcached by done.
  assert (∀ c, from_candidates FAVORITE_HASH applicable_candidates
                 file_hexdigest ireq cache = Ok (c, cache') →
               cached cache' url v) as Hcand.
  { intros c Hcand. eapply hashes_of_links_keeps; [exact Hcand|done]. }
  assert (∀ c, when_pinned FAVORITE_HASH sources pypi_json pep440_version
                 applicable_candidates file_hexdigest ireq cache
               = Ok (c, cache') → cached cache' url v) as Hpinned.
  { intros c. unfold when_pinned, from_index.
    destruct (negb (is_pinned_requirement ireq)); [by intros [= <- <-]|].
    destruct (any_pypi_source sources); [|apply Hcand].
    destruct (_get_hashes_from_pypi _ _ _ ireq) as [[found|]|]; simpl;
      [|apply Hcand|done].
    destruct (decide (found = ∅)); [apply Hcand|by intros [= <- <-]]. }
  unfold collect_hashes in H.
  destruct (ireq_link ireq) as [link|]; [|by apply Hpinned in H as [? _]].
  destruct (link_is_vcs link || _).
  - injection H as <- <-. done.
  - destruct (ireq_original_link ireq) as [ol|];
      [|by apply Hpinned in H as [? _]].
    destruct (_get_hash_from_link _ _ ol cache) as [[h c1]|] eqn:E1;
      simpl in H; [|done].
    injection H as <- <-.
    by eapply _get_hash_from_link_keeps in E1 as [? _].
Qed.

(** X24. When the index API fails in a way [_get_hashes_from_pypi]
    catches, [collect_hashes] of a pinned requirement without a link does
    not fail for it: it hashes the links of the finder's applicable
    candidates. *)
Theorem collect_hashes_falls_back (ireq : InstallRequirement)
    (cache : hash_cache) :
  ireq_link ireq = None →
  is_pinned_requirement ireq = true →
  pypi_json (ireq_name ireq) = ApiCaught →
  collect_hashes FAVORITE_HASH sources pypi_json pep440_version
    applicable_candidates file_hexdigest ireq cache
  = hashes_of_links FAVORITE_HASH file_hexdigest
      (applicable_candidates (ireq_name ireq) (ireq_specifier ireq)) cache.
Proof.
  intros Hl Hp Hj. unfold collect_hashes, when_pinned, from_index.
  rewrite Hl, Hp. cbn [negb].
  unfold _get_hashes_from_pypi. rewrite Hj. cbn.
  by destruct (any_pypi_source sources).
Qed.

End cache_facts.

Lemma hash_from_link_computed_once_witness :
  let link :=
    {| link_url := "https://files.example.org/pkg-1.0.tar.gz";
       link_is_vcs := false; link_is_file := false;
       link_is_existing_dir := false;
       link_hash := None; link_hash_name := None |} in
  let cache' : hash_cache :=
    {[ "https://files.example.org/pkg-1.0.tar.gz" := "sha256:c5a1" ]} in
  _get_hash_from_link "sha256" (fun _ => Raise (TypeError "offline")) link
    cache'
  = Ok ("sha256:c5a1", cache').
Proof.
  intros link cache'.
  apply (hash_from_link_computed_once "sha256" (fun _ => Ok "c5a1")
           (fun _ => Raise (TypeError "offline")) link ∅).
  vm_compute. reflexivity.
Defined.

Lemma collect_hashes_keeps_cache_witness :
  let link :=
    {| link_url := "https://files.example.org/pkg-1.0.tar.gz";
       link_is_vcs := false; link_is_file := false;
       link_is_existing_dir := false;
       link_hash := None; link_hash_name := None |} in
  let ireq :=
    {| ireq_name := "pkg"; ireq_link := None; ireq_original_link := None;
       ireq_editable := false;
       ireq_req := Some [ {| operator := "=="; version := "1.0" |} ] |} in
  let cache : hash_cache :=
    {[ "https://files.example.org/other-2.0.tar.gz" := "sha256:27b3" ]} in
  let cache' : hash_cache :=
    <[ "https://files.example.org/pkg-1.0.tar.gz" := "sha256:c5a1" ]> cache in
  collect_hashes "sha256" [] (fun _ => ApiCaught) Some (fun _ _ => [link])
    (fun _ => Ok "c5a1") ireq cache
  = Ok ({[ "sha256:c5a1" ]}, cache')
  ∧ cache' !! "https://files.example.org/other-2.0.tar.gz"
    = Some "sha256:27b3".
Proof.
  intros link ireq cache cache'.
  assert (collect_hashes "sha256" [] (fun _ => ApiCaught) Some
            (fun _ _ => [link]) (fun _ => Ok "c5a1") ireq cache
          = Ok ({[ "sha256:c5a1" ]}, cache')) as H
    by (vm_compute; reflexivity).
  split; [exact H|].
  apply (collect_hashes_keeps_cache "sha256" [] (fun _ => ApiCaught) Some
           (fun _ _ => [link]) (fun _ => Ok "c5a1") ireq cache cache'
           {[ "sha256:c5a1" ]} _ _ H); [by vm_compute|done].
Defined.

Lemma collect_hashes_falls_back_witness :
  let ireq :=
    {| ireq_name := "pkg"; ireq_link := None; ireq_original_link := None;
       ireq_editable := false;
       ireq_req := Some [ {| operator := "=="; version := "1.0" |} ] |} in
  collect_hashes "sha256" ["https://pypi.org/simple"] (fun _ => ApiCaught)
    Some (fun _ _ => []) (fun _ => Ok "c5a1") ireq ∅
  = hashes_of_links "sha256" (fun _ => Ok "c5a1") [] ∅.
Proof.
  intros ireq.
  apply (collect_hashes_falls_back "sha256" ["https://pypi.org/simple"]
           (fun _ => ApiCaught) Some (fun _ _ => []) (fun _ => Ok "c5a1")
           ireq ∅); reflexivity.
Defined.


(** ** Names in formatted entries *)

(** X25. The name [format_requirement_for_lockfile] returns is the
    PEP 423 form of the requirement's name, and the entry carries it under
    [name], for VCS and editable requirements too. *)
Theorem format_requirement_for_lockfile_name
    (Marker_str : string → result string) (req : ReqInfo)
    (markers_lookup index_lookup : dict string) (hashes : list string)
    (name : string) (e : entry) :
  format_requirement_for_lockfile Marker_str req markers_lookup index_lookup
    hashes = Ok (name, e) →
  name = pep423_name (req_name req) ∧ get "name" e = Some (PyStr name).
Proof.
  unfold format_requirement_for_lockfile.
  destruct (assembled_entry req markers_lookup index_lookup hashes)
    as [[[n e0] idx]|] eqn:Ea; simpl; [|done].
  destruct (translate_markers _ e0) as [e1|] eqn:Et; simpl; [|done].
  intros [= <- <-].
  unfold assembled_entry in Ea.
  destruct (req_normalized_name req) as [nn|]; simpl in Ea; [|done].
  destruct (req_pipfile_entry req _) as [? pf].
  injection Ea as <- <- _. split; [done|].
  assert (get "name" e1 = Some (PyStr (pep423_name (req_name req)))) as He1.
  { rewrite (translate_markers_get _ "name" _ e1 eq_refl Et).
    destruct (truthy_str (get nn markers_lookup));
      destruct (truthy_str (get nn index_lookup));
      unfold update; simpl; rewrite ?get_set_ne by done;
      apply get_set_eq. }
  destruct (_ || _); [|done].
  by rewrite !get_del_ne.
Qed.

Lemma format_requirement_for_lockfile_name_witness :
  "requests" = pep423_name (req_name Samples.requests_git)
  ∧ get "name" [("git", PyStr "https://github.com/psf/requests.git");
                ("ref", PyStr "main"); ("name", PyStr "requests")]
    = Some (PyStr "requests").
Proof.
  apply (format_requirement_for_lockfile_name packaging_Marker_str
           Samples.requests_git [] [] []).
  vm_compute. reflexivity.
Defined.

(** ** The keys of a cleaned entry *)

Section cleaned_keys.

Variable Marker_str : string → result string.
Variable is_vcs : entry → bool.

Lemma within_set (allowed : list string) key (v : pyval) (lockfile : entry) :
  key ∈ allowed →
  (∀ k, mem k lockfile = true → k ∈ allowed) →
  ∀ k, mem k (set key v lockfile) = true → k ∈ allowed.
Proof.
  intros Hkey H k Hk. destruct (decide (key = k)) as [<-|Hne]; [done|].
  apply H. unfold mem in *. by rewrite get_set_ne in Hk.
Qed.

Lemma within_copy_key (allowed : list string) key (dep lockfile : entry) :
  key ∈ allowed →
  (∀ k, mem k lockfile = true → k ∈ allowed) →
  ∀ k, mem k (copy_key key dep lockfile) = true → k ∈ allowed.
Proof.
  intros Hkey H. unfold copy_key. destruct (get key dep); [|done].
  by apply within_set.
Qed.

(** Before the markers are looked at, the entry holds none. *)
Lemma lock_fs_key_keys dep pipfile_entry l3 k :
  lock_fs_key dep pipfile_entry
    (lock_plain_keys dep (lock_vcs_keys is_vcs dep (lock_version dep [])))
  = Ok l3 →
  mem k l3 = true →
  k ∈ ["version"; "ref"; "git"; "svn"; "hg"; "bzr"; "subdirectory";
       "hashes"; "index"; "extras"; "editable"; "path"; "file"].
Proof.
  set (allowed := [_; _; _; _; _; _; _; _; _; _; _; _; _]).
  intros E3. revert k.
  assert (H0 : ∀ k, mem k (lock_version dep []) = true → k ∈ allowed).
  { unfold lock_version. destruct (resolved_version dep); [|done].
    apply within_set; [listed|done]. }
  assert (H1 : ∀ k, mem k (lock_vcs_keys is_vcs dep (lock_version dep []))
                    = true → k ∈ allowed).
  { unfold lock_vcs_keys. destruct (is_vcs dep); [|done].
    apply within_copy_key; [listed|].
    assert (∀ k, mem k
                   match get "ref" dep with
                   | Some PyNone | None => lock_version dep []
                   | Some ref => set "ref" ref (lock_version dep [])
                   end = true → k ∈ allowed) as Href.
    { destruct (get "ref" dep) as [[]|]; try done;
        (apply within_set; [listed|done]). }
    destruct (List.find _ (keys dep)) as [vcs_type|] eqn:Ef; [|done].
    destruct (PyStr.nonempty vcs_type); [|done].
    apply within_copy_key; [|done].
    apply find_elem_of in Ef as [_ Hv]. apply in_list_spec in Hv.
    unfold VCS_LIST in Hv. listed_from Hv. }
  assert (H2 : ∀ k, mem k (lock_plain_keys dep
                             (lock_vcs_keys is_vcs dep (lock_version dep [])))
                    = true → k ∈ allowed).
  { unfold lock_plain_keys. cbn [fold_left].
    repeat (apply within_copy_key; [listed|]). done. }
  unfold lock_fs_key in E3.
  destruct (List.find _ ["path"; "file"]) as [fk|] eqn:Efk;
    [|by injection E3 as <-].
  apply find_elem_of in Efk as [Hfk _].
  assert (fk ∈ allowed) as Hfk' by listed_from Hfk.
  match type of E3 with
  | match ?pk with _ => _ end = _ => destruct pk as [pk'|] eqn:Epk
  end.
  - assert (pk' ∈ allowed) as Hpk'.
    { destruct pipfile_entry as [[s|pe]|]; [| |done].
      - destruct (pf_truthy (PfStr s)); [|done].
        apply find_elem_of in Epk as [Hpk _]. listed_from Hpk.
      - destruct (pf_truthy (PfMap pe)); [|done].
        apply find_elem_of in Epk as [Hpk _]. listed_from Hpk. }
    destruct (negb (String.eqb fk pk')).
    + destruct pipfile_entry as [[s|pe]|]; [done| |done].
      destruct (getitem pk' pe) as [v|]; simpl in E3; [|done].
      injection E3 as <-. by apply within_set.
    + injection E3 as <-. by apply within_copy_key.
  - injection E3 as <-. by apply within_copy_key.
Qed.

(** X26. A lockfile entry that [clean_resolved_dep] builds has keys out
    of a fixed vocabulary only; any other key of the resolved record, its
    [name] included, is left out. *)
Theorem clean_resolved_dep_keys (dep : entry) (is_top_level : bool)
    (pipfile_entry : option pf_value) (name : string) (cleaned : entry)
    (k : string) :
  clean_resolved_dep Marker_str is_vcs dep is_top_level pipfile_entry
    = Ok (name, cleaned) →
  mem k cleaned = true →
  k ∈ ["version"; "ref"; "git"; "svn"; "hg"; "bzr"; "subdirectory";
       "hashes"; "index"; "extras"; "editable"; "path"; "file"; "markers"].
Proof.
  set (allowed := [_; _; _; _; _; _; _; _; _; _; _; _; _; _]).
  unfold clean_resolved_dep.
  destruct (pep423_name <$> _) as [n|]; simpl; [|done].
  destruct (lock_fs_key dep pipfile_entry _) as [l3|] eqn:E3; simpl; [|done].
  assert (H3 : ∀ k, mem k l3 = true → k ∈ allowed).
  { intros k' Hk'. pose proof (lock_fs_key_keys _ _ _ _ E3 Hk') as Hin.
    listed_from Hin. }
  destruct (lock_markers _ dep is_top_level pipfile_entry l3) as [l4|] eqn:E4;
    simpl; [|done].
  intros [= <- <-]. revert k.
  assert ("markers" ∈ allowed) as Hm by listed.
  unfold lock_markers in E4.
  destruct (match get "markers" dep with Some _ => _ | None => _ end)
    as [[]|]; simpl in E4; [| |done].
  - destruct (negb is_top_level).
    + destruct (translate_markers _ dep) as [te|]; simpl in E4; [|done].
      destruct (as_str _) as [t|]; simpl in E4; [|done].
      injection E4 as <-.
      destruct (PyStr.nonempty (PyStr.strip t)); [|done].
      by apply within_set.
    + destruct pipfile_entry as [[s|pe]|]; [by injection E4 as <-| |
                                             by injection E4 as <-].
      destruct (translate_markers _ pe) as [pe'|[]]; simplify_eq; try done.
      by apply within_set.
  - by injection E4 as <-.
Qed.

(** X27. For a package the Pipfile names, whose resolved record has
    markers, the lockfile entry takes its [markers] from the Pipfile entry
    and not from the record: the normalised markers of a mapping (the
    value [None] when it has none), and no [markers] key at all for an
    entry that is a bare version string. *)
Theorem clean_resolved_dep_top_level_markers (dep : entry)
    (declared : pf_value) (name : string) (cleaned : entry) (m : string) :
  get "markers" dep = Some (PyStr m) →
  PyStr.nonempty (PyStr.strip m) = true →
  clean_resolved_dep Marker_str is_vcs dep true (Some declared)
    = Ok (name, cleaned) →
  match declared with
  | PfMap pe =>
      match translate_markers Marker_str pe with
      | Ok pe' => get "markers" cleaned
                  = Some (default PyNone (get "markers" pe'))
      | Raise _ => get "markers" cleaned = None
      end
  | PfStr _ => get "markers" cleaned = None
  end.
Proof.
  intros Hm Hne. unfold clean_resolved_dep.
  destruct (pep423_name <$> _) as [n|]; simpl; [|done].
  destruct (lock_fs_key dep (Some declared) _) as [l3|] eqn:E3; simpl;
    [|done].
  assert (get "markers" l3 = None) as Hl3.
  { apply get_None_keys. intros Hk. apply mem_keys in Hk.
    pose proof (lock_fs_key_keys _ _ _ _ E3 Hk) as Hin.
    apply in_list_spec in Hin. by vm_compute in Hin. }
  unfold lock_markers. rewrite Hm. cbn [as_str mbind result_bind].
  rewrite Hne. cbn [negb].
  destruct declared as [s|pe].
  - by intros [= _ <-].
  - destruct (translate_markers _ pe) as [pe'|[]]; simpl; try done;
      intros [= _ <-]; [apply get_set_eq|done].
Qed.

End cleaned_keys.

Lemma clean_resolved_dep_keys_witness :
  clean_resolved_dep packaging_Marker_str requirementslib_is_vcs
    MergerSamples.resolved false None
  = Ok ("pkg-a", [("version", PyStr "==1.3.0");
                  ("markers", PyStr "os_name == 'nt'")])
  ∧ "markers"
    ∈ ["version"; "ref"; "git"; "svn"; "hg"; "bzr"; "subdirectory";
       "hashes"; "index"; "extras"; "editable"; "path"; "file"; "markers"].
Proof.
  assert (clean_resolved_dep packaging_Marker_str requirementslib_is_vcs
            MergerSamples.resolved false None
          = Ok ("pkg-a", [("version", PyStr "==1.3.0");
                          ("markers", PyStr "os_name == 'nt'")])) as H
    by (vm_compute; reflexivity).
  split; [exact H|].
  apply (clean_resolved_dep_keys _ _ _ _ _ _ _ _ H). reflexivity.
Defined.

Lemma clean_resolved_dep_top_level_markers_witness :
  match MergerSamples.declared with
  | PfMap pe =>
      match translate_markers packaging_Marker_str pe with
      | Ok pe' =>
          get "markers" [("version", PyStr "==1.3.0");
                         ("markers", PyStr "sys_platform == 'win32'")]
          = Some (default PyNone (get "markers" pe'))
      | Raise _ =>
          get "markers" [("version", PyStr "==1.3.0");
                         ("markers", PyStr "sys_platform == 'win32'")]
          = None
      end
  | PfStr _ =>
      get "markers" [("version", PyStr "==1.3.0");
                     ("markers", PyStr "sys_platform == 'win32'")]
      = None
  end.
Proof.
  apply (clean_resolved_dep_top_level_markers packaging_Marker_str
           requirementslib_is_vcs MergerSamples.resolved
           MergerSamples.declared "pkg-a" _ "os_name == 'nt'");
    vm_compute; reflexivity.
Defined.

(** ** The names in a prepared lockfile section *)

Section lockfile_names.

Variable Marker_str : string → result string.
Variable is_vcs : entry → bool.

Lemma get_locked_dep_name dep pipfile prefer name e :
  get_locked_dep Marker_str is_vcs dep pipfile prefer = Ok (name, e) →
  ∃ n, get "name" dep = Some (PyStr n) ∧ name = pep423_name n.
Proof.
  unfold get_locked_dep.
  destruct (pipfile_entry_of dep pipfile) as [declared|]; simpl; [|done].
  destruct (clean_for_lockfile _ _ dep declared) as [[n0 e0]|] eqn:Ec;
    simpl; [|done].
  intros H.
  assert (name = n0) as ->.
  { destruct (_ && _); simpl in H.
    - destruct (as_str _); simpl in H; [|done]. by injection H as <- _.
    - by injection H as <- _. }
  clear H. unfold clean_for_lockfile in Ec.
  assert (∀ top pe, clean_resolved_dep Marker_str is_vcs dep top pe
                    = Ok (n0, e0) →
                    ∃ n, get "name" dep = Some (PyStr n)
                         ∧ n0 = pep423_name n) as Hname.
  { intros top pe. unfold clean_resolved_dep, getitem.
    destruct (get "name" dep) as [[| |n|]|]; simpl; try done.
    destruct (lock_fs_key _ _ _); simpl; [|done].
    destruct (lock_markers _ _ _ _ _); simpl; [|done].
    intros [= <- _]. by exists n. }
  destruct (top_level_entry declared); by eapply Hname.
Qed.

Lemma prepare_lockfile_entry_names dep pipfile lockfile lockfile' k :
  prepare_lockfile_entry Marker_str is_vcs dep pipfile lockfile
    = Ok lockfile' →
  mem k lockfile' = true
  ↔ mem k lockfile = true
    ∨ (dep ≠ [] ∧ ∃ n, get "name" dep = Some (PyStr n) ∧ k = pep423_name n).
Proof.
  unfold prepare_lockfile_entry. destruct dep as [|kv dep].
  - intros [= <-]. split; [by left|]. by intros [?|[? _]].
  - set (d := kv :: dep).
    destruct (get_locked_dep _ _ d pipfile true) as [[name le]|] eqn:E;
      simpl; [|done].
    apply get_locked_dep_name in E as (n & Hn & ->).
    intros H.
    assert (∃ v, lockfile' = set (pep423_name n) v lockfile) as [v ->].
    { destruct (get (pep423_name n) lockfile) as [[s|current]|];
        cbn iota in H.
      2: destruct current as [|kv0 current]; cbn iota in H.
      3: destruct (translate_markers _ _); simpl in H; [|done].
      all: injection H as <-; by eexists. }
    rewrite mem_set. split.
    + intros [->|Hk]; [right|by left]. split; [done|]. by exists n.
    + intros [Hk|[_ (n' & Hn' & ->)]]; [by right|left].
      subst d. change (get "name" (kv :: dep) = Some (PyStr n')) in Hn'.
      congruence.
Qed.

(** X28. The names of the lockfile section [prepare_lockfile] returns
    are the names the section had and the PEP 423 names of the resolved
    records, nothing else: no entry is dropped and none appears under
    another name. *)
Theorem prepare_lockfile_names (results : list entry)
    (pipfile lockfile lockfile' : dict pf_value) (k : string) :
  prepare_lockfile Marker_str is_vcs results pipfile lockfile
    = Ok lockfile' →
  mem k lockfile' = true
  ↔ mem k lockfile = true
    ∨ ∃ dep n, dep ∈ results ∧ get "name" dep = Some (PyStr n)
               ∧ k = pep423_name n.
Proof.
  revert lockfile. induction results as [|dep results IH]; intros lockfile.
  - intros [= <-]. split; [by left|].
    intros [?|(dep & n & Hd & _)]; [done|]. by apply elem_of_nil in Hd.
  - cbn [prepare_lockfile].
    destruct (prepare_lockfile_entry _ _ dep pipfile lockfile)
      as [l1|] eqn:E1; simpl; [|done].
    intros H. rewrite (IH _ H).
    rewrite (prepare_lockfile_entry_names _ _ _ _ k E1). split.
    + intros [[Hk|[_ (n & Hn & ->)]]|(d & n & Hd & Hn & ->)].
      * by left.
      * right. exists dep, n. split; [by left|done].
      * right. exists d, n. split; [by right|done].
    + intros [Hk|(d & n & Hd & Hn & ->)]; [by left; left|].
      apply elem_of_cons in Hd as [->|Hd].
      * left. right. split; [|by exists n]. by intros ->.
      * right. by exists d, n.
Qed.

End lockfile_names.

Lemma prepare_lockfile_names_witness :
  let dep : entry :=
    [("name", PyStr "Pkg_A"); ("version", PyStr "1.3.0")] in
  let lockfile : dict pf_value :=
    [("old", PfMap [("version", PyStr "==1.1.0")])] in
  let lockfile' : dict pf_value :=
    [("old", PfMap [("version", PyStr "==1.1.0")]);
     ("pkg-a", PfMap [("version", PyStr "==1.3.0")])] in
  mem "pkg-a" lockfile' = true
  ↔ mem "pkg-a" lockfile = true
    ∨ ∃ d n, d ∈ [dep] ∧ get "name" d = Some (PyStr n)
             ∧ "pkg-a" = pep423_name n.
Proof.
  intros dep lockfile lockfile'.
  apply (prepare_lockfile_names packaging_Marker_str requirementslib_is_vcs
           [dep] [] lockfile lockfile' "pkg-a").
  vm_compute. reflexivity.
Defined.

(** ** One entry per name *)

Lemma elem_of_keys_del {V} k x (d : dict V) :
  x ∈ keys (del k d) → x ∈ keys d.
Proof.
  induction d as [|[k0 v0] d IH]; cbn [del keys map fst]; [done|].
  destruct (String.eqb k0 k); cbn [map fst].
  - intros H. right. by apply IH.
  - intros [->|H]%elem_of_cons; [by left|]. right. by apply IH.
Qed.

Lemma del_wf {V} k (d : dict V) : wf d → wf (del k d).
Proof.
  unfold wf. induction d as [|[k0 v0] d IH]; cbn [del keys map fst];
    [done|].
  intros [Hk0 Hd]%NoDup_cons. destruct (String.eqb k0 k); [by apply IH|].
  cbn [map fst]. apply NoDup_cons. split; [|by apply IH].
  intros H. by apply Hk0, (elem_of_keys_del k).
Qed.

Lemma update_wf {V} (d e : dict V) : wf d → wf (update d e).
Proof.
  unfold update. revert d. induction e as [|[k v] e IH]; intros d Hd;
    cbn [fold_left]; [done|].
  by apply IH, set_wf.
Qed.

Section names_facts.

Variable Marker_str : string → result string.

Lemma translate_marker_keys_wf pipfile_entry ms st st' :
  translate_marker_keys Marker_str pipfile_entry ms st = Ok st' →
  wf st.1 → wf st'.1.
Proof.
  revert st. induction ms as [|m ms IH]; intros [np mset] H Hw; simpl in *.
  - by inversion H.
  - destruct (getitem m pipfile_entry) as [v|]; simpl in H; [|done].
    destruct (String.eqb m "markers").
    + by apply IH in H.
    + destruct (Marker_str _) as [marker|]; simpl in H; [|done].
      apply IH in H; [done|]. simpl. by apply del_wf.
Qed.

Lemma translate_markers_wf e e' :
  translate_markers Marker_str e = Ok e' → wf e → wf e'.
Proof.
  intros H Hw. unfold translate_markers in H.
  set (st := match get "markers" e with Some _ => _ | None => _ end) in H.
  assert (∀ s, st = Ok s → wf s.1) as Hst.
  { subst st. intros s. destruct (get "markers" e) as [mv|].
    - destruct (truthy mv).
      + destruct (Marker_str_of _ mv) as [marker|]; simpl; [|done].
        destruct (PyStr.contains "extra" marker); intros [= <-]; simpl;
          by apply del_wf.
      + intros [= <-]; simpl. by apply del_wf.
    - by intros [= <-]. }
  destruct st as [s|]; simpl in H; [|done].
  specialize (Hst s eq_refl).
  destruct (translate_marker_keys _ _ _ _) as [[np mset]|] eqn:E;
    simpl in H; [|done].
  apply translate_marker_keys_wf in E; [|done]. simpl in E.
  destruct mset.
  - by inversion H; subst.
  - destruct (Marker_str _); simpl in H; [|done]. inversion H; subst.
    by apply set_wf.
Qed.

Ltac solve_wf :=
  repeat first
    [ apply NoDup_nil_2
    | apply NoDup_singleton
    | apply update_wf
    | apply set_wf
    | apply del_wf
    | match goal with
      | |- wf (match ?x with _ => _ end) => destruct x
      end ].

Lemma assembled_entry_wf req ml il hashes n e idx :
  assembled_entry req ml il hashes = Ok (n, e, idx) → wf e.
Proof.
  unfold assembled_entry.
  destruct (req_normalized_name req) as [nn|]; cbn [mbind result_bind];
    [|done].
  destruct (req_pipfile_entry req _) as [? pf].
  intros [= _ <- _]. cbv zeta. solve_wf.
Qed.

(** A formatted entry carries its name, and each of its keys once. *)
Lemma format_requirement_for_lockfile_named req ml il hashes name e :
  format_requirement_for_lockfile Marker_str req ml il hashes
    = Ok (name, e) →
  name = pep423_name (req_name req)
  ∧ get "name" e = Some (PyStr name)
  ∧ wf e.
Proof.
  unfold format_requirement_for_lockfile.
  destruct (assembled_entry req ml il hashes) as [[[n e0] idx]|] eqn:Ea;
    cbn [mbind result_bind]; [|done].
  destruct (translate_markers _ e0) as [e1|] eqn:Et; cbn [mbind result_bind];
    [|done].
  intros [= <- <-].
  pose proof (translate_markers_wf _ _ Et (assembled_entry_wf _ _ _ _ _ _ _ Ea))
    as Hw1.
  unfold assembled_entry in Ea.
  destruct (req_normalized_name req) as [nn|]; simpl in Ea; [|done].
  destruct (req_pipfile_entry req _) as [? pf].
  injection Ea as <- <- _. split; [done|].
  assert (get "name" e1 = Some (PyStr (pep423_name (req_name req)))) as He1.
  { rewrite (translate_markers_get _ "name" _ e1 eq_refl Et).
    destruct (truthy_str (get nn ml)); destruct (truthy_str (get nn il));
      unfold update; simpl; rewrite ?get_set_ne by done;
      apply get_set_eq. }
  destruct (_ || _); [|done].
  split; [by rewrite !get_del_ne|]. by repeat apply del_wf.
Qed.

Lemma _clean_skipped_result_named
    (collect_hashes_of :
       InstallRequirement → hash_cache → result (gset string * hash_cache))
    req value cache name e cache' :
  _clean_skipped_result collect_hashes_of req value cache
    = Ok (name, e, cache') →
  wf value →
  name = req_name req ∧ get "name" e = Some (PyStr name) ∧ wf e.
Proof.
  unfold _clean_skipped_result. intros H Hw.
  destruct (collect_hashes_of _ cache) as [[hs c1]|]; simpl in H; [|done].
  injection H as <- <- _. split; [done|].
  set (e0 := set "name" (PyStr (req_name req)) value).
  assert (get "name" e0 = Some (PyStr (req_name req)) ∧ wf e0) as [H0 Hw0].
  { split; [apply get_set_eq|by apply set_wf]. }
  set (e1 := if truthy_at "editable" e0 && truthy_at "version" e0
             then del "version" e0 else e0).
  assert (get "name" e1 = Some (PyStr (req_name req)) ∧ wf e1) as [H1 Hw1].
  { subst e1. destruct (_ && _); [|done].
    split; [by rewrite get_del_ne|by apply del_wf]. }
  match goal with
  | |- context [if truthy ?r then set "ref" ?r e1 else e1] =>
      set (e2 := if truthy r then set "ref" r e1 else e1)
  end.
  assert (get "name" e2 = Some (PyStr (req_name req)) ∧ wf e2) as [H2 Hw2].
  { subst e2. destruct (truthy _); [|done].
    split; [by rewrite get_set_ne|by apply set_wf]. }
  destruct (decide (hs = ∅)); [done|].
  split; [by rewrite get_set_ne|by apply set_wf].
Qed.

Lemma merge_result_named name (e : entry) results :
  named_results results →
  get "name" e = Some (PyStr name) → wf e →
  named_results (merge_result name e results).
Proof.
  intros [Hw Hall] Hn He. unfold merge_result.
  assert (∀ v, get "name" v = Some (PyStr name) → wf v →
               named_results (set name v results)) as Hset.
  { intros v Hv Hwv. split; [by apply set_wf|].
    clear Hw. induction Hall as [|[k0 v0] rest [Hk0 Hw0] Hrest IH];
      cbn [set].
    - by repeat constructor.
    - destruct (String.eqb_spec k0 name) as [->|Hne].
      + constructor; [by split|done].
      + constructor; [by split|done]. }
  destruct (get name results) as [current|] eqn:E; [|by apply Hset].
  assert (wf current) as Hwc.
  { clear Hset. induction Hall as [|[k0 v0] rest [Hk0 Hw0] _ IH];
      cbn [get] in E; [done|].
    destruct (String.eqb k0 name); [by injection E as <-|].
    apply IH; [|done]. by apply NoDup_cons in Hw as [_ ?]. }
  apply Hset; [|by apply update_wf].
  by rewrite get_update, Hn.
Qed.

Variable collect_hashes_of :
  InstallRequirement → hash_cache → result (gset string * hash_cache).
Variable from_ireq : InstallRequirement → ReqInfo.
Variable add_hashes : ReqInfo → gset string → ReqInfo.
Variable from_pipfile : string → entry → ReqInfo.
Variable hashes : InstallRequirement → gset string.
Variable markers_lookup index_lookup : dict string.

Lemma clean_resolved_tree_named skipped resolved_tree results results' :
  clean_resolved_tree Marker_str from_ireq add_hashes hashes markers_lookup
    index_lookup skipped resolved_tree results = Ok results' →
  named_results results → named_results results'.
Proof.
  revert results. induction resolved_tree as [|ireq rest IH];
    intros results; cbn [clean_resolved_tree].
  - by intros [= <-].
  - destruct (clean_resolved _ _ _ _ _ _ skipped ireq results)
      as [r1|] eqn:E1; simpl; [|done].
    intros H Hn. apply (IH _ H). clear H IH.
    unfold clean_resolved in E1.
    destruct (_ && _ && _); [by injection E1 as <-|].
    destruct (req_normalized_name _) as [nn|]; simpl in E1; [|done].
    destruct (mem nn skipped); [by injection E1 as <-|].
    destruct (format_requirement_for_lockfile _ _ _ _ _) as [[name e]|]
      eqn:Ef; simpl in E1; [|done].
    destruct (translate_markers _ e) as [e'|] eqn:Et; simpl in E1; [|done].
    injection E1 as <-.
    apply format_requirement_for_lockfile_named in Ef as (_ & Hname & Hw).
    apply merge_result_named; [done| |by eapply translate_markers_wf].
    by rewrite (translate_markers_get _ "name" _ _ eq_refl Et).
Qed.

Lemma clean_skipped_named skipped results cache results' cache' :
  clean_skipped Marker_str collect_hashes_of from_pipfile skipped results
    cache = Ok (results', cache') →
  Forall (fun kv => wf kv.2) skipped →
  named_results results → named_results results'.
Proof.
  revert results cache. induction skipped as [|[k value] rest IH];
    intros results cache; cbn [clean_skipped].
  - by intros [= <- _].
  - destruct (_clean_skipped_result _ _ value cache) as [[[name e] c1]|]
      eqn:Es; simpl; [|done].
    destruct (translate_markers _ e) as [e'|] eqn:Et; simpl; [|done].
    intros H [Hv Hrest]%Forall_cons Hn. apply (IH _ _ H Hrest).
    apply _clean_skipped_result_named in Es as (_ & Hname & Hw); [|done].
    apply merge_result_named; [done| |by eapply translate_markers_wf].
    by rewrite (translate_markers_get _ "name" _ _ eq_refl Et).
Qed.

End names_facts.

(** X29. [clean_results] returns one entry per package name: every entry
    carries a [name], and no two entries carry the same one, also when a
    package is resolved more than once or is both resolved and skipped
    (the skipped records being dictionaries, one value per key). *)
Theorem clean_results_names
    (Marker_str : string → result string)
    (collect_hashes_of :
       InstallRequirement → hash_cache → result (gset string * hash_cache))
    (from_ireq : InstallRequirement → ReqInfo)
    (add_hashes : ReqInfo → gset string → ReqInfo)
    (from_pipfile : string → entry → ReqInfo)
    (hashes : InstallRequirement → gset string)
    (markers_lookup index_lookup : dict string)
    (resolved_tree : list InstallRequirement) (skipped : dict entry)
    (cache cache' : hash_cache) (results : list entry) :
  Forall (fun kv => wf kv.2) skipped →
  clean_results Marker_str collect_hashes_of from_ireq add_hashes
    from_pipfile hashes markers_lookup index_lookup resolved_tree skipped
    cache = Ok (results, cache') →
  NoDup (get "name" <$> results)
  ∧ Forall (fun e => ∃ name, get "name" e = Some (PyStr name)) results.
Proof.
  intros Hskipped. unfold clean_results.
  destruct (clean_resolved_tree _ _ _ _ _ _ skipped resolved_tree [])
    as [r1|] eqn:E1; simpl; [|done].
  destruct (clean_skipped _ _ _ skipped r1 cache) as [[r2 c2]|] eqn:E2;
    simpl; [|done].
  intros [= <- <-].
  apply clean_resolved_tree_named in E1; [|split; constructor].
  apply clean_skipped_named in E2 as [Hw Hall]; [|done..].
  assert (get "name" <$> r2.*2 = (fun k => Some (PyStr k)) <$> keys r2)
    as Hnames.
  { clear Hw. induction Hall as [|[k e] rest [Hk _] _ IH]; [done|].
    cbn in *. by rewrite Hk, IH. }
  split.
  - rewrite Hnames. apply NoDup_fmap_2; [|done]. by intros ?? [= ->].
  - apply Forall_fmap. eapply Forall_impl; [exact Hall|].
    intros [k e] [Hk _]. by exists k.
Qed.

Lemma clean_results_names_witness :
  let results : list entry :=
    [ [("version", PyStr "2.25.1"); ("name", PyStr "requests");
       ("git", PyStr "https://github.com/psf/requests.git");
       ("ref", PyStr "0123abcd")] ] in
  NoDup (get "name" <$> results)
  ∧ Forall (fun e => ∃ name, get "name" e = Some (PyStr name)) results.
Proof.
  intros results.
  apply (clean_results_names packaging_Marker_str
           Samples.offline_collect_hashes (fun _ => Samples.requests)
           (fun r _ => r) (fun _ _ => Samples.requests_git) (fun _ => ∅)
           [] [] [Samples.requests_ireq; Samples.requests_ireq]
           [("requests-git",
             [("git", PyStr "https://github.com/psf/requests.git")])]
           ∅ ∅ results).
  - constructor; [|constructor]. unfold wf. cbn. apply NoDup_singleton.
  - vm_compute. reflexivity.
Defined.

(* ================================================================== *)
(** * Part IV: the records of the skipped map                          *)
(* ================================================================== *)

(** ** Induction on what fetching discovers *)

Lemma Requirement_tree_ind (P : Requirement → Prop) :
  (∀ info requires,
     Forall (fun r => match r with
                      | Some (_, Ok new_req) => P new_req
                      | _ => True
                      end) requires →
     P (Req info requires)) →
  ∀ req, P req.
Proof.
  intros H. fix IH 1. intros [info requires]. apply H.
  induction requires as [|r requires IHr]; constructor; [|exact IHr].
  destruct r as [[d [new_req|e]]|]; [apply IH|exact I..].
Qed.

(** ** Records with a VCS key *)

Lemma requirementslib_is_vcs_spec (e : entry) :
  requirementslib_is_vcs e = true ↔ ∃ k, k ∈ VCS_LIST ∧ mem k e = true.
Proof.
  unfold requirementslib_is_vcs. rewrite existsb_exists. split.
  - intros (k & Hin & [_ Hk]%andb_true_iff). exists k. split.
    + by apply in_list_spec.
    + by apply mem_keys, list_elem_of_In.
  - intros (k & Hk & Hm). exists k. split.
    + by apply list_elem_of_In, mem_keys.
    + apply andb_true_iff. split; [|by apply in_list_spec].
      unfold VCS_LIST in Hk.
      repeat (apply elem_of_cons in Hk as [->|Hk]; [done|]).
      by apply elem_of_nil in Hk.
Qed.

Lemma requirementslib_is_vcs_agree (e e' : entry) :
  (∀ k, k ∈ VCS_LIST → get k e' = get k e) →
  requirementslib_is_vcs e' = requirementslib_is_vcs e.
Proof.
  intros H. apply eq_true_iff_eq. rewrite !requirementslib_is_vcs_spec.
  unfold mem. split; intros (k & Hk & Hm); exists k; (split; [done|]).
  - by rewrite <- H.
  - by rewrite H.
Qed.

Lemma requirementslib_is_vcs_set k v (e : entry) :
  k ∉ VCS_LIST →
  requirementslib_is_vcs (set k v e) = requirementslib_is_vcs e.
Proof.
  intros Hk. apply requirementslib_is_vcs_agree. intros k' Hk'.
  apply get_set_ne. by intros ->.
Qed.

Lemma skippable_unversioned (e : entry) :
  get "version" e = None → skippable e.
Proof.
  intros H. split; [done|]. unfold mem. by rewrite H.
Qed.

Lemma skippable_set_version v (e : entry) :
  requirementslib_is_vcs e = false → v ≠ "" →
  skippable (set "version" (PyStr v) e).
Proof.
  intros He Hv. split.
  - rewrite requirementslib_is_vcs_set, He; [done|].
    unfold VCS_LIST. intros H.
    repeat (apply elem_of_cons in H as [?|H]; [done|]).
    by apply elem_of_nil in H.
  - intros _ _. unfold truthy_at. rewrite get_set_eq. by destruct v.
Qed.

Section skipped_records.

Variable Marker_str : string → result string.
Variable resolver : option Resolver.
Variable pinned_pipfile_entry :
  ReqInfo → string → gset string → string * pf_value.

Hypothesis pinned_entries_skippable :
  ∀ info v hs e, (pinned_pipfile_entry info v hs).2 = PfMap e → skippable e.

Lemma translate_markers_skippable (e e' : entry) :
  translate_markers Marker_str e = Ok e' → skippable e → skippable e'.
Proof.
  intros H [Hv He].
  assert (requirementslib_is_vcs e' = requirementslib_is_vcs e) as Hvcs.
  { apply requirementslib_is_vcs_agree. intros k Hk.
    apply (translate_markers_get Marker_str k e e'); [|done].
    unfold VCS_LIST in Hk.
    repeat (apply elem_of_cons in Hk as [->|Hk]; [reflexivity|]).
    by apply elem_of_nil in Hk. }
  pose proof (translate_markers_get Marker_str "version" e e' eq_refl H)
    as Hver.
  pose proof (translate_markers_get Marker_str "editable" e e' eq_refl H)
    as Hed.
  unfold skippable, truthy_at, mem. by rewrite Hvcs, Hver, Hed.
Qed.

Lemma records_skippable_nil (h : heap) : records_skippable h [] h.
Proof. split; try done. apply NoDup_nil_2. Qed.

(** One new record, bound under one name *)
Lemma records_skippable_alloc (h : heap) (name : string) (e : entry) :
  skippable e →
  records_skippable h [(name, length h)] (h ++ [PfMap e])%list.
Proof.
  intros He. unfold heap in *.
  assert (∀ k a, get k [(name, length h)] = Some a →
                 k = name ∧ a = length h) as Hget.
  { intros k a. cbn [get]. destruct (String.eqb_spec name k); [|done].
    by intros [= <-]. }
  split; unfold heap in *.
  - apply NoDup_singleton.
  - rewrite length_app. lia.
  - intros a Ha. by apply lookup_app_l.
  - intros k a [-> ->]%Hget. rewrite length_app. simpl. lia.
  - intros k a e0 [-> ->]%Hget.
    rewrite list_lookup_middle by done. by intros [= <-].
  - intros k k' a e0 [-> ->]%Hget [-> _]%Hget. done.
Qed.

Lemma expand_plain_records info h0 constraints locked h :
  expand_plain Marker_str resolver pinned_pipfile_entry info h0
    = Ok (constraints, locked, h) →
  records_skippable h0 locked h.
Proof.
  unfold expand_plain.
  destruct (req_marker info) as [[]|];
    try (intros [= <- <- <-]; apply records_skippable_nil).
  destruct resolver as [pypi|];
    [|intros [= <- <- <-]; apply records_skippable_nil].
  destruct (ireq_req _); [|done].
  destruct (best_candidate pypi _) as [v|];
    [|intros [= <- <- <-]; apply records_skippable_nil].
  destruct (resolver_collect_hashes pypi _) as [hs|]; simpl; [|done].
  destruct (pinned_pipfile_entry info v hs) as [n pf] eqn:Ep.
  destruct pf as [s|e]; simpl; [done|].
  destruct (translate_markers _ e) as [e'|] eqn:Et; simpl; [|done].
  intros [= <- <- <-]. apply records_skippable_alloc.
  eapply translate_markers_skippable; [exact Et|].
  apply (pinned_entries_skippable info v hs). by rewrite Ep.
Qed.

(** The locked map of a dependency is merged into the one of the
    requirement that declares it. *)
Lemma records_skippable_update h0 locked h1 new_lock h2 :
  records_skippable h0 locked h1 →
  records_skippable h1 new_lock h2 →
  records_skippable h0 (update locked new_lock) h2.
Proof.
  intros [Hwf Hlen Hfr Hrg Hsk Hsg] [Hwf' Hlen' Hfr' Hrg' Hsk' Hsg'].
  unfold heap in *.
  assert (∀ k a, get k (update locked new_lock) = Some a →
                 (get k new_lock = Some a ∧ (length h1 ≤ a < length h2)%nat)
                 ∨ (get k locked = Some a ∧ (length h0 ≤ a < length h1)%nat))
    as Hget.
  { intros k a. rewrite get_update by done.
    destruct (get k new_lock) as [a'|] eqn:E.
    - intros [= <-]. left. split; [done|]. by eapply Hrg'.
    - intros H. right. split; [done|]. by eapply Hrg. }
  split; unfold heap in *.
  - by apply update_wf.
  - lia.
  - intros a Ha. rewrite Hfr' by lia. by apply Hfr.
  - intros k a [[_ ?]|[_ ?]]%Hget; lia.
  - intros k a e [[H _]|[H Ha]]%Hget He.
    + by eapply Hsk'.
    + rewrite Hfr' in He by lia. by eapply Hsk.
  - intros k k' a e [[H Ha]|[H Ha]]%Hget [[H' Ha']|[H' Ha']]%Hget He Hv;
      try lia.
    + by eapply Hsg'.
    + rewrite Hfr' in He by lia. by eapply Hsg.
Qed.

Lemma expand_declared_records recurse info r h0 a rec name st st' :
  expands_to_skippable recurse r →
  records_skippable h0 st.1.2 st.2 → own_entry a rec name st →
  expand_declared recurse info r st = Ok st' →
  records_skippable h0 st'.1.2 st'.2 ∧ own_entry a rec name st'.
Proof.
  destruct st as [[cs locked] h]. unfold expand_declared, own_entry.
  cbn [fst snd]. intros Hrec Hst [Ha Hown].
  destruct r as [[d parsed]|]; [|by intros [= <-]].
  destruct (_ && _).
  - destruct parsed as [new_req|]; [|done]. cbn in Hrec.
    assert (∀ cs' l' h',
              recurse new_req h = Ok (cs', l', h') →
              records_skippable h0 (update locked l') h'
              ∧ h' !! a = Some rec
              ∧ ∀ k, get k (update locked l') = Some a → k = name)
      as Hstep.
    { intros cs' l' h' E. specialize (Hrec _ _ E). cbn in Hrec.
      pose proof (lookup_lt_Some _ _ _ Ha) as Hlt.
      split_and!.
      - by eapply records_skippable_update.
      - by rewrite (rs_frame _ _ _ Hrec).
      - intros k. rewrite get_update by apply (rs_wf _ _ _ Hrec).
        destruct (get k l') as [a'|] eqn:E'; [|apply Hown].
        intros [= ->]. apply (rs_range _ _ _ Hrec) in E'. lia. }
    destruct (dep_marker d) as [[]|].
    + destruct (recurse new_req h) as [[[cs' l'] h']|] eqn:E; [|done].
      intros [= <-]. cbn [fst snd]. by apply (Hstep cs').
    + destruct (alloc _ h). by destruct (req_normalized_name _).
    + destruct (recurse new_req h) as [[[cs' l'] h']|] eqn:E; [|done].
      intros [= <-]. cbn [fst snd]. by apply (Hstep cs').
  - destruct (dep_marker d) as [[]|]; by intros [= <-].
Qed.

Lemma expand_all_records recurse info rs h0 a rec name st st' :
  Forall (expands_to_skippable recurse) rs →
  records_skippable h0 st.1.2 st.2 → own_entry a rec name st →
  expand_all recurse info rs st = Ok st' →
  records_skippable h0 st'.1.2 st'.2 ∧ own_entry a rec name st'.
Proof.
  intros Hrs. revert st.
  induction Hrs as [|r rs Hr _ IH]; intros st Hst Hown; cbn [expand_all].
  - by intros [= <-].
  - destruct (expand_declared recurse info r st) as [st1|] eqn:E; [|done].
    destruct (expand_declared_records _ _ _ _ _ _ _ _ _ Hr Hst Hown E).
    by apply IH.
Qed.


(** The record [get_vcs_deps] stores: the Pipfile entry with the commit
    hash under [ref]. *)
Lemma alloc_setitem_at (h : heap) (e : entry) k v :
  setitem_at (length h) k v (h ++ [PfMap e])%list
  = Ok (h ++ [PfMap (set k v e)])%list.
Proof.
  unfold setitem_at, heap in *. rewrite list_lookup_middle by done.
  f_equal. rewrite insert_app_r_alt by done. by rewrite Nat.sub_diag.
Qed.

Lemma own_entry_alloc (h : heap) (rec : pf_value) (name : string) cs :
  own_entry (length h) rec name
    (cs, set name (length h) [], (h ++ [rec])%list).
Proof.
  unfold own_entry, heap in *. cbn [fst snd]. split.
  - by apply list_lookup_middle.
  - intros k. cbn [set get]. by destruct (String.eqb_spec name k).
Qed.

(** What [fetch_entry] stores for the requirement itself *)
Lemma fetch_entry_records info h0 a name st :
  requirementslib_entry info →
  fetch_entry info h0 = Ok (a, name, st) →
  ∃ rec,
    records_skippable h0 st.1.2 st.2
    ∧ own_entry a rec (pep423_name name) st
    ∧ (length h0 ≤ a)%nat
    ∧ if req_is_vcs info
      then pep423_name name = name
           ∧ ∀ e, rec = PfMap e → get "version" e = None
      else ∀ e, rec = PfMap e →
                requirementslib_is_vcs e = false ∧ skippable e.
Proof.
  intros Hlib. unfold fetch_entry, requirementslib_entry in *.
  destruct (req_is_vcs info) eqn:Evcs.
  - unfold get_vcs_deps. rewrite Evcs.
    destruct (req_normalized_name info) as [n|err] eqn:En;
      cbn [mbind result_bind]; [|done].
    destruct (req_checkout info) as [c|]; [|done].
    unfold alloc.
    destruct ((req_pipfile_entry info (req_index info)).2) as [s|e] eqn:Ep.
    { unfold setitem_at, heap. by rewrite list_lookup_middle. }
    rewrite alloc_setitem_at. cbn [mbind result_bind].
    destruct (String.eqb_spec (pep423_name n) n) as [Hn|]; [|done].
    cbn [mbind result_bind]. intros [= <- <- <-]. cbn [fst snd].
    assert (get "version" (set "ref" (PyStr c) e) = None) as Hv.
    { rewrite get_set_ne by done. by apply Hlib. }
    exists (PfMap (set "ref" (PyStr c) e)). split_and!.
    + apply records_skippable_alloc. by apply skippable_unversioned.
    + apply own_entry_alloc.
    + done.
    + done.
    + by intros e0 [= <-].
  - cbn [mbind result_bind]. unfold alloc.
    destruct (req_normalized_name info) as [n|[]] eqn:En;
      cbn [mbind result_bind]; try done.
    intros [= <- <- <-]. cbn [fst snd].
    exists ((req_pipfile_entry info (req_index info)).2). split_and!.
    + destruct ((req_pipfile_entry info (req_index info)).2) as [s|e]
        eqn:Ep.
      * pose proof (records_skippable_alloc h0 (pep423_name n) []
                      ltac:(by apply skippable_unversioned)) as H.
        destruct H as [Hwf Hlen Hfr Hrg Hsk Hsg].
        split; unfold heap in *; rewrite ?length_app in *; try done.
        -- intros a Ha. by apply lookup_app_l.
        -- intros k a e0 Hk. apply Hrg in Hk as [Hk1 Hk2].
           cbn [length] in Hk2.
           replace a with (length h0) by lia.
           by rewrite list_lookup_middle.
        -- intros k k' a e0 Hk _. apply Hrg in Hk as [Hk1 Hk2].
           cbn [length] in Hk2.
           replace a with (length h0) by lia.
           by rewrite list_lookup_middle.
      * apply records_skippable_alloc. by apply Hlib.
    + apply own_entry_alloc.
    + done.
    + intros e He. by apply Hlib.
Qed.

(** The version that [get_deps_from_req] writes is not empty. *)
Lemma top_level_version_nonempty info v :
  top_level_version info = Some v → v ≠ "".
Proof.
  unfold top_level_version, truthy_str.
  destruct (req_specifiers info) as [s|].
  - destruct (PyStr.nonempty s) eqn:E.
    + intros [= <-]. by destruct s.
    + destruct (setup_info_version info) as [w|]; [|done].
      destruct (PyStr.nonempty w); [|done]. by intros [= <-].
  - destruct (setup_info_version info) as [w|]; [|done].
    destruct (PyStr.nonempty w); [|done]. by intros [= <-].
Qed.


(** The end of the expansion: a version may be written into the record
    that is bound under the requirement's name, and then the name is bound
    to the requirement's own record again. *)
Lemma rebind_records info h0 locked (h h' : heap) a rec name :
  records_skippable h0 locked h →
  own_entry a rec (pep423_name name) (∅, locked, h) →
  (length h0 ≤ a)%nat →
  own_record_of info name rec →
  length h' = length h →
  (∀ b, (b < length h0)%nat → h' !! b = h !! b) →
  (∀ b e', h' !! b = Some (PfMap e') →
           h !! b = Some (PfMap e')
           ∨ ∃ e0 v, h !! b = Some (PfMap e0)
                     ∧ e' = set "version" (PyStr v) e0 ∧ v ≠ ""
                     ∧ get name locked = Some b
                     ∧ req_is_vcs info = false) →
  records_skippable h0 (set name a locked) h'.
Proof.
  intros [Hwf Hlen Hfr Hrg Hsk Hsg] [Ha Hown] Hge Hrec Hlen' Hfr' Hrel.
  cbn [fst snd] in Ha, Hown. unfold own_record_of, heap in *.
  assert (∀ k b, get k (set name a locked) = Some b →
                 (k = name ∧ b = a) ∨ (k ≠ name ∧ get k locked = Some b))
    as Hget.
  { intros k b. destruct (decide (name = k)) as [<-|Hne].
    - rewrite get_set_eq. intros [= <-]. by left.
    - rewrite get_set_ne by done. right. split; [congruence|done]. }
  assert (∀ b e', h' !! b = Some (PfMap e') →
                  requirementslib_is_vcs e' = true →
                  ∃ e0, h !! b = Some (PfMap e0)
                        ∧ requirementslib_is_vcs e0 = true) as Hvcs.
  { intros b e' [He'|(e0 & v & He0 & -> & _)]%Hrel Hv; [by eauto|].
    exists e0. split; [done|]. rewrite <- Hv. symmetry.
    apply requirementslib_is_vcs_set. unfold VCS_LIST. intros H.
    repeat (apply elem_of_cons in H as [?|H]; [done|]).
    by apply elem_of_nil in H. }
  assert (∀ e, rec = PfMap e → requirementslib_is_vcs e = true →
               req_is_vcs info = true ∧ pep423_name name = name) as Hown_vcs.
  { intros e -> Hv. destruct (req_is_vcs info); [by destruct Hrec|].
    destruct (Hrec e eq_refl). congruence. }
  split; unfold heap in *.
  - by apply set_wf.
  - lia.
  - intros b Hb. rewrite Hfr' by done. by apply Hfr.
  - intros k b [[-> ->]|[_ Hk]]%Hget.
    + apply lookup_lt_Some in Ha. lia.
    + rewrite Hlen'. by eapply Hrg.
  - intros k b e' Hk He'.
    destruct (Hrel _ _ He') as [Hsame|(e0 & v & He0 & -> & Hv & Hb & Hno)].
    + destruct (Hget _ _ Hk) as [[-> ->]|[_ Hk']]; [|by eapply Hsk].
      rewrite Ha in Hsame. injection Hsame as Hsame.
      destruct (req_is_vcs info).
      * destruct Hrec as [_ Hrec]. apply skippable_unversioned.
        by apply Hrec.
      * by apply Hrec.
    + apply skippable_set_version; [|done].
      destruct (requirementslib_is_vcs e0) eqn:E0; [|done]. exfalso.
      destruct (Hget _ _ Hk) as [[-> ->]|[Hne Hk']].
      * rewrite Ha in He0. injection He0 as He0. rewrite Hno in Hrec.
        destruct (Hrec e0 He0). congruence.
      * apply Hne. by eapply (Hsg name k b e0).
  - intros k k' b e' Hk Hk' He' Hv.
    destruct (Hvcs _ _ He' Hv) as (e0 & He0 & Hv0).
    assert (b = a → ∀ k0, get k0 (set name a locked) = Some b → k0 = name)
      as Hat_a.
    { intros -> k0 [[-> _]|[Hne Hk0]]%Hget; [done|].
      rewrite Ha in He0. injection He0 as He0.
      destruct (Hown_vcs e0 He0 Hv0) as [_ <-].
      by apply Hown. }
    destruct (decide (b = a)) as [Hba|Hba].
    + rewrite (Hat_a Hba k Hk). by apply Hat_a.
    + destruct (Hget _ _ Hk) as [[_ ?]|[_ Hl]]; [done|].
      destruct (Hget _ _ Hk') as [[_ ?]|[_ Hl']]; [done|].
      by eapply Hsg.
Qed.

Lemma keep_top_level_records info h0 a rec name st st' :
  records_skippable h0 st.1.2 st.2 →
  own_entry a rec (pep423_name name) st →
  (length h0 ≤ a)%nat →
  own_record_of info name rec →
  keep_top_level info a name st = Ok st' →
  records_skippable h0 st'.1.2 st'.2.
Proof.
  destruct st as [[cs locked] h]. cbn [fst snd].
  intros Hst Hown Hge Hrec. unfold keep_top_level.
  change (update locked [(name, a)]) with (set name a locked).
  assert (own_entry a rec (pep423_name name) (∅, locked, h)) as Hown'
    by exact Hown.
  assert (records_skippable h0 (set name a locked) h) as Hkept.
  { eapply (rebind_records info h0 locked h h); try done.
    intros b e' H. by left. }
  destruct (negb (req_is_vcs info)) eqn:Evcs; cbn [mbind result_bind];
    [|by intros [= <-]].
  apply negb_true_iff in Evcs.
  destruct (top_level_version info) as [v|] eqn:Ev;
    cbn [mbind result_bind]; [|by intros [= <-]].
  unfold getitem. destruct (get name locked) as [a0|] eqn:Ea0;
    cbn [mbind result_bind]; [|done].
  unfold setitem_at.
  destruct (h !! a0) as [[s|e0]|] eqn:Eh; cbn [mbind result_bind];
    try done.
  intros [= <-]. cbn [fst snd].
  pose proof (rs_range _ _ _ Hst _ _ Ea0) as Hrange.
  eapply (rebind_records info h0 locked h); try done;
    unfold heap in *.
  - apply length_insert.
  - intros b Hb. apply list_lookup_insert_ne. lia.
  - intros b e'. rewrite list_lookup_insert_Some.
    intros [(<- & [= <-] & _)|[_ H]]; [right|by left].
    exists e0, v. split_and!; try done.
    by eapply top_level_version_nonempty.
Qed.

(** Every record that a call of [get_deps_from_req] leaves in its locked
    map is [skippable]. *)
Lemma get_deps_from_req_records (req : Requirement) :
  Forall requirementslib_entry (discovered req) →
  ∀ resolve_vcs h0 res,
    get_deps_from_req Marker_str resolver pinned_pipfile_entry req
      resolve_vcs h0 = Ok res →
    records_skippable h0 res.1.2 res.2.
Proof.
  induction req as [info requires IH] using Requirement_tree_ind.
  cbn [discovered]. intros [Hinfo Hdeps]%Forall_cons resolve_vcs h0 res.
  apply Forall_flat_map in Hdeps.
  assert (Forall
            (expands_to_skippable
               (fun new_req h =>
                  get_deps_from_req Marker_str resolver pinned_pipfile_entry
                    new_req true h)) requires) as Hrs.
  { pose proof (proj2 (Forall_and _ _) (conj IH Hdeps)) as H.
    eapply Forall_impl; [exact H|].
    intros [[d [new_req|e]]|] [H1 H2]; cbn; [|done..].
    intros h1 res1. by apply H1. }
  cbn [get_deps_from_req].
  destruct (is_fetched info).
  2:{ destruct res as [[cs locked] h]. apply expand_plain_records. }
  destruct (fetch_entry info h0) as [[[a name] st]|] eqn:Ef; [|done].
  destruct (fetch_entry_records _ _ _ _ _ Hinfo Ef)
    as (rec & Hst & Hown & Hge & Hrec).
  destruct (reads_requires info resolve_vcs).
  - destruct (expand_all _ info requires st) as [st1|] eqn:Ea; [|done].
    destruct (expand_all_records _ _ _ _ _ _ _ _ _ Hrs Hst Hown Ea)
      as [Hst1 Hown1].
    by apply (keep_top_level_records info h0 a rec name).
  - by apply (keep_top_level_records info h0 a rec name).
Qed.

End skipped_records.

(** C6.  A final lockfile entry of a VCS requirement, and one that is
    editable, has no [version] key, on both ways into the lockfile.
    Formatted from solver output, [format_requirement_for_lockfile]
    deletes the key.  On the way through the skipped map the records are
    those that a call of [get_deps_from_req] leaves in its locked map
    ([get_metadata] copies them into the skipped map as they are): for
    each of them, with the requirement that [Requirement.from_pipfile]
    builds of it, the entry [_clean_skipped_result] returns has no
    [version] when that requirement is a VCS requirement or the record is
    flagged editable.  This is so because [get_deps_from_req] writes a
    version only for a requirement that is no VCS requirement and into
    the record bound under its name, the version it writes is not empty,
    and [_clean_skipped_result] deletes a version that is not empty from
    an editable record.  Of requirementslib it is taken that the Pipfile
    entry of a VCS requirement has no [version]; that the entry of any
    other requirement has no VCS key and, if flagged editable, no empty
    [version]; that the entry of a requirement pinned to the finder's
    best candidate is [skippable]; and that [from_pipfile] builds a VCS
    requirement exactly of a record with a VCS key. *)
Theorem vcs_and_editable_entries_version
    (Marker_str : string → result string)
    (resolver : option Resolver)
    (pinned_pipfile_entry :
       ReqInfo → string → gset string → string * pf_value)
    (collect_hashes_of :
       InstallRequirement → hash_cache → result (gset string * hash_cache))
    (from_pipfile : string → entry → ReqInfo)
    (req : ReqInfo) (markers_lookup index_lookup : dict string)
    (hashes : list string)
    (top : Requirement) (resolve_vcs : bool) (h0 h : heap)
    (constraints : constraint_set) (skipped : locked_map)
    (k : string) (a : nat) (value : entry) (cache : hash_cache) :
  is_Some (truthy_str (req_vcs req)) ∨ req_editable req = true →
  Forall requirementslib_entry (discovered top) →
  (∀ info v hs e,
     (pinned_pipfile_entry info v hs).2 = PfMap e → skippable e) →
  (∀ k v, req_is_vcs (from_pipfile k v) = requirementslib_is_vcs v) →
  get_deps_from_req Marker_str resolver pinned_pipfile_entry top resolve_vcs
    h0 = Ok (constraints, skipped, h) →
  get k skipped = Some a →
  h !! a = Some (PfMap value) →
  req_is_vcs (from_pipfile k value) = true
  ∨ truthy_at "editable" value = true →
  match format_requirement_for_lockfile Marker_str req markers_lookup
          index_lookup hashes with
  | Ok (_, e) => get "version" e = None
  | Raise _ => True
  end
  ∧ match _clean_skipped_result collect_hashes_of (from_pipfile k value)
            value cache with
    | Ok (_, e, _) => get "version" e = None
    | Raise _ => True
    end.
Proof.
  intros Hreq Hlib Hpinned Hfrom Hrun Hk Ha Hvalue. split.
  - destruct (format_requirement_for_lockfile _ _ _ _ _) as [[name e]|]
      eqn:E; [|done].
    by eapply format_requirement_for_lockfile_unversioned.
  - destruct (_clean_skipped_result _ _ _ _) as [[[name e] cache']|] eqn:E;
      [|done].
    rewrite (_clean_skipped_result_version _ _ _ _ _ _ _ E).
    pose proof (get_deps_from_req_records Marker_str resolver
                  pinned_pipfile_entry Hpinned top Hlib resolve_vcs h0 _
                  Hrun) as Hrec.
    destruct (rs_skippable _ _ _ Hrec k a value Hk Ha) as [Hvcs Hed].
    rewrite Hfrom in Hvalue.
    destruct (truthy_at "editable" value) eqn:Ee; cbn [andb].
    + destruct (truthy_at "version" value) eqn:Ev; [done|].
      destruct (get "version" value) as [v|] eqn:Eg; [|done].
      unfold mem in Hed. rewrite Eg in Hed.
      by specialize (Hed eq_refl eq_refl).
    + destruct Hvalue as [Hv|]; [|done]. by apply Hvcs.
Qed.

Lemma vcs_and_editable_entries_version_witness :
  let app_record : entry :=
    [("path", PyStr "./app"); ("editable", PyBool true);
     ("version", PyStr "==0.1")] in
  let requests_record : entry :=
    [("git", PyStr "https://github.com/psf/requests.git");
     ("ref", PyStr "0123abcd")] in
  get_deps_from_req packaging_Marker_str
    (Some ExpanderSamples.one_release) ExpanderSamples.pinned_entry
    SkippedSamples.app_with_requests_git true []
  = Ok (∅, [("app", 0%nat); ("requests", 1%nat)],
        [PfMap app_record; PfMap requests_record])
  ∧ match format_requirement_for_lockfile packaging_Marker_str
            Samples.requests_git [] [] [] with
    | Ok (_, e) => get "version" e = None
    | Raise _ => True
    end
  ∧ match _clean_skipped_result Samples.offline_collect_hashes
            (SkippedSamples.from_pipfile "requests" requests_record)
            requests_record ∅ with
    | Ok (_, e, _) => get "version" e = None
    | Raise _ => True
    end
  ∧ match _clean_skipped_result Samples.offline_collect_hashes
            (SkippedSamples.from_pipfile "app" app_record)
            app_record ∅ with
    | Ok (_, e, _) => get "version" e = None
    | Raise _ => True
    end.
Proof.
  intros app_record requests_record.
  assert (get_deps_from_req packaging_Marker_str
            (Some ExpanderSamples.one_release) ExpanderSamples.pinned_entry
            SkippedSamples.app_with_requests_git true []
          = Ok (∅, [("app", 0%nat); ("requests", 1%nat)],
                [PfMap app_record; PfMap requests_record])) as Hrun
    by (vm_compute; reflexivity).
  assert (Forall requirementslib_entry
            (discovered SkippedSamples.app_with_requests_git)) as Hlib.
  { cbn [discovered SkippedSamples.app_with_requests_git flat_map app].
    apply Forall_cons. split; [|apply Forall_cons; split; [|done]].
    - intros e0 [= <-]. split; [reflexivity|].
      by apply skippable_unversioned.
    - intros e0 [= <-]. reflexivity. }
  assert (∀ info v hs e,
            (ExpanderSamples.pinned_entry info v hs).2 = PfMap e →
            skippable e) as Hpinned.
  { intros info v hs e0 [= <-]. split; [done|]. intros _ _. reflexivity. }
  pose proof (vcs_and_editable_entries_version packaging_Marker_str
                (Some ExpanderSamples.one_release)
                ExpanderSamples.pinned_entry
                Samples.offline_collect_hashes SkippedSamples.from_pipfile
                Samples.requests_git [] [] []) as H.
  destruct (H _ _ _ _ _ _ "requests" 1%nat requests_record ∅
              ltac:(left; vm_compute; eauto) Hlib Hpinned
              ltac:(reflexivity) Hrun eq_refl eq_refl
              ltac:(left; reflexivity)) as [Hformat Hrequests].
  destruct (H _ _ _ _ _ _ "app" 0%nat app_record ∅
              ltac:(left; vm_compute; eauto) Hlib Hpinned
              ltac:(reflexivity) Hrun eq_refl eq_refl
              ltac:(right; reflexivity)) as [_ Happ].
  exact (conj Hrun (conj Hformat (conj Hrequests Happ))).
Defined.
